(** * Book summarizer backend: ingestion pipeline and query protocol

    A shallow embedding of the Python backend
    ([app/services], [app/tasks/pdf_processing_tasks.py],
    [app/api/v1/endpoints/documents.py]) and the properties of its
    natural-language specification.

    Python values are modelled as follows.
    - [str] is [string]: one [ascii] per character, the code points
      0 to 255; [int] is [Z], [list] is [list], [dict] used as a table is
      [gmap], [None]-or-value is [option].
    - A Python [float] that only carries a measurement (a distance, a
      relevance score) is the rational [Q] it denotes; NaN is not modelled.
    - The products [int(x * 1.3)], [int(x * 0.8)] and [int(x * 0.1)] are the
      exact quotients truncated towards zero ([Z.quot]).
    - Code that mutates the outside world runs in the monad [M]: a function
      of the [World] that returns an [outcome] and the new [World]. *)

From Stdlib Require Import ZArith QArith String Ascii List Lia.
From Stdlib Require DecimalString.
From stdpp Require Import gmap strings list fin_maps sorting.

Local Open Scope Z_scope.

(** ** Python built-ins *)

Module Py.

Definition nl : string := String (ascii_of_nat 10) EmptyString.
Definition dq : string := String (ascii_of_nat 34) EmptyString.

(** [str(n)] for an [int]. *)
Definition str_of_int (n : Z) : string :=
  DecimalString.NilZero.string_of_int (Z.to_int n).

(** [len(s)] for a [str]. *)
Definition len (s : string) : Z := Z.of_nat (String.length s).

(** Truth value of a [str]: only the empty string is false. *)
Definition truthy (s : string) : bool :=
  match s with EmptyString => false | String _ _ => true end.

(** Truth value of an [Optional[str]]. *)
Definition truthy_opt (o : option string) : bool :=
  match o with None => false | Some s => truthy s end.

(** [sep.join(l)]. *)
Fixpoint join (sep : string) (l : list string) : string :=
  match l with
  | [] => EmptyString
  | [s] => s
  | s :: rest => s +:+ sep +:+ join sep rest
  end.

(** [s.startswith(p)]. *)
Fixpoint startswith (p s : string) : bool :=
  match p, s with
  | EmptyString, _ => true
  | String a p', String b s' => if Ascii.eqb a b then startswith p' s' else false
  | String _ _, EmptyString => false
  end.

Fixpoint rev_string (acc s : string) : string :=
  match s with
  | EmptyString => acc
  | String c s' => rev_string (String c acc) s'
  end.

(** [s.split(sep)] for a non-empty [sep]: the segments between the
    leftmost non-overlapping occurrences of [sep].  [skip] counts the
    characters of a matched separator still to be passed over, [cur] is the
    current segment, reversed. *)
Fixpoint split_go (sep : string) (skip : nat) (cur : string) (s : string)
  : list string :=
  match skip with
  | S k =>
      match s with
      | EmptyString => [rev_string EmptyString cur]
      | String _ s' => split_go sep k cur s'
      end
  | O =>
      match s with
      | EmptyString => [rev_string EmptyString cur]
      | String c s' =>
          if startswith sep s
          then rev_string EmptyString cur
                 :: split_go sep (String.length sep - 1) EmptyString s'
          else split_go sep O (String c cur) s'
      end
  end.

Definition split (sep s : string) : list string :=
  split_go sep O EmptyString s.

(** [s.rsplit(c, 1)] for a one-character separator: the text before the
    last [c] and the text after it, or [s] alone when [c] does not occur. *)
Fixpoint rsplit1 (c : ascii) (s : string) : list string :=
  match s with
  | EmptyString => [EmptyString]
  | String a s' =>
      match rsplit1 c s' with
      | [t] => if Ascii.eqb a c then [EmptyString; t] else [String a t]
      | h :: tl => String a h :: tl
      | [] => []
      end
  end.

(** [c in s] for a character [c]. *)
Fixpoint occurs (c : ascii) (s : string) : bool :=
  match s with
  | EmptyString => false
  | String a s' => if Ascii.eqb a c then true else occurs c s'
  end.

(** [c.isspace()], the characters removed by [str.strip()]: among the
    code points 0 to 255 these are 9 to 13, 28 to 32, 133 (U+0085) and
    160 (U+00A0). *)
Definition isspace (a : ascii) : bool :=
  let n := nat_of_ascii a in
  ((9 <=? n)%nat && (n <=? 13)%nat) || ((28 <=? n)%nat && (n <=? 32)%nat)
  || (n =? 133)%nat || (n =? 160)%nat.

Fixpoint lstrip (s : string) : string :=
  match s with
  | EmptyString => EmptyString
  | String a s' => if isspace a then lstrip s' else s
  end.

Fixpoint rstrip (s : string) : string :=
  match s with
  | EmptyString => EmptyString
  | String a s' =>
      match rstrip s' with
      | EmptyString => if isspace a then EmptyString else String a EmptyString
      | t => String a t
      end
  end.

Definition strip (s : string) : string := rstrip (lstrip s).

(** [s.lstrip(c)] for a one-character argument. *)
Fixpoint lstrip_char (c : ascii) (s : string) : string :=
  match s with
  | EmptyString => EmptyString
  | String a s' => if Ascii.eqb a c then lstrip_char c s' else s
  end.

(** [l[:n]]: the first [n] items, or all but the last [-n] when [n < 0]. *)
Definition slice_to {A} (l : list A) (n : Z) : list A :=
  if 0 <=? n then take (Z.to_nat n) l
  else take (Z.to_nat (Z.of_nat (length l) + n)) l.

(** [l[-1]] of a non-empty list. *)
Definition last_item (l : list string) : string := List.last l EmptyString.

(** [int(x * 1.3)], [int(x * 0.8)], [int(x * 0.1)]. *)
Definition int_mul_1_3 (x : Z) : Z := Z.quot (13 * x) 10.
Definition int_mul_0_8 (x : Z) : Z := Z.quot (8 * x) 10.
Definition int_mul_0_1 (x : Z) : Z := Z.quot x 10.

End Py.


(** ** Exceptions, records and the outside world *)

(** The exception classes the code raises or catches.  [LibraryError]
    stands for whatever a library call raises (httpx, botocore, chromadb,
    fitz, SQLAlchemy, langchain). *)
Inductive PyExc : Type :=
| ValueError (msg : string)
| RuntimeError (msg : string)
| AttributeError (msg : string)
| IndexError (msg : string)
| LibraryError (msg : string)
| HTTPException (status_code : Z) (detail : string).

(** [str(e)]. *)
Definition str_exc (e : PyExc) : string :=
  match e with
  | ValueError m | RuntimeError m | AttributeError m | IndexError m
  | LibraryError m => m
  | HTTPException c d => Py.str_of_int c +:+ ": " +:+ d
  end.

(** What a library call gives back: a value or an exception. *)
Inductive result (A : Type) : Type :=
| Ok (a : A)
| Raises (e : PyExc).
Arguments Ok {A} a.
Arguments Raises {A} e.

Definition bytes : Type := list Byte.byte.
Definition embedding : Type := list Q.

(** [app/db/models.py] *)
Module models.

Inductive DocumentStatus : Type := PENDING | PROCESSING | COMPLETED | FAILED.

(** [DocumentStatus.value] *)
Definition value (s : DocumentStatus) : string :=
  match s with
  | PENDING => "pending"
  | PROCESSING => "processing"
  | COMPLETED => "completed"
  | FAILED => "failed"
  end.

Record Document : Type := {
  id : Z;
  title : string;
  file_path : string;
  file_size_bytes : option Z;
  processing_status : DocumentStatus;
  summary : option string;
  celery_task_id : option string;
  owner_id : Z
}.

Definition set_processing_status (s : DocumentStatus) (d : Document) : Document :=
  {| id := id d; title := title d; file_path := file_path d;
     file_size_bytes := file_size_bytes d; processing_status := s;
     summary := summary d; celery_task_id := celery_task_id d;
     owner_id := owner_id d |}.

Definition set_summary (s : option string) (d : Document) : Document :=
  {| id := id d; title := title d; file_path := file_path d;
     file_size_bytes := file_size_bytes d;
     processing_status := processing_status d;
     summary := s; celery_task_id := celery_task_id d;
     owner_id := owner_id d |}.

End models.

(** One record of a vector collection, as [collection.add] stores it. *)
Record StoredChunk : Type := {
  chunk_id : string;
  chunk_document : string;
  chunk_embedding : embedding;
  chunk_metadata : option Z
}.

(** The dictionary [collection.query] returns with
    [include=['documents', 'distances', 'metadatas']]: one inner list per
    query embedding. *)
Record QueryResult : Type := {
  ids : list (list string);
  documents : list (list string);
  distances : list (list Q);
  metadatas : list (list (option Z))
}.

(** A candidate passage: the dictionary built by [query_collection], with
    the key [relevance_score] once the reranker has scored it. *)
Record Candidate : Type := {
  cand_id : string;
  cand_document : string;
  cand_distance : Q;
  cand_metadata : option Z;
  relevance_score : option Q
}.

(** The [meta] of a Celery [update_state] call. *)
Inductive TaskMeta : Type :=
| MetaProgress (stage : string) (current_progress : Z)
| MetaExc (exc : string) (current_progress : Z).

(** What the request to the generation service comes to: the two
    [httpx] exceptions that [generate_text] names, the list under
    ["text"] of a JSON reply ([None] when there is none), or any other
    exception raised under the [try] of [generate_text] (a body that is
    not JSON, a text that is not a string, the recursion limit of the
    interpreter). *)
Inductive HttpReply : Type :=
| RequestError
| HTTPStatusError
| Json (text : option (list string))
| Raised.

(** The state of everything the backend talks to. *)
Record World : Type := {
  db_documents : gmap Z models.Document;     (* table [documents] *)
  s3_objects : gmap string bytes;            (* the bucket *)
  chroma : gmap string (list StoredChunk);   (* vector collections by name *)
  task_states : list (string * TaskMeta);    (* [update_state] calls, oldest first *)
  llm_requests : list (string * Z);          (* prompt and [max_tokens] of each request *)
  temp_files : gmap nat bytes;               (* temporary files by path *)
  temp_counter : nat                         (* next fresh temporary path *)
}.

Definition set_db_documents (f : gmap Z models.Document -> gmap Z models.Document)
  (w : World) : World :=
  {| db_documents := f (db_documents w); s3_objects := s3_objects w;
     chroma := chroma w; task_states := task_states w;
     llm_requests := llm_requests w; temp_files := temp_files w;
     temp_counter := temp_counter w |}.

Definition set_s3_objects (f : gmap string bytes -> gmap string bytes)
  (w : World) : World :=
  {| db_documents := db_documents w; s3_objects := f (s3_objects w);
     chroma := chroma w; task_states := task_states w;
     llm_requests := llm_requests w; temp_files := temp_files w;
     temp_counter := temp_counter w |}.

Definition set_chroma
  (f : gmap string (list StoredChunk) -> gmap string (list StoredChunk))
  (w : World) : World :=
  {| db_documents := db_documents w; s3_objects := s3_objects w;
     chroma := f (chroma w); task_states := task_states w;
     llm_requests := llm_requests w; temp_files := temp_files w;
     temp_counter := temp_counter w |}.

Definition set_task_states
  (f : list (string * TaskMeta) -> list (string * TaskMeta)) (w : World) : World :=
  {| db_documents := db_documents w; s3_objects := s3_objects w;
     chroma := chroma w; task_states := f (task_states w);
     llm_requests := llm_requests w; temp_files := temp_files w;
     temp_counter := temp_counter w |}.

Definition set_llm_requests
  (f : list (string * Z) -> list (string * Z)) (w : World) : World :=
  {| db_documents := db_documents w; s3_objects := s3_objects w;
     chroma := chroma w; task_states := task_states w;
     llm_requests := f (llm_requests w); temp_files := temp_files w;
     temp_counter := temp_counter w |}.

Definition set_temp_files (f : gmap nat bytes -> gmap nat bytes) (n : nat)
  (w : World) : World :=
  {| db_documents := db_documents w; s3_objects := s3_objects w;
     chroma := chroma w; task_states := task_states w;
     llm_requests := llm_requests w; temp_files := f (temp_files w);
     temp_counter := n |}.

(** The libraries and remote services, as the code sees them. *)
Record Services : Type := {
  (* transformers: [tokenizer.encode(text)] *)
  tokenizer_encode : string -> list Z;
  (* langchain: [RecursiveCharacterTextSplitter(chunk_size, chunk_overlap,
     length_function).split_text(text)] *)
  split_text : Z -> Z -> (string -> Z) -> string -> result (list string);
  (* generation service: the reply to the request number [n] *)
  llm_post : nat -> string -> Z -> HttpReply;
  (* botocore: does [get_object] / [delete_object] raise for this key *)
  s3_get_fails : string -> bool;
  s3_delete_fails : string -> bool;
  (* urllib: [urlparse(url).path] and [unquote] *)
  urlparse_path : string -> string;
  unquote : string -> string;
  (* fitz: the text of each page of a document *)
  fitz_pages : bytes -> result (list string);
  (* sentence-transformers: the models, [None] when loading failed *)
  embedding_model : option (list string -> result (list embedding));
  cross_encoder : option (list (string * string) -> result (list Q));
  (* chromadb: was the client created, and which calls raise *)
  chroma_client : bool;
  chroma_get_or_create_fails : string -> bool;
  chroma_add_fails : string -> list string -> bool;
  chroma_query : list StoredChunk -> list embedding -> Z -> result QueryResult;
  chroma_delete_fails : string -> bool;
  (* SQLAlchemy: does deleting this row raise *)
  db_delete_fails : Z -> bool
}.

(** The database session and the task-state backend of the worker: the
    exception, if any, that a call raises.  It may depend on everything
    that has happened so far, the world; a call that raises leaves the
    world as it is, so that the same call made again in that world --
    on a session that has not been rolled back -- raises again. *)
Record Backend : Type := {
  (* SQLAlchemy: [db.add(document); db.commit()] for the row with this
     id; when it raises the row is not written *)
  db_commit_raises : World -> Z -> option PyExc;
  (* SQLAlchemy: [db.refresh(document)], after the commit has written
     the row *)
  db_refresh_raises : World -> Z -> option PyExc;
  (* Celery: [self.update_state(state=..., meta=...)] *)
  update_state_raises : World -> string -> TaskMeta -> option PyExc
}.

(** ** The monad of effectful code *)

Inductive outcome (A : Type) : Type :=
| Ret (a : A)         (* the call returns [a] *)
| Exc (e : PyExc)     (* the call raises [e] *)
| OutOfFuel.          (* the recursion went deeper than the fuel given *)
Arguments Ret {A} a.
Arguments Exc {A} e.
Arguments OutOfFuel {A}.

Definition M (A : Type) : Type := World -> outcome A * World.

Definition ret {A} (a : A) : M A := fun w => (Ret a, w).

Definition raise {A} (e : PyExc) : M A := fun w => (Exc e, w).

Definition bind {A B} (m : M A) (k : A -> M B) : M B :=
  fun w =>
    match m w with
    | (Ret a, w') => k a w'
    | (Exc e, w') => (Exc e, w')
    | (OutOfFuel, w') => (OutOfFuel, w')
    end.

Notation "'let*' x ':=' m 'in' k" := (bind m (fun x => k))
  (at level 10, x pattern, m at level 100, k at level 200).

Definition get_world : M World := fun w => (Ret w, w).

Definition modify (f : World -> World) : M unit := fun w => (Ret tt, f w).

(** [try: body except Exception as e: handler(e)] *)
Definition try_except {A} (body : M A) (handler : PyExc -> M A) : M A :=
  fun w =>
    match body w with
    | (Exc e, w') => handler e w'
    | r => r
    end.

(** [try: body finally: cleanup] *)
Definition try_finally {A} (body : M A) (cleanup : M unit) : M A :=
  fun w =>
    match body w with
    | (OutOfFuel, w') => (OutOfFuel, w')
    | (r, w') =>
        match cleanup w' with
        | (Ret _, w'') => (r, w'')
        | (Exc e, w'') => (Exc e, w'')
        | (OutOfFuel, w'') => (OutOfFuel, w'')
        end
    end.

(** A library call whose exception propagates. *)
Definition lift_result {A} (r : result A) : M A :=
  match r with
  | Ok a => ret a
  | Raises e => raise e
  end.

(** A call that raises, leaving everything as it is, when [raises] has an
    exception for the world it is made in, and is [m] otherwise. *)
Definition guarded {A} (raises : World -> option PyExc) (m : M A) : M A :=
  fun w =>
    match raises w with
    | Some e => (Exc e, w)
    | None => m w
    end.

(** ** [app/services/llm_service.py] *)

Module llm_service.

Import Py.

(** The fixed text of the three prompt templates, as passed to
    [count_tokens] at the start of [generate_summary]. *)
Definition scaffold_direct : string :=
  "[INST] Provide a comprehensive and detailed summary of the following document. "
  +:+ "Cover all main points, key arguments, and the overall conclusion thoroughly. "
  +:+ "The summary should be easy to understand and provide a complete overview "
  +:+ "of the content."
  +:+ nl +:+ nl +:+ "Document:" +:+ nl +:+ nl
  +:+ "Comprehensive Document Summary: [/INST]".

Definition scaffold_section : string :=
  "[INST] Summarize the following section of a larger document. Focus on the "
  +:+ "main points and key information presented in this specific section. Ensure "
  +:+ "it is a self-contained summary of THIS section only. Do not provide a conclusion "
  +:+ "for the entire document or transition phrases that suggest continuation "
  +:+ "from previous sections. Do not mention the section of the document you are "
  +:+ "summarizing."
  +:+ nl +:+ nl +:+ "Section X:" +:+ nl +:+ nl
  +:+ "Section X Summary: [/INST]".

Definition scaffold_reduce : string :=
  "[INST] You have been provided with several summaries of different sections "
  +:+ "of a single large document. Your primary task is to synthesize these individual "
  +:+ "summaries into one comprehensive, detailed, and cohesive summary of the "
  +:+ "entire document. Crucially, remove all references to specific sections or "
  +:+ "chapters (e.g., " +:+ dq +:+ "In Section X" +:+ dq +:+ ", "
  +:+ dq +:+ "Chapter Y discusses" +:+ dq
  +:+ "). Integrate the information smoothly as if it were a single narrative. "
  +:+ "Ensure a logical flow, integrate the main ideas from all sections, and avoid "
  +:+ "redundancy. Provide a thorough overview that captures the essence and key "
  +:+ "insights of the full content."
  +:+ nl +:+ nl +:+ "Section Summaries:" +:+ nl +:+ nl
  +:+ "Comprehensive Document Summary: [/INST]".

(** The f-string [prompt] of the direct path. *)
Definition direct_prompt (text_content : string) : string :=
  "[INST] Provide a comprehensive and detailed summary of the following document. "
  +:+ "Cover all main points, key arguments, and the overall conclusion thoroughly. "
  +:+ "The summary should be easy to understand and provide a complete overview "
  +:+ "of the content."
  +:+ nl +:+ nl
  +:+ "            Document:" +:+ nl
  +:+ "            " +:+ text_content
  +:+ nl +:+ nl
  +:+ "            Comprehensive Document Summary: [/INST]".

(** The f-string [chunk_summary_prompt]; [n] is [i+1]. *)
Definition chunk_summary_prompt (n : Z) (chunk : string) : string :=
  "[INST] Summarize the following section of a larger document. Focus on the "
  +:+ "main points and key information presented in this specific section. Ensure "
  +:+ "it is a self-contained summary of THIS section only. Do not provide a conclusion "
  +:+ "for the entire document or transition phrases that suggest continuation "
  +:+ "from previous sections. **Do not mention the section of the document you "
  +:+ "are summarizing (e.g., " +:+ dq +:+ "In Section X" +:+ dq +:+ ").**"
  +:+ nl +:+ nl
  +:+ "                Section " +:+ str_of_int n +:+ ":" +:+ nl
  +:+ "                " +:+ chunk
  +:+ nl +:+ nl
  +:+ "                Section " +:+ str_of_int n +:+ " Summary: [/INST]".

(** The f-string [final_reduce_prompt]. *)
Definition final_reduce_prompt (combined_summaries_text : string) : string :=
  "[INST] You have been provided with several summaries of different sections "
  +:+ "of a single large document."
  +:+ nl +:+ nl
  +:+ "                Your primary task is to **synthesize these individual summaries "
  +:+ "into one comprehensive, detailed, and cohesive summary of the entire document.**"
  +:+ nl +:+ nl
  +:+ "                **Crucially, remove all references to specific sections "
  +:+ "or chapters (e.g., " +:+ dq +:+ "In Section X" +:+ dq +:+ ", "
  +:+ dq +:+ "Chapter Y discusses" +:+ dq
  +:+ "). Integrate the information smoothly as if it were a single narrative.**"
  +:+ nl +:+ nl
  +:+ "                Ensure a logical flow, integrate the main ideas from all "
  +:+ "sections, and avoid redundancy. Provide a thorough overview that captures "
  +:+ "the essence and key insights of the full content."
  +:+ nl +:+ nl
  +:+ "                Section Summaries:" +:+ nl
  +:+ "                " +:+ combined_summaries_text
  +:+ nl +:+ nl
  +:+ "                Comprehensive Document Summary: [/INST]".

(** What one pass of [generate_summary] ends with: a [return], or the
    call of itself on the combined section summaries, whose result it
    returns unchanged. *)
Inductive Next : Type :=
| Return (summary : option string)
| Recurse (combined_summaries_text : string).

Section service.

Variable svc : Services.

Definition count_tokens (text : string) : Z :=
  Z.of_nat (length (tokenizer_encode svc text)).

Definition _words_to_tokens (words : Z) : Z := int_mul_1_3 words.

(** One POST to [/generate].  [self.client] is always set by [__init__].
    Every exception is caught and turned into [None]; so is a reply
    without a non-empty list under ["text"].  The request is recorded in
    [llm_requests]; its number selects the reply. *)
Definition generate_text (prompt : string) (max_tokens : Z) : M (option string) :=
  fun w =>
    let reply := llm_post svc (length (llm_requests w)) prompt max_tokens in
    let w' := set_llm_requests (fun l => l ++ [(prompt, max_tokens)]) w in
    match reply with
    | Json (Some (generated_text :: _)) =>
        (* generated_text.split("[/INST]")[1] if "[/INST]" in generated_text *)
        match split "[/INST]" generated_text with
        | _ :: after :: _ => (Ret (Some after), w')
        | _ => (Ret (Some generated_text), w')
        end
    | Json (Some []) | Json None => (Ret None, w')
    | RequestError | HTTPStatusError | Raised => (Ret None, w')
    end.

(** The loop [for i, chunk in enumerate(chunks)]; [i] is the index of the
    first chunk of [chunks], [summaries] the list built so far. *)
Fixpoint summarize_chunks (max_input_tokens max_tokens_per_chunk_summary : Z)
  (i : Z) (chunks : list string) (summaries : list string) : M (list string) :=
  match chunks with
  | [] => ret summaries
  | chunk :: rest =>
      let prompt := chunk_summary_prompt (i + 1) chunk in
      if count_tokens prompt >? max_input_tokens
      then summarize_chunks max_input_tokens max_tokens_per_chunk_summary
             (i + 1) rest summaries
      else
        let* chunk_summary := generate_text prompt max_tokens_per_chunk_summary in
        summarize_chunks max_input_tokens max_tokens_per_chunk_summary (i + 1) rest
          (match chunk_summary with
           | Some s => if truthy s then summaries ++ [s] else summaries
           | None => summaries
           end)
  end.

Definition effective_content_limit_for_splitting (max_input_tokens : Z) : Z :=
  max_input_tokens
  - Z.max (Z.max (count_tokens scaffold_direct) (count_tokens scaffold_section))
      (count_tokens scaffold_reduce).

(** The body of [generate_summary] up to its recursive call. *)
Definition generate_summary_pass (text_content : string)
  (max_input_tokens words_per_chunk_summary : Z) : M Next :=
  let limit := effective_content_limit_for_splitting max_input_tokens in
  if count_tokens text_content <=? limit then
    let direct_summary_max_tokens := _words_to_tokens (words_per_chunk_summary * 2) in
    let* summary := generate_text (direct_prompt text_content) direct_summary_max_tokens in
    ret (Return summary)
  else
    let chunk_size_for_summarization := int_mul_0_8 limit in
    let chunk_overlap_for_summarization := int_mul_0_1 chunk_size_for_summarization in
    let* chunks :=
      lift_result (split_text svc chunk_size_for_summarization
                     chunk_overlap_for_summarization count_tokens text_content) in
    let max_tokens_per_chunk_summary := _words_to_tokens words_per_chunk_summary in
    let* summaries :=
      summarize_chunks max_input_tokens max_tokens_per_chunk_summary 0 chunks [] in
    match summaries with
    | [] => ret (Return None)
    | _ :: _ =>
        let combined_summaries_text := join (nl +:+ nl) summaries in
        if count_tokens combined_summaries_text >? limit then
          ret (Recurse combined_summaries_text)
        else
          let desired_total_summary_words :=
            Z.of_nat (length chunks) * words_per_chunk_summary in
          let max_final_summary_tokens_cap := 3000 in
          let final_summary_max_tokens :=
            Z.min (_words_to_tokens desired_total_summary_words)
              max_final_summary_tokens_cap in
          let* final_summary :=
            generate_text (final_reduce_prompt combined_summaries_text)
              final_summary_max_tokens in
          match final_summary with
          | None =>
              raise (AttributeError "'NoneType' object has no attribute 'rsplit'")
          | Some final_summary =>
              match rsplit1 "." final_summary with
              | part0 :: _ => ret (Return (Some (strip part0 +:+ ".")))
              | [] => raise (IndexError "list index out of range")
              end
          end
    end.

(** [generate_summary]: a pass, then the same on the combined summaries
    when the pass asks for it.  [fuel] bounds the nesting of calls, which
    the code itself does not bound: [OutOfFuel] says that the nesting
    goes beyond [fuel], not what the call does then (for that see
    [generate_summary_within] below). *)
Fixpoint generate_summary (fuel : nat) (text_content : string)
  (max_input_tokens words_per_chunk_summary : Z) : M (option string) :=
  match fuel with
  | O => fun w => (OutOfFuel, w)
  | S fuel' =>
      let* next :=
        generate_summary_pass text_content max_input_tokens words_per_chunk_summary in
      match next with
      | Return summary => ret summary
      | Recurse combined_summaries_text =>
          generate_summary fuel' combined_summaries_text max_input_tokens
            words_per_chunk_summary
      end
  end.

(** [nested max wpcs (t, w) (t', w')]: the call of [generate_summary] on
    the text [t] in the world [w] leads, through its recursive calls, to a
    call on [t'] in the world [w']. *)
Inductive nested (max_input_tokens words_per_chunk_summary : Z)
  : string * World -> string * World -> Prop :=
| nested_here x : nested max_input_tokens words_per_chunk_summary x x
| nested_call t w t1 w1 y :
    generate_summary_pass t max_input_tokens words_per_chunk_summary w
    = (Ret (Recurse t1), w1) ->
    nested max_input_tokens words_per_chunk_summary (t1, w1) y ->
    nested max_input_tokens words_per_chunk_summary (t, w) y.

End service.

(** The services as a call finds them where the stack of the interpreter
    is used up: the request of [generate_text], the deepest call of a
    pass, raises [RecursionError] under the [try]. *)
Definition exhausted (svc : Services) : Services :=
  {| tokenizer_encode := tokenizer_encode svc;
     split_text := split_text svc;
     llm_post := fun _ _ _ => Raised;
     s3_get_fails := s3_get_fails svc;
     s3_delete_fails := s3_delete_fails svc;
     urlparse_path := urlparse_path svc;
     unquote := unquote svc;
     fitz_pages := fitz_pages svc;
     embedding_model := embedding_model svc;
     cross_encoder := cross_encoder svc;
     chroma_client := chroma_client svc;
     chroma_get_or_create_fails := chroma_get_or_create_fails svc;
     chroma_add_fails := chroma_add_fails svc;
     chroma_query := chroma_query svc;
     chroma_delete_fails := chroma_delete_fails svc;
     db_delete_fails := db_delete_fails svc |}.

(** [generate_summary] as the interpreter runs it.  The code puts no
    bound on the nesting of its calls; the interpreter does: [depth] is
    the number of nested calls its recursion limit leaves room for.  The
    call that has no room left runs its pass with the requests raising
    [RecursionError], and a nested call from there would raise it
    too. *)
Fixpoint generate_summary_within (svc : Services) (depth : nat)
  (text_content : string) (max_input_tokens words_per_chunk_summary : Z)
  : M (option string) :=
  match depth with
  | O =>
      let* next :=
        generate_summary_pass (exhausted svc) text_content max_input_tokens
          words_per_chunk_summary in
      match next with
      | Return summary => ret summary
      | Recurse _ => raise (RuntimeError "maximum recursion depth exceeded")
      end
  | S depth' =>
      let* next :=
        generate_summary_pass svc text_content max_input_tokens
          words_per_chunk_summary in
      match next with
      | Return summary => ret summary
      | Recurse combined_summaries_text =>
          generate_summary_within svc depth' combined_summaries_text
            max_input_tokens words_per_chunk_summary
      end
  end.

End llm_service.

(** ** [app/services/s3_service.py] *)

Module s3_service.

Section service.

Variable svc : Services.

(** [download_file]: the content, or [None] when [get_object] raises
    (a missing key raises [NoSuchKey]). *)
Definition download_file (object_name : string) : M (option bytes) :=
  fun w =>
    if s3_get_fails svc object_name then (Ret None, w)
    else (Ret (s3_objects w !! object_name), w).

(** [delete_file]: [True] once [delete_object] has returned, [False] when
    it raised. *)
Definition delete_file (object_name : string) : M bool :=
  fun w =>
    if s3_delete_fails svc object_name then (Ret false, w)
    else (Ret true, set_s3_objects (delete object_name) w).

End service.

End s3_service.

(** ** [app/services/embedding_service.py] *)

Module embedding_service.

Definition get_embeddings (svc : Services) (texts : list string) : list embedding :=
  match embedding_model svc with
  | None => []
  | Some encode =>
      match encode texts with
      | Ok embeddings => embeddings
      | Raises _ => []
      end
  end.

End embedding_service.

(** ** [app/services/vector_db_service.py]

    A collection object is modelled by the name of the collection. *)

Module vector_db_service.

Section service.

Variable svc : Services.

Definition get_or_create_collection (collection_name : string) : M (option string) :=
  fun w =>
    if negb (chroma_client svc) then (Ret None, w)
    else if chroma_get_or_create_fails svc collection_name then (Ret None, w)
    else
      match chroma w !! collection_name with
      | Some _ => (Ret (Some collection_name), w)
      | None =>
          (Ret (Some collection_name),
           set_chroma (insert collection_name []) w)
      end.

(** The records [collection.add] appends. *)
Fixpoint make_chunks (ids texts : list string) (embeddings : list embedding)
  (metadatas : list (option Z)) : list StoredChunk :=
  match ids, texts, embeddings with
  | i :: ids', t :: texts', e :: embeddings' =>
      {| chunk_id := i; chunk_document := t; chunk_embedding := e;
         chunk_metadata := match metadatas with m :: _ => m | [] => None end |}
        :: make_chunks ids' texts' embeddings' (tail metadatas)
  | _, _, _ => []
  end.

(** Does the collection hold a record with this id. *)
Definition holds (stored : list StoredChunk) (i : string) : bool :=
  existsb (String.eqb i) (map chunk_id stored).

(** What [collection.add] writes of [records]: a record whose id the
    collection already holds is left out, without an exception. *)
Definition new_records (stored records : list StoredChunk) : list StoredChunk :=
  List.filter (fun c => negb (holds stored (chunk_id c))) records.

(** [add_chunks_to_collection]; it returns [None] on every path and
    swallows what [collection.add] raises. *)
Definition add_chunks_to_collection (collection : option string)
  (texts : list string) (embeddings : list embedding)
  (metadatas : option (list (option Z))) (ids : option (list string)) : M unit :=
  match collection with
  | None => ret tt
  | Some name =>
      let ids' :=
        match ids with
        | None =>
            map (fun i => "chunk_" +:+ Py.str_of_int (Z.of_nat i))
              (seq 0 (length texts))
        | Some l => l
        end in
      if negb (length ids' =? length texts)%nat then ret tt
      else if negb (length texts =? length embeddings)%nat then ret tt
      else
        fun w =>
          match chroma w !! name with
          | None => (Ret tt, w)
          | Some stored =>
              if chroma_add_fails svc name ids' then (Ret tt, w)
              else
                (Ret tt,
                 set_chroma
                   (insert name
                      (stored ++ new_records stored
                                   (make_chunks ids' texts embeddings
                                      (default [] metadatas)))) w)
          end
  end.

(** The loop that builds [formatted_results]; [None] stands for the
    [IndexError] of an index past the end of one of the inner lists. *)
Fixpoint format_results (ids0 documents0 : list string) (distances0 : list Q)
  (metadatas0 : list (option Z)) (indices : list nat) : option (list Candidate) :=
  match indices with
  | [] => Some []
  | i :: rest =>
      match ids0 !! i, documents0 !! i, distances0 !! i, metadatas0 !! i with
      | Some id_, Some document, Some distance, Some metadata =>
          match format_results ids0 documents0 distances0 metadatas0 rest with
          | Some l =>
              Some ({| cand_id := id_; cand_document := document;
                       cand_distance := distance; cand_metadata := metadata;
                       relevance_score := None |} :: l)
          | None => None
          end
      | _, _, _, _ => None
      end
  end.

(** [query_collection] with [where_clause=None].  Whatever is raised
    inside the [try] block gives the empty list. *)
Definition query_collection (collection : option string)
  (query_embeddings : list embedding) (n_results : Z) : M (list Candidate) :=
  match collection with
  | None => ret []
  | Some name =>
      fun w =>
        let queried :=
          match chroma w !! name with
          | None => Raises (LibraryError ("Collection " +:+ name +:+ " does not exist."))
          | Some stored => chroma_query svc stored query_embeddings n_results
          end in
        match queried with
        | Raises _ => (Ret [], w)
        | Ok results =>
            match documents results with
            | [] => (Ret [], w)          (* results['documents'][0] in the log line *)
            | [] :: _ => (Ret [], w)     (* no matches: nothing is formatted *)
            | documents0 :: _ =>
                match ids results, distances results, metadatas results with
                | ids0 :: _, distances0 :: _, metadatas0 :: _ =>
                    match format_results ids0 documents0 distances0 metadatas0
                            (seq 0 (length documents0)) with
                    | Some formatted_results => (Ret formatted_results, w)
                    | None => (Ret [], w)
                    end
                | _, _, _ => (Ret [], w)
                end
            end
        end
  end.

(** [delete_collection]: [False] without a client or when the client
    raises, which it also does for a collection that does not exist. *)
Definition delete_collection (collection_name : string) : M bool :=
  fun w =>
    if negb (chroma_client svc) then (Ret false, w)
    else if chroma_delete_fails svc collection_name then (Ret false, w)
    else
      match chroma w !! collection_name with
      | None => (Ret false, w)
      | Some _ => (Ret true, set_chroma (delete collection_name) w)
      end.

End service.

End vector_db_service.

(** ** [app/services/reranker_service.py] *)

Module reranker_service.

Definition with_score (doc : Candidate) (score : Q) : Candidate :=
  {| cand_id := cand_id doc; cand_document := cand_document doc;
     cand_distance := cand_distance doc; cand_metadata := cand_metadata doc;
     relevance_score := Some score |}.

(** The loop that builds [scored_documents]; [None] stands for the
    [IndexError] of [scores[i]] when the model gave too few scores. *)
Fixpoint score_documents (documents : list Candidate) (scores : list Q)
  : option (list Candidate) :=
  match documents, scores with
  | [], _ => Some []
  | doc :: documents', score :: scores' =>
      match score_documents documents' scores' with
      | Some l => Some (with_score doc score :: l)
      | None => None
      end
  | _ :: _, [] => None
  end.

(** The sort key [x['relevance_score']]; every scored document has one. *)
Definition key (x : Candidate) : Q :=
  match relevance_score x with
  | Some s => s
  | None => 0%Q
  end.

(** [sorted(l, key=..., reverse=True)]: descending and stable.  [x] comes
    from before the items of [l] in the input, so it goes in front of the
    first item whose key is not greater than its own. *)
Fixpoint insert_reverse (x : Candidate) (l : list Candidate) : list Candidate :=
  match l with
  | [] => [x]
  | y :: l' =>
      if Qle_bool (key y) (key x) then x :: l
      else y :: insert_reverse x l'
  end.

Definition sorted_reverse (l : list Candidate) : list Candidate :=
  foldr insert_reverse [] l.

Definition rerank (svc : Services) (query : string) (documents : list Candidate)
  (top_n : Z) : list Candidate :=
  match cross_encoder svc with
  | None => Py.slice_to documents top_n
  | Some predict =>
      match documents with
      | [] => []
      | _ :: _ =>
          let sentences_to_rerank :=
            map (fun doc => (query, cand_document doc)) documents in
          match predict sentences_to_rerank with
          | Raises _ => Py.slice_to documents top_n
          | Ok scores =>
              match score_documents documents scores with
              | None => Py.slice_to documents top_n
              | Some scored_documents =>
                  Py.slice_to (sorted_reverse scored_documents) top_n
              end
          end
      end
  end.

End reranker_service.

(** ** [app/crud/document.py] *)

Module crud_document.

Definition delete_document (svc : Services) (document_id : Z) : M unit :=
  fun w =>
    if db_delete_fails svc document_id
    then (Exc (LibraryError "database error"), w)
    else (Ret tt, set_db_documents (delete document_id) w).

End crud_document.

(** ** [app/tasks/pdf_processing_tasks.py] *)

Module tasks.

Import models.

Section task.

Variable svc : Services.

(** [self.update_state(state=..., meta=...)], when the state backend
    accepts the call: the state is the next one recorded.  The call that
    raises is in [worker.update_state]. *)
Definition update_state (state : string) (meta : TaskMeta) : M unit :=
  modify (set_task_states (fun l => l ++ [(state, meta)])).

Definition update_processing_progress (stage : string) (current_progress : Z)
  : M unit :=
  update_state "PROGRESS" (MetaProgress stage current_progress).

(** An assignment to a column of [document] followed by
    [db.add(document); db.commit(); db.refresh(document)], when the
    database accepts them: the row is rewritten.  The commit and the
    refresh that raise are in [worker.commit_document]. *)
Definition commit_document (document_id : Z) (f : Document -> Document) : M unit :=
  modify (set_db_documents (alter f document_id)).

(** [tempfile.NamedTemporaryFile(delete=False)] and the write: the file
    gets the next fresh path. *)
Definition named_temporary_file (content : bytes) : M nat :=
  fun w =>
    let path := temp_counter w in
    (Ret path, set_temp_files (insert path content) (S path) w).

(** [fitz.open(path)] and the text of its pages. *)
Definition fitz_open (path : nat) : M (list string) :=
  fun w =>
    match temp_files w !! path with
    | None => (Exc (LibraryError "no such file"), w)
    | Some content => lift_result (fitz_pages svc content) w
    end.

(** The accumulation [full_text += page.get_text()]. *)
Definition concat_pages (pages : list string) : string :=
  fold_left String.append pages EmptyString.

Definition chunk_ids (document_id : Z) (chunks : list string) : list string :=
  map (fun i => "doc_" +:+ Py.str_of_int document_id +:+ "_chunk_"
                  +:+ Py.str_of_int (Z.of_nat i))
    (seq 0 (length chunks)).

(** The [try] block of [process_pdf_task], cut at its numbered comments
    into one function per stage.  A stage that raises ends the block. *)

(** 1. Download PDF from S3; returns [temp_pdf_path]. *)
Definition download_stage (document : Document) : M nat :=
  let* _ := update_processing_progress "Downloading from S3" 10 in
  let object_name :=
    unquote svc (Py.lstrip_char "/" (urlparse_path svc (file_path document))) in
  if negb (Py.truthy object_name) then
    raise (ValueError ("Could not extract S3 object name from URL: "
                         +:+ file_path document))
  else
    let* pdf_content_bytes := s3_service.download_file svc object_name in
    match pdf_content_bytes with
    | None =>
        raise (RuntimeError ("Failed to retrieve content for " +:+ object_name
                               +:+ " from S3."))
    | Some pdf_content_bytes =>
        let* temp_pdf_path := named_temporary_file pdf_content_bytes in
        let* _ := update_processing_progress "Download complete" 20 in
        ret temp_pdf_path
    end.

(** 2. Extract Text from PDF; returns [full_text]. *)
Definition extract_stage (temp_pdf_path : nat) : M string :=
  let* _ := update_processing_progress "Extracting text" 30 in
  let* full_text :=
    try_except
      (let* pages := fitz_open temp_pdf_path in
       let full_text := concat_pages pages in
       if negb (Py.truthy (Py.strip full_text)) then
         raise (ValueError "Extracted text is empty or only whitespace.")
       else ret full_text)
      (fun e => raise (RuntimeError ("Failed to extract text from PDF: "
                                       +:+ str_exc e))) in
  let* _ := update_processing_progress "Text extraction complete" 40 in
  ret full_text.

(** The summary, between stages 2 and 3. *)
Definition summary_stage (fuel : nat) (document_id : Z) (full_text : string)
  : M unit :=
  let* _ := update_processing_progress "Generating summary" 45 in
  let* summary := llm_service.generate_summary svc fuel full_text 30000 100 in
  let* _ :=
    if Py.truthy_opt summary
    then commit_document document_id (set_summary summary)
    else ret tt in
  update_processing_progress "Summary generation complete" 48.

(** 3. Chunk Text; returns [chunks]. *)
Definition chunk_stage (full_text : string) : M (list string) :=
  let* _ := update_processing_progress "Chunking text for RAG" 50 in
  let* chunks := lift_result (split_text svc 1000 200 Py.len full_text) in
  match chunks with
  | [] => raise (ValueError "No chunks generated from the document text for RAG.")
  | _ :: _ =>
      let* _ := update_processing_progress "Text chunking for RAG complete" 60 in
      ret chunks
  end.

(** 4. Generating embeddings for chunks; returns [chunk_embeddings]. *)
Definition embed_stage (chunks : list string) : M (list embedding) :=
  let* _ := update_processing_progress "Generating embeddings" 70 in
  let chunk_embeddings := embedding_service.get_embeddings svc chunks in
  match chunk_embeddings with
  | [] => raise (RuntimeError "Failed to generate embeddings for chunks.")
  | _ :: _ =>
      let* _ := update_processing_progress "Embeddings generated" 80 in
      ret chunk_embeddings
  end.

(** 5. Store Chunks and Embeddings in ChromaDB. *)
Definition store_stage (document_id : Z) (document : Document)
  (chunks : list string) (chunk_embeddings : list embedding) : M unit :=
  let* _ := update_processing_progress "Storing in vector DB" 90 in
  let collection_name := "doc_" +:+ Py.str_of_int (id document) in
  let* collection := vector_db_service.get_or_create_collection svc collection_name in
  match collection with
  | None =>
      raise (RuntimeError ("Failed to get or create ChromaDB collection: "
                             +:+ collection_name +:+ "."))
  | Some _ =>
      let metadatas := map (fun _ => Some (id document)) chunks in
      let* _ :=
        vector_db_service.add_chunks_to_collection svc collection chunks
          chunk_embeddings (Some metadatas) (Some (chunk_ids document_id chunks)) in
      update_processing_progress "Vector DB storage complete" 95
  end.

(** 6. Update document status. *)
Definition complete_stage (document_id : Z) : M unit :=
  let* _ := commit_document document_id (set_processing_status COMPLETED) in
  update_processing_progress "Processing completed" 100.

Definition stages (fuel : nat) (document_id : Z) (document : Document) : M unit :=
  let* temp_pdf_path := download_stage document in
  let* full_text := extract_stage temp_pdf_path in
  let* _ := summary_stage fuel document_id full_text in
  let* chunks := chunk_stage full_text in
  let* chunk_embeddings := embed_stage chunks in
  let* _ := store_stage document_id document chunks chunk_embeddings in
  complete_stage document_id.

(** The [except Exception as e] block. *)
Definition on_exception (document_id : Z) (e : PyExc) : M unit :=
  let* _ := commit_document document_id (set_processing_status FAILED) in
  update_state "FAILED" (MetaExc (str_exc e) 0).

(** The [finally] block.  [temp_pdf_path] is [None] until the temporary
    file is created; once created it is the path [path0] that was fresh
    when the [try] block was entered. *)
Definition cleanup (path0 : nat) : M unit :=
  fun w =>
    let temp_pdf_path :=
      if (path0 <? temp_counter w)%nat then Some path0 else None in
    match temp_pdf_path with
    | Some path =>
        match temp_files w !! path with
        | Some _ => (Ret tt, set_temp_files (delete path) (temp_counter w) w)
        | None => (Ret tt, w)
        end
    | None => (Ret tt, w)
    end.

Definition process_pdf_task (fuel : nat) (document_id : Z) : M unit :=
  let* w0 := get_world in
  match db_documents w0 !! document_id with
  | None => ret tt
  | Some document =>
      let* _ := commit_document document_id (set_processing_status PROCESSING) in
      let* _ := update_processing_progress "Initializing" 5 in
      try_finally
        (try_except (stages fuel document_id document) (on_exception document_id))
        (cleanup (temp_counter w0))
  end.

End task.

(** The calls of [update_processing_progress] inside the [try] block, in
    the order of the code. *)
Definition progress_reports : list (string * TaskMeta) :=
  map (fun p => ("PROGRESS"%string, MetaProgress (fst p) (snd p)))
    [("Downloading from S3"%string, 10); ("Download complete"%string, 20);
     ("Extracting text"%string, 30); ("Text extraction complete"%string, 40);
     ("Generating summary"%string, 45); ("Summary generation complete"%string, 48);
     ("Chunking text for RAG"%string, 50);
     ("Text chunking for RAG complete"%string, 60);
     ("Generating embeddings"%string, 70); ("Embeddings generated"%string, 80);
     ("Storing in vector DB"%string, 90); ("Vector DB storage complete"%string, 95);
     ("Processing completed"%string, 100)].

End tasks.

(** ** [process_pdf_task] as the worker runs it

    The task of [app/tasks/pdf_processing_tasks.py] once more, now with a
    database session and a task-state backend whose calls can raise, and
    with the summarizer under the recursion limit of the interpreter
    ([depth]).  The stages are cut as in [tasks]; with a backend that
    never raises the two descriptions agree, as long as the nesting of
    the summarizer stays within [fuel]. *)

Module worker.

Import models.

Section task.

Variable bk : Backend.
Variable svc : Services.

(** [self.update_state(state=..., meta=...)] *)
Definition update_state (state : string) (meta : TaskMeta) : M unit :=
  guarded (fun w => update_state_raises bk w state meta)
    (tasks.update_state state meta).

Definition update_processing_progress (stage : string) (current_progress : Z)
  : M unit :=
  update_state "PROGRESS" (MetaProgress stage current_progress).

(** An assignment to a column of [document] followed by
    [db.add(document); db.commit(); db.refresh(document)]. *)
Definition commit_document (document_id : Z) (f : Document -> Document) : M unit :=
  guarded (fun w => db_commit_raises bk w document_id)
    (let* _ := tasks.commit_document document_id f in
     guarded (fun w => db_refresh_raises bk w document_id) (ret tt)).

(** 1. Download PDF from S3; returns [temp_pdf_path]. *)
Definition download_stage (document : Document) : M nat :=
  let* _ := update_processing_progress "Downloading from S3" 10 in
  let object_name :=
    unquote svc (Py.lstrip_char "/" (urlparse_path svc (file_path document))) in
  if negb (Py.truthy object_name) then
    raise (ValueError ("Could not extract S3 object name from URL: "
                         +:+ file_path document))
  else
    let* pdf_content_bytes := s3_service.download_file svc object_name in
    match pdf_content_bytes with
    | None =>
        raise (RuntimeError ("Failed to retrieve content for " +:+ object_name
                               +:+ " from S3."))
    | Some pdf_content_bytes =>
        let* temp_pdf_path := tasks.named_temporary_file pdf_content_bytes in
        let* _ := update_processing_progress "Download complete" 20 in
        ret temp_pdf_path
    end.

(** 2. Extract Text from PDF; returns [full_text]. *)
Definition extract_stage (temp_pdf_path : nat) : M string :=
  let* _ := update_processing_progress "Extracting text" 30 in
  let* full_text :=
    try_except
      (let* pages := tasks.fitz_open svc temp_pdf_path in
       let full_text := tasks.concat_pages pages in
       if negb (Py.truthy (Py.strip full_text)) then
         raise (ValueError "Extracted text is empty or only whitespace.")
       else ret full_text)
      (fun e => raise (RuntimeError ("Failed to extract text from PDF: "
                                       +:+ str_exc e))) in
  let* _ := update_processing_progress "Text extraction complete" 40 in
  ret full_text.

(** The summary, between stages 2 and 3. *)
Definition summary_stage (depth : nat) (document_id : Z) (full_text : string)
  : M unit :=
  let* _ := update_processing_progress "Generating summary" 45 in
  let* summary :=
    llm_service.generate_summary_within svc depth full_text 30000 100 in
  let* _ :=
    if Py.truthy_opt summary
    then commit_document document_id (set_summary summary)
    else ret tt in
  update_processing_progress "Summary generation complete" 48.

(** 3. Chunk Text; returns [chunks]. *)
Definition chunk_stage (full_text : string) : M (list string) :=
  let* _ := update_processing_progress "Chunking text for RAG" 50 in
  let* chunks := lift_result (split_text svc 1000 200 Py.len full_text) in
  match chunks with
  | [] => raise (ValueError "No chunks generated from the document text for RAG.")
  | _ :: _ =>
      let* _ := update_processing_progress "Text chunking for RAG complete" 60 in
      ret chunks
  end.

(** 4. Generating embeddings for chunks; returns [chunk_embeddings]. *)
Definition embed_stage (chunks : list string) : M (list embedding) :=
  let* _ := update_processing_progress "Generating embeddings" 70 in
  let chunk_embeddings := embedding_service.get_embeddings svc chunks in
  match chunk_embeddings with
  | [] => raise (RuntimeError "Failed to generate embeddings for chunks.")
  | _ :: _ =>
      let* _ := update_processing_progress "Embeddings generated" 80 in
      ret chunk_embeddings
  end.

(** 5. Store Chunks and Embeddings in ChromaDB. *)
Definition store_stage (document_id : Z) (document : Document)
  (chunks : list string) (chunk_embeddings : list embedding) : M unit :=
  let* _ := update_processing_progress "Storing in vector DB" 90 in
  let collection_name := "doc_" +:+ Py.str_of_int (id document) in
  let* collection := vector_db_service.get_or_create_collection svc collection_name in
  match collection with
  | None =>
      raise (RuntimeError ("Failed to get or create ChromaDB collection: "
                             +:+ collection_name +:+ "."))
  | Some _ =>
      let metadatas := map (fun _ => Some (id document)) chunks in
      let* _ :=
        vector_db_service.add_chunks_to_collection svc collection chunks
          chunk_embeddings (Some metadatas)
          (Some (tasks.chunk_ids document_id chunks)) in
      update_processing_progress "Vector DB storage complete" 95
  end.

(** 6. Update document status. *)
Definition complete_stage (document_id : Z) : M unit :=
  let* _ := commit_document document_id (set_processing_status COMPLETED) in
  update_processing_progress "Processing completed" 100.

(** The [try] block. *)
Definition stages (depth : nat) (document_id : Z) (document : Document) : M unit :=
  let* temp_pdf_path := download_stage document in
  let* full_text := extract_stage temp_pdf_path in
  let* _ := summary_stage depth document_id full_text in
  let* chunks := chunk_stage full_text in
  let* chunk_embeddings := embed_stage chunks in
  let* _ := store_stage document_id document chunks chunk_embeddings in
  complete_stage document_id.

(** The [except Exception as e] block: no rollback, a commit, then the
    state [FAILED]. *)
Definition on_exception (document_id : Z) (e : PyExc) : M unit :=
  let* _ := commit_document document_id (set_processing_status FAILED) in
  update_state "FAILED" (MetaExc (str_exc e) 0).

(** The task.  The first commit and the first progress report are made
    before the [try]: what they raise leaves the task at once. *)
Definition process_pdf_task (depth : nat) (document_id : Z) : M unit :=
  let* w0 := get_world in
  match db_documents w0 !! document_id with
  | None => ret tt
  | Some document =>
      let* _ := commit_document document_id (set_processing_status PROCESSING) in
      let* _ := update_processing_progress "Initializing" 5 in
      try_finally
        (try_except (stages depth document_id document) (on_exception document_id))
        (tasks.cleanup (temp_counter w0))
  end.

End task.

(** A database session and a state backend that never raise. *)
Definition reliable : Backend :=
  {| db_commit_raises := fun _ _ => None;
     db_refresh_raises := fun _ _ => None;
     update_state_raises := fun _ _ _ => None |}.

End worker.

(** ** [app/api/v1/endpoints/documents.py] *)

Module endpoints.

Import models.

(** The dictionary [query_document] returns. *)
Record QueryResponse : Type := {
  llm_answer : string;
  retrieved_chunks : list Candidate
}.

Definition rag_prompt (context_text query_text : string) : string :=
  "[INST] Use the following context to answer the question. If the answer is "
  +:+ "not in the context, say " +:+ Py.dq
  +:+ "I don't have enough information to answer that based on the provided document. "
  +:+ "You may elaborate and explain in greater detail if you think it's beneficial."
  +:+ Py.dq +:+ Py.nl +:+ Py.nl
  +:+ "    Context:" +:+ Py.nl
  +:+ "    " +:+ context_text
  +:+ Py.nl +:+ Py.nl
  +:+ "    Question: " +:+ query_text
  +:+ Py.nl +:+ Py.nl
  +:+ "    Answer: [/INST]".

Definition INITIAL_CHROMA_RESULTS : Z := 10.
Definition TOP_N_RERANKED_RESULTS : Z := 5.

Definition HTTP_404_NOT_FOUND : Z := 404.
Definition HTTP_409_CONFLICT : Z := 409.
Definition HTTP_500_INTERNAL_SERVER_ERROR : Z := 500.

Section endpoint.

Variable svc : Services.

(** [GET /{document_id}/query/]; [current_user] is the id of the
    authenticated user. *)
Definition query_document (document_id : Z) (query_text : string)
  (current_user : Z) : M QueryResponse :=
  (* 1. Verify document existence and ownership *)
  let* w0 := get_world in
  match db_documents w0 !! document_id with
  | None =>
      raise (HTTPException HTTP_404_NOT_FOUND
               "Document not found or you don't have access to it.")
  | Some document =>
  if negb (owner_id document =? current_user) then
    raise (HTTPException HTTP_404_NOT_FOUND
             "Document not found or you don't have access to it.")
  else
  match processing_status document with
  | PENDING | PROCESSING | FAILED =>
      raise (HTTPException HTTP_409_CONFLICT
               ("Document is not yet processed. Current status: "
                  +:+ value (processing_status document) +:+ ". Please wait."))
  | COMPLETED =>
  (* 2. Get ChromaDB collection for the document *)
  let collection_name := "doc_" +:+ Py.str_of_int (id document) in
  let* collection := vector_db_service.get_or_create_collection svc collection_name in
  match collection with
  | None =>
      raise (HTTPException HTTP_500_INTERNAL_SERVER_ERROR
               "Could not access document's vector store.")
  | Some _ =>
  (* 3. Generate embedding for the query *)
  let query_embeddings_raw := embedding_service.get_embeddings svc [query_text] in
  match query_embeddings_raw with
  | [] =>
      raise (HTTPException HTTP_500_INTERNAL_SERVER_ERROR
               "Failed to generate embedding for the query.")
  | _ :: _ =>
  let query_embeddings_for_chroma := query_embeddings_raw in
  (* 4. Query ChromaDB for relevant chunks *)
  let* retrieved_chunks_for_reranking :=
    vector_db_service.query_collection svc collection query_embeddings_for_chroma
      INITIAL_CHROMA_RESULTS in
  match retrieved_chunks_for_reranking with
  | [] =>
      raise (HTTPException HTTP_404_NOT_FOUND
               "No relevant chunks found for this query in the document.")
  | _ :: _ =>
  (* 5. Rerank the retrieved chunks *)
  let reranked_chunks_info :=
    reranker_service.rerank svc query_text retrieved_chunks_for_reranking
      TOP_N_RERANKED_RESULTS in
  match reranked_chunks_info with
  | [] =>
      raise (HTTPException HTTP_404_NOT_FOUND
               "No relevant chunks found after re-ranking.")
  | _ :: _ =>
  (* 6-7. Construct the RAG prompt with the re-ranked chunks *)
  let context_chunks := map cand_document reranked_chunks_info in
  let context_text := Py.join (Py.nl +:+ Py.nl) context_chunks in
  (* 8. Call the LLMService to generate a response *)
  let* llm_response :=
    llm_service.generate_text svc (rag_prompt context_text query_text) 1000 in
  match llm_response with
  | Some answer =>
      if Py.truthy answer then
        ret {| llm_answer := answer; retrieved_chunks := reranked_chunks_info |}
      else
        raise (HTTPException HTTP_500_INTERNAL_SERVER_ERROR
                 "Failed to get a response from the Language Model.")
  | None =>
      raise (HTTPException HTTP_500_INTERNAL_SERVER_ERROR
               "Failed to get a response from the Language Model.")
  end end end end end end end.

(** [DELETE /{document_id}]; [Ret tt] is the reply 204. *)
Definition delete_document (document_id : Z) (current_user : Z) : M unit :=
  (* 1. Verify document existence and ownership *)
  let* w0 := get_world in
  match db_documents w0 !! document_id with
  | None =>
      raise (HTTPException HTTP_404_NOT_FOUND
               "Document not found or you don't have access to it.")
  | Some document =>
  if negb (owner_id document =? current_user) then
    raise (HTTPException HTTP_404_NOT_FOUND
             "Document not found or you don't have access to it.")
  else
  let s3_object_name := Py.last_item (Py.split ".com/" (file_path document)) in
  try_except
    ((* 2. Delete from S3; a failure only prints a warning *)
     let* s3_deleted := s3_service.delete_file svc s3_object_name in
     (* 3. Delete from ChromaDB; the returned flag is not read *)
     let chroma_collection_name := "doc_" +:+ Py.str_of_int (id document) in
     let* _ := vector_db_service.delete_collection svc chroma_collection_name in
     (* 4. Delete from PostgreSQL *)
     crud_document.delete_document svc document_id)
    (fun e =>
       raise (HTTPException HTTP_500_INTERNAL_SERVER_ERROR
                ("Failed to delete document and its associated data: "
                   +:+ str_exc e)))
  end.

End endpoint.

End endpoints.

(** ** Concrete services and worlds

    Small stand-ins for the libraries and remote services, on which the
    model can be run. *)

Module demo.

(** A tokenizer with one token per character. *)
Definition encode_chars (s : string) : list Z :=
  map (fun a => Z.of_nat (nat_of_ascii a)) (list_ascii_of_string s).

(** Pieces of [n] characters; [k] is the room left in the current piece
    [cur] (reversed). *)
Fixpoint pieces (n k : nat) (cur : string) (s : string) : list string :=
  match s with
  | EmptyString =>
      match cur with
      | EmptyString => []
      | String _ _ => [Py.rev_string EmptyString cur]
      end
  | String c s' =>
      match k with
      | O | S O => Py.rev_string EmptyString (String c cur) :: pieces n n EmptyString s'
      | S k' => pieces n k' (String c cur) s'
      end
  end.

(** A splitter that cuts every [chunk_size] characters and, like the
    langchain one, rejects a size that is not positive or smaller than the
    overlap. *)
Definition split_fixed (chunk_size chunk_overlap : Z)
  (length_function : string -> Z) (text : string) : result (list string) :=
  if (chunk_size <=? 0) || (chunk_size <? chunk_overlap)
  then Raises (ValueError "Got a larger chunk overlap than chunk size")
  else Ok (pieces (Z.to_nat chunk_size) (Z.to_nat chunk_size) EmptyString text).

(** The path of [scheme://host/path]. *)
Definition path_of_url (url : string) : string :=
  "/" +:+ Py.join "/" (drop 3 (Py.split "/" url)).

Definition embed_length (texts : list string) : result (list embedding) :=
  Ok (map (fun t => [inject_Z (Py.len t)]) texts).

(** A cross-encoder that scores a passage by its length. *)
Definition score_length (pairs : list (string * string)) : result (list Q) :=
  Ok (map (fun p => inject_Z (Py.len (snd p))) pairs).

(** A vector index that returns the first [n_results] records. *)
Definition query_first (stored : list StoredChunk) (query_embeddings : list embedding)
  (n_results : Z) : result QueryResult :=
  let hits := take (Z.to_nat n_results) stored in
  Ok {| ids := [map chunk_id hits];
        documents := [map chunk_document hits];
        distances := [map (fun _ => 0%Q) hits];
        metadatas := [map chunk_metadata hits] |}.

(** The services; the generation service answers [reply n] to the
    request number [n].  [storage] says whether the object store and the
    vector client work, [reranker] whether the cross-encoder was loaded,
    [index] whether vector queries succeed. *)
Definition make (reply : nat -> HttpReply) (storage reranker index : bool)
  : Services :=
  {| tokenizer_encode := encode_chars;
     split_text := split_fixed;
     llm_post := fun n _ _ => reply n;
     s3_get_fails := fun _ => negb storage;
     s3_delete_fails := fun _ => negb storage;
     urlparse_path := path_of_url;
     unquote := fun s => s;
     fitz_pages := fun content => Ok [string_of_list_byte content];
     embedding_model := Some embed_length;
     cross_encoder := if reranker then Some score_length else None;
     chroma_client := storage;
     chroma_get_or_create_fails := fun _ => false;
     chroma_add_fails := fun _ _ => false;
     chroma_query :=
       if index then query_first
       else fun _ _ _ => Raises (LibraryError "index unavailable");
     chroma_delete_fails := fun _ => false;
     db_delete_fails := fun _ => false |}.

Definition services (reply : nat -> HttpReply) : Services :=
  make reply true true true.

Definition services_storage_down (reply : nat -> HttpReply) : Services :=
  make reply false true true.

Definition services_no_reranker (reply : nat -> HttpReply) : Services :=
  make reply true false true.

Definition services_index_down (reply : nat -> HttpReply) : Services :=
  make reply true true false.

Definition answers (text : string) : nat -> HttpReply :=
  fun _ => Json (Some [text]).

Definition unreachable : nat -> HttpReply := fun _ => RequestError.

Definition says (text : string) : HttpReply := Json (Some [text]).

(** The replies of [l] in turn, then [otherwise]. *)
Definition replies (l : list HttpReply) (otherwise : HttpReply) : nat -> HttpReply :=
  fun n => nth n l otherwise.

(** With [max_input_tokens = 700] the usable budget of these services is
    33 tokens.  A text of 42 characters that is also the two-chunk
    combination of the reply [twenty]. *)
Definition twenty : string := "Twenty characters ok".
Definition forty_two : string := twenty +:+ Py.nl +:+ Py.nl +:+ twenty.

Definition url : string := "https://books.s3.eu-west-1.amazonaws.com/raw_pdfs/1_Book.pdf".

Definition book (status : models.DocumentStatus) : models.Document :=
  {| models.id := 1; models.title := "Book"; models.file_path := url;
     models.file_size_bytes := Some 29;
     models.processing_status := status; models.summary := None;
     models.celery_task_id := None; models.owner_id := 7 |}.

Definition pdf : bytes := list_byte_of_string "A short book. It has an end.".

Definition no_requests : list (string * Z) := [].
Definition no_states : list (string * TaskMeta) := [].

(** Nothing anywhere. *)
Definition blank : World :=
  {| db_documents := ∅; s3_objects := ∅; chroma := ∅;
     task_states := no_states; llm_requests := no_requests;
     temp_files := ∅; temp_counter := 0 |}.

(** One document, its stored object, no vector collection yet. *)
Definition uploaded (status : models.DocumentStatus) : World :=
  {| db_documents := {[ 1 := book status ]};
     s3_objects := {[ "raw_pdfs/1_Book.pdf"%string := pdf ]};
     chroma := ∅;
     task_states := no_states;
     llm_requests := no_requests;
     temp_files := ∅;
     temp_counter := 0 |}.

Definition candidate (n : Z) (text : string) : Candidate :=
  {| cand_id := "doc_1_chunk_" +:+ Py.str_of_int n; cand_document := text;
     cand_distance := 0%Q; cand_metadata := Some 1; relevance_score := None |}.

Definition passage (n : Z) (text : string) : StoredChunk :=
  {| chunk_id := "doc_1_chunk_" +:+ Py.str_of_int n; chunk_document := text;
     chunk_embedding := [inject_Z (Py.len text)]; chunk_metadata := Some 1 |}.

(** The document processed: two passages in its collection. *)
Definition indexed : World :=
  {| db_documents := {[ 1 := book models.COMPLETED ]};
     s3_objects := {[ "raw_pdfs/1_Book.pdf"%string := pdf ]};
     chroma := {[ "doc_1"%string := [passage 0 "A short book."; passage 1 "It has an end."] ]};
     task_states := no_states;
     llm_requests := no_requests;
     temp_files := ∅;
     temp_counter := 0 |}.

End demo.

(** ** More Python built-ins *)

Module PyStr.

(** [sep in s] for a non-empty [sep]. *)
Fixpoint has_sub (sep s : string) : bool :=
  match s with
  | EmptyString => false
  | String _ s' => Py.startswith sep s || has_sub sep s'
  end.

(** [s.endswith(suffix)]. *)
Fixpoint endswith (suffix s : string) : bool :=
  if String.eqb s suffix then true
  else
    match s with
    | EmptyString => false
    | String _ s' => endswith suffix s'
    end.

(** [s.lower()] on ASCII letters. *)
Definition lower_char (a : ascii) : ascii :=
  let n := nat_of_ascii a in
  if ((65 <=? n)%nat && (n <=? 90)%nat) then ascii_of_nat (n + 32) else a.

Fixpoint lower (s : string) : string :=
  match s with
  | EmptyString => EmptyString
  | String a s' => String (lower_char a) (lower s')
  end.

(** [s.replace(a, b)] for characters [a] and [b]. *)
Fixpoint replace_char (a b : ascii) (s : string) : string :=
  match s with
  | EmptyString => EmptyString
  | String c s' => String (if Ascii.eqb c a then b else c) (replace_char a b s')
  end.

(** No proper suffix of [sep] is the start of [sep]: two occurrences of
    [sep] cannot overlap.  [t] runs over the suffixes still to check. *)
Fixpoint no_border (sep t : string) : bool :=
  match t with
  | EmptyString => true
  | String _ t' => negb (Py.startswith t sep) && no_border sep t'
  end.

Definition border_free (sep : string) : bool :=
  match sep with
  | EmptyString => false
  | String _ sep' => no_border sep sep'
  end.

End PyStr.

(** ** The upload and status operations

    [upload_file] of [app/services/s3_service.py], [create_document] and
    [get_document_by_id] of [app/crud/document.py], [upload_document] and
    [get_document_processing_status] of [app/api/v1/endpoints/documents.py]. *)

(** What these operations take from the settings, the clock, the
    libraries and the task queue. *)
Record UploadEnv : Type := {
  (* settings.S3_BUCKET_NAME, settings.AWS_REGION_NAME *)
  bucket_name : string;
  region_name : string;
  (* botocore: does [put_object] raise for this key *)
  s3_put_fails : string -> bool;
  (* datetime.now().strftime("%Y%m%d%H%M%S%f") *)
  timestamp_str : string;
  (* os.path.splitext(filename)[1] *)
  splitext_ext : string -> string;
  (* pydantic: the text of the error raised for a bad title *)
  validation_error : string -> string;
  (* PostgreSQL: the next value of the id sequence; does the insert
     raise; does the commit that records the task id raise, leaving the
     row as it was; does the refresh after that commit raise *)
  next_document_id : Z;
  db_insert_fails : bool;
  db_update_fails : bool;
  db_refresh_fails : bool;
  (* Celery: [process_pdf_task.delay(id)] gives the id of the task *)
  delay : Z -> result string;
  (* Celery: state and info of [AsyncResult(task_id)]; the info is [None]
     when it is not a dictionary *)
  async_result : string -> string * option TaskMeta
}.

(** A [fastapi.UploadFile]. *)
Record UploadFile : Type := {
  filename : string;
  file_content : bytes;
  content_type : string;
  size : option Z
}.

Module s3_upload.

(** The URL [upload_file] returns. *)
Definition s3_url (env : UploadEnv) (object_name : string) : string :=
  "https://" +:+ bucket_name env +:+ ".s3." +:+ region_name env
  +:+ ".amazonaws.com/" +:+ object_name.

(** [upload_file]: the URL once [put_object] has returned, [None] when it
    raised. *)
Definition upload_file (env : UploadEnv) (file : UploadFile) (object_name : string)
  : M (option string) :=
  fun w =>
    if s3_put_fails env object_name then (Ret None, w)
    else
      (Ret (Some (s3_url env object_name)),
       set_s3_objects (insert object_name (file_content file)) w).

End s3_upload.

Module crud_create.

(** Is there a row with this [file_path] (the column is unique). *)
Definition file_path_taken (table : gmap Z models.Document) (path : string) : bool :=
  existsb (fun kv => String.eqb (models.file_path (snd kv)) path)
    (map_to_list table).

(** [DocumentCreate(title=title)]: the title has 1 to 255 characters. *)
Definition DocumentCreate (env : UploadEnv) (title : string) : M string :=
  if (1 <=? Py.len title) && (Py.len title <=? 255) then ret title
  else raise (LibraryError (validation_error env title)).

(** [create_document]: a new row, [PENDING], with the next id of the
    sequence.  The insert raises when the database is unavailable and
    when the id or the [file_path] is taken. *)
Definition create_document (env : UploadEnv) (document_in : string)
  (file_path : string) (file_size_bytes : option Z) (owner_id : Z)
  : M models.Document :=
  fun w =>
    let db_obj :=
      {| models.id := next_document_id env; models.title := document_in;
         models.file_path := file_path;
         models.file_size_bytes := file_size_bytes;
         models.processing_status := models.PENDING;
         models.summary := None; models.celery_task_id := None;
         models.owner_id := owner_id |} in
    if db_insert_fails env then (Exc (LibraryError "database error"), w)
    else
      match db_documents w !! next_document_id env with
      | Some _ => (Exc (LibraryError "duplicate key"), w)
      | None =>
          if file_path_taken (db_documents w) file_path
          then (Exc (LibraryError "duplicate key"), w)
          else (Ret db_obj, set_db_documents (insert (next_document_id env) db_obj) w)
      end.

(** [get_document_by_id] *)
Definition get_document_by_id (document_id : Z) : M (option models.Document) :=
  fun w => (Ret (db_documents w !! document_id), w).

End crud_create.

Module endpoints_more.

Import models.

Definition HTTP_400_BAD_REQUEST : Z := 400.

Definition set_celery_task_id (t : option string) (d : Document) : Document :=
  {| id := id d; title := title d; file_path := file_path d;
     file_size_bytes := file_size_bytes d;
     processing_status := processing_status d;
     summary := summary d; celery_task_id := t; owner_id := owner_id d |}.

(** The name of the stored object. *)
Definition upload_object_name (env : UploadEnv) (title : string) (file : UploadFile)
  : string :=
  let file_extension :=
    if PyStr.has_sub "." (filename file) then splitext_ext env (filename file)
    else EmptyString in
  "raw_pdfs/" +:+ timestamp_str env +:+ "_" +:+ PyStr.replace_char " " "_" title
  +:+ file_extension.

(** [POST /upload]; [svc] is needed for the deletion that undoes the
    upload, [current_user] is the id of the authenticated user. *)
Definition upload_document (svc : Services) (env : UploadEnv) (title : string)
  (file : UploadFile) (current_user : Z) : M Document :=
  if negb (PyStr.endswith ".pdf" (PyStr.lower (filename file))) then
    raise (HTTPException HTTP_400_BAD_REQUEST "Please upload a pdf.")
  else
    let object_name := upload_object_name env title file in
    let file_size_bytes := size file in
    let* s3_url := s3_upload.upload_file env file object_name in
    match s3_url with
    | None =>
        raise (HTTPException endpoints.HTTP_500_INTERNAL_SERVER_ERROR
                 "Failed to upload file to S3.")
    | Some s3_url =>
        try_except
          (let* document_in := crud_create.DocumentCreate env title in
           let* new_document :=
             crud_create.create_document env document_in s3_url file_size_bytes
               current_user in
           let* task := lift_result (delay env (id new_document)) in
           let* _ :=
             if db_update_fails env then raise (LibraryError "database error")
             else
               modify (set_db_documents
                         (alter (set_celery_task_id (Some task)) (id new_document))) in
           let* _ :=
             if db_refresh_fails env then raise (LibraryError "database error")
             else ret tt in
           ret (set_celery_task_id (Some task) new_document))
          (fun e =>
             let* _ := s3_service.delete_file svc object_name in
             raise (HTTPException endpoints.HTTP_500_INTERNAL_SERVER_ERROR
                      ("Failed to save document metadata to database: "
                         +:+ str_exc e)))
    end.

(** The dictionary [get_document_processing_status] returns. *)
Record StatusResponse : Type := {
  document_id : Z;
  db_status : DocumentStatus;
  celery_state : string;
  processing_stage : string;
  current_progress : Z
}.

(** [progress_meta.get('stage', 'Unknown')] *)
Definition meta_stage (info : option TaskMeta) : string :=
  match info with
  | Some (MetaProgress stage _) => stage
  | Some (MetaExc _ _) | None => "Unknown"
  end.

(** [progress_meta.get('current_progress', 0)] *)
Definition meta_progress (info : option TaskMeta) : Z :=
  match info with
  | Some (MetaProgress _ p) | Some (MetaExc _ p) => p
  | None => 0
  end.

(** [GET /{document_id}/processing_status/] *)
Definition get_document_processing_status (env : UploadEnv) (document_id : Z)
  (current_user : Z) : M StatusResponse :=
  let* document := crud_create.get_document_by_id document_id in
  match document with
  | None =>
      raise (HTTPException endpoints.HTTP_404_NOT_FOUND "Document not found")
  | Some document =>
      if negb (owner_id document =? current_user) then
        raise (HTTPException endpoints.HTTP_404_NOT_FOUND "Document not found")
      else
        match processing_status document with
        | PROCESSING =>
            match celery_task_id document with
            | Some task_id =>
                if Py.truthy task_id then
                  let task_result := async_result env task_id in
                  ret {| document_id := id document;
                         db_status := processing_status document;
                         celery_state := fst task_result;
                         processing_stage := meta_stage (snd task_result);
                         current_progress := meta_progress (snd task_result) |}
                else
                  ret {| document_id := id document;
                         db_status := processing_status document;
                         celery_state := "PENDING";
                         processing_stage := "Waiting for task to start";
                         current_progress := 0 |}
            | None =>
                ret {| document_id := id document;
                       db_status := processing_status document;
                       celery_state := "PENDING";
                       processing_stage := "Waiting for task to start";
                       current_progress := 0 |}
            end
        | PENDING | COMPLETED | FAILED =>
            ret {| document_id := id document;
                   db_status := processing_status document;
                   celery_state := value (processing_status document);
                   processing_stage := value (processing_status document);
                   current_progress :=
                     match processing_status document with
                     | COMPLETED => 100
                     | _ => 0
                     end |}
        end
  end.

End endpoints_more.

(** Concrete settings and queue for the operations above. *)
Module demo_upload.

Definition env : UploadEnv :=
  {| bucket_name := "books";
     region_name := "eu-west-1";
     s3_put_fails := fun _ => false;
     timestamp_str := "20240101120000000000";
     splitext_ext := fun _ => ".PDF";
     validation_error := fun _ => "1 validation error for DocumentCreate";
     next_document_id := 2;
     db_insert_fails := false;
     db_update_fails := false;
     db_refresh_fails := false;
     delay := fun n => Ok ("task-" +:+ Py.str_of_int n);
     async_result := fun _ => ("PROGRESS"%string, Some (MetaProgress "Extracting text" 30)) |}.

(** The same with a task queue that cannot be reached. *)
Definition env_queue_down : UploadEnv :=
  {| bucket_name := "books";
     region_name := "eu-west-1";
     s3_put_fails := fun _ => false;
     timestamp_str := "20240101120000000000";
     splitext_ext := fun _ => ".PDF";
     validation_error := fun _ => "1 validation error for DocumentCreate";
     next_document_id := 2;
     db_insert_fails := false;
     db_update_fails := false;
     db_refresh_fails := false;
     delay := fun _ => Raises (LibraryError "broker unavailable");
     async_result := fun _ => ("PENDING"%string, None) |}.

Definition file : UploadFile :=
  {| filename := "Second Book.PDF";
     file_content := list_byte_of_string "Another book.";
     content_type := "application/pdf";
     size := Some 13 |}.



End demo_upload.

Module demo_index.

(** A vector index whose answer has lost the id of one record. *)
Definition query_short (stored : list StoredChunk) (query_embeddings : list embedding)
  (n_results : Z) : result QueryResult :=
  let hits := take (Z.to_nat n_results) stored in
  Ok {| ids := [tail (map chunk_id hits)];
        documents := [map chunk_document hits];
        distances := [map (fun _ => 0%Q) hits];
        metadatas := [map chunk_metadata hits] |}.

(** A cross-encoder that gives one score whatever it is asked. *)
Definition score_once (pairs : list (string * string)) : result (list Q) :=
  Ok [1%Q].

(** A cross-encoder that fails. *)
Definition score_fails (pairs : list (string * string)) : result (list Q) :=
  Raises (RuntimeError "CUDA out of memory").

Definition services (query : list StoredChunk -> list embedding -> Z -> result QueryResult)
  (predict : list (string * string) -> result (list Q)) : Services :=
  {| tokenizer_encode := demo.encode_chars;
     split_text := demo.split_fixed;
     llm_post := fun _ _ _ => RequestError;
     s3_get_fails := fun _ => false;
     s3_delete_fails := fun _ => false;
     urlparse_path := demo.path_of_url;
     unquote := fun s => s;
     fitz_pages := fun content => Ok [string_of_list_byte content];
     embedding_model := Some demo.embed_length;
     cross_encoder := Some predict;
     chroma_client := true;
     chroma_get_or_create_fails := fun _ => false;
     chroma_add_fails := fun _ _ => false;
     chroma_query := query;
     chroma_delete_fails := fun _ => false;
     db_delete_fails := fun _ => false |}.

(** Services whose database refuses to delete. *)
Definition services_db_down : Services :=
  {| tokenizer_encode := demo.encode_chars;
     split_text := demo.split_fixed;
     llm_post := fun _ _ _ => RequestError;
     s3_get_fails := fun _ => false;
     s3_delete_fails := fun _ => false;
     urlparse_path := demo.path_of_url;
     unquote := fun s => s;
     fitz_pages := fun content => Ok [string_of_list_byte content];
     embedding_model := Some demo.embed_length;
     cross_encoder := Some demo.score_length;
     chroma_client := true;
     chroma_get_or_create_fails := fun _ => false;
     chroma_add_fails := fun _ _ => false;
     chroma_query := demo.query_first;
     chroma_delete_fails := fun _ => false;
     db_delete_fails := fun _ => true |}.




End demo_index.

(** ** Vocabulary of the properties *)

(** [preserves R m]: every run of [m], however it ends, takes a world to
    one related to it by [R]. *)
Definition preserves {A} (R : World -> World -> Prop) (m : M A) : Prop :=
  forall w r w', m w = (r, w') -> R w w'.

(** The part [f] of the world is the same. *)
Definition unchanged {X} (f : World -> X) : World -> World -> Prop :=
  fun w w' => f w' = f w.

(** The document [document_id], if present, stays present. *)
Definition keeps_document (document_id : Z) : World -> World -> Prop :=
  fun w w' =>
    is_Some (db_documents w !! document_id) ->
    is_Some (db_documents w' !! document_id).

(** The world in which the [try] block starts: the document marked
    [PROCESSING], the first progress report made. *)
Definition started (document_id : Z) (w : World) : World :=
  set_task_states
    (fun l => l ++ [("PROGRESS"%string, MetaProgress "Initializing" 5)])
    (set_db_documents (alter (models.set_processing_status models.PROCESSING) document_id) w).

(** [reports base m i j]: started when the first [i] progress reports of
    the sequence have been made (after the earlier task states [base]),
    [m] has made the first [j] when it returns, and when it raises it has
    made the first [k] for some [k] from [i] to [j], never all of them. *)
Definition reports {A} (base : list (string * TaskMeta)) (m : M A) (i j : nat)
  : Prop :=
  forall w r w',
    task_states w = base ++ take i tasks.progress_reports ->
    m w = (r, w') ->
    match r with
    | Ret _ => task_states w' = base ++ take j tasks.progress_reports
    | Exc _ =>
        exists k, (i <= k <= j /\ k < length tasks.progress_reports)%nat
                  /\ task_states w' = base ++ take k tasks.progress_reports
    | OutOfFuel => True
    end.

(** [a] may stand before [b]: the score of [b] is not greater. *)
Definition not_below (a b : Candidate) : Prop :=
  (reranker_service.key b <= reranker_service.key a)%Q.

(** * Properties *)

(** ** Python built-ins *)

Example split_locator :
  Py.split ".com/" "https://b.s3.r.amazonaws.com/raw_pdfs/x.pdf"
  = ["https://b.s3.r.amazonaws"; "raw_pdfs/x.pdf"]%string.
Proof. reflexivity. Qed.

Example rsplit1_two_sentences :
  Py.rsplit1 "." "One. Two. Thr" = ["One. Two"; " Thr"]%string.
Proof. reflexivity. Qed.

Example strip_both_ends : Py.strip "  a b  " = "a b"%string.
Proof. reflexivity. Qed.

Example strip_no_break_space :
  Py.strip (String (ascii_of_nat 160) ("All of it." +:+ String (ascii_of_nat 133) " "))
  = "All of it."%string.
Proof. reflexivity. Qed.

Example isspace_code_points :
  filter (fun n => Py.isspace (ascii_of_nat n)) (seq 0 256)
  = [9; 10; 11; 12; 13; 28; 29; 30; 31; 32; 133; 160]%nat.
Proof. vm_compute. reflexivity. Qed.

Example str_of_int_values :
  Py.str_of_int 12 = "12"%string /\ Py.str_of_int (-3) = "-3"%string.
Proof. split; reflexivity. Qed.

(** A negative bound counts from the end of the list. *)
Example slice_to_negative :
  Py.slice_to [1; 2; 3] (-1) = [1; 2] /\ Py.slice_to [1; 2; 3] 5 = [1; 2; 3].
Proof. split; reflexivity. Qed.

Example words_to_tokens_values :
  Py.int_mul_1_3 100 = 130 /\ Py.int_mul_1_3 200 = 260 /\ Py.int_mul_0_8 33 = 26.
Proof. repeat split; reflexivity. Qed.

Lemma rsplit1_absent c s :
  Py.occurs c s = false -> Py.rsplit1 c s = [s].
Proof.
  induction s as [|a s IH]; simpl; [reflexivity|].
  destruct (Ascii.eqb a c) eqn:E; [discriminate|].
  intros H. rewrite (IH H). reflexivity.
Qed.

Lemma rsplit1_last c a b :
  Py.occurs c b = false -> Py.rsplit1 c (a +:+ String c b) = [a; b].
Proof.
  intros H. induction a as [|x a IH]; simpl.
  - rewrite (rsplit1_absent _ _ H), Ascii.eqb_refl. reflexivity.
  - rewrite IH. reflexivity.
Qed.

Lemma rsplit1_not_nil c s : Py.rsplit1 c s <> [].
Proof.
  induction s as [|a s IH]; simpl; [discriminate|].
  destruct (Py.rsplit1 c s) as [|h [|h' tl]]; [congruence| |discriminate].
  destruct (Ascii.eqb a c); discriminate.
Qed.

Lemma slice_to_length {A} (l : list A) (n : Z) :
  0 <= n -> Z.of_nat (length (Py.slice_to l n)) <= n.
Proof.
  intros H. unfold Py.slice_to.
  destruct (0 <=? n) eqn:E; [|lia].
  rewrite length_take. lia.
Qed.

(** ** The monad *)

Lemma bind_Ret {A B} (m : M A) (k : A -> M B) w a w1 :
  m w = (Ret a, w1) -> bind m k w = k a w1.
Proof. unfold bind. intros ->. reflexivity. Qed.

Lemma bind_Exc {A B} (m : M A) (k : A -> M B) w e w1 :
  m w = (Exc e, w1) -> bind m k w = (Exc e, w1).
Proof. unfold bind. intros ->. reflexivity. Qed.

Lemma bind_inv {A B} (m : M A) (k : A -> M B) w (r : outcome B) w' :
  bind m k w = (r, w') ->
  (exists a w1, m w = (Ret a, w1) /\ k a w1 = (r, w'))
  \/ (exists e, m w = (Exc e, w') /\ r = Exc e)
  \/ (m w = (OutOfFuel, w') /\ r = OutOfFuel).
Proof.
  unfold bind. destruct (m w) as [[a|e|] w1]; intros H.
  - left. eauto.
  - right. left. inversion H; subst. eauto.
  - right. right. inversion H; subst. eauto.
Qed.

Lemma bind_Ret_inv {A B} (m : M A) (k : A -> M B) w (b : B) w' :
  bind m k w = (Ret b, w') ->
  exists a w1, m w = (Ret a, w1) /\ k a w1 = (Ret b, w').
Proof.
  intros H.
  destruct (bind_inv _ _ _ _ _ H) as [Hret|[(e & _ & He)|[_ He]]];
    [exact Hret | discriminate | discriminate].
Qed.

(** ** The generation client and the summarizer *)

Section llm_properties.

Import llm_service.

Variable svc : Services.

(** Every call of [generate_text] returns, and posts exactly one request. *)
Lemma generate_text_posts prompt max_tokens w :
  exists r,
    generate_text svc prompt max_tokens w
    = (Ret r, set_llm_requests (fun l => l ++ [(prompt, max_tokens)]) w).
Proof.
  unfold generate_text.
  destruct (llm_post svc _ prompt max_tokens) as [| |[[|g l]|]|]; eauto.
  destruct (Py.split "[/INST]" g) as [|x [|y t]]; eauto.
Qed.

Lemma limit_is_usable_budget max_input_tokens :
  effective_content_limit_for_splitting svc max_input_tokens
  = max_input_tokens
    - Z.max (count_tokens svc scaffold_direct)
        (Z.max (count_tokens svc scaffold_section)
           (count_tokens svc scaffold_reduce)).
Proof. unfold effective_content_limit_for_splitting. lia. Qed.

(** C4. A text whose token count is at most the usable budget is
    summarized with exactly one request to the generation service, whose
    output cap is [2 * words_per_chunk_summary] words at 1.3 tokens a
    word. *)
Theorem generate_summary_direct_path fuel text_content max_input_tokens
  words_per_chunk_summary w :
  count_tokens svc text_content
  <= max_input_tokens
     - Z.max (count_tokens svc scaffold_direct)
         (Z.max (count_tokens svc scaffold_section)
            (count_tokens svc scaffold_reduce)) ->
  exists summary w',
    generate_summary svc (S fuel) text_content max_input_tokens
      words_per_chunk_summary w = (Ret summary, w')
    /\ llm_requests w'
       = llm_requests w
           ++ [(direct_prompt text_content,
                Z.quot (13 * (2 * words_per_chunk_summary)) 10)].
Proof.
  intros Hfit. rewrite <- limit_is_usable_budget in Hfit.
  cbn [generate_summary]. unfold generate_summary_pass.
  apply Z.leb_le in Hfit. rewrite Hfit.
  destruct (generate_text_posts (direct_prompt text_content)
              (_words_to_tokens (words_per_chunk_summary * 2)) w) as [r Hr].
  exists r, (set_llm_requests
               (fun l => l ++ [(direct_prompt text_content,
                                _words_to_tokens (words_per_chunk_summary * 2))]) w).
  split.
  - rewrite (bind_Ret _ _ _ _ _
               (bind_Ret _ (fun s => ret (Return s)) _ _ _ Hr)).
    reflexivity.
  - cbn. unfold _words_to_tokens, Py.int_mul_1_3.
    replace (words_per_chunk_summary * 2) with (2 * words_per_chunk_summary) by lia.
    reflexivity.
Qed.

(** The chunked path of one pass, once the splitter and the loop over
    the chunks have run. *)
Lemma generate_summary_pass_chunked text_content max_input_tokens
  words_per_chunk_summary w chunks summaries w1 :
  let limit := effective_content_limit_for_splitting svc max_input_tokens in
  limit < count_tokens svc text_content ->
  split_text svc (Z.quot (8 * limit) 10) (Z.quot (Z.quot (8 * limit) 10) 10)
    (count_tokens svc) text_content = Ok chunks ->
  summarize_chunks svc max_input_tokens (Z.quot (13 * words_per_chunk_summary) 10)
    0 chunks [] w = (Ret summaries, w1) ->
  generate_summary_pass svc text_content max_input_tokens words_per_chunk_summary w
  = match summaries with
    | [] => (Ret (Return None), w1)
    | _ :: _ =>
        let combined := Py.join (Py.nl +:+ Py.nl) summaries in
        if count_tokens svc combined >? limit then (Ret (Recurse combined), w1)
        else
          bind (generate_text svc (final_reduce_prompt combined)
                  (Z.min (Z.quot (13 * (Z.of_nat (length chunks)
                                        * words_per_chunk_summary)) 10) 3000))
            (fun final_summary =>
               match final_summary with
               | None =>
                   raise (AttributeError
                            "'NoneType' object has no attribute 'rsplit'")
               | Some final_summary =>
                   match Py.rsplit1 "." final_summary with
                   | part0 :: _ => ret (Return (Some (Py.strip part0 +:+ ".")))
                   | [] => raise (IndexError "list index out of range")
                   end
               end) w1
    end.
Proof.
  intros limit Hover Hsplit Hloop. unfold generate_summary_pass.
  fold limit. apply Z.leb_gt in Hover. rewrite Hover.
  unfold Py.int_mul_0_8, Py.int_mul_0_1. rewrite Hsplit.
  unfold lift_result. unfold bind at 1. unfold ret at 1.
  unfold _words_to_tokens, Py.int_mul_1_3.
  unfold bind at 1. rewrite Hloop.
  destruct summaries as [|s0 rest]; [reflexivity|].
  cbv zeta.
  destruct (count_tokens svc (Py.join (Py.nl +:+ Py.nl) (s0 :: rest)) >? limit);
    reflexivity.
Qed.

(** C6 (amended). When a pass reaches the final reduce step it posts one
    more request, the reduce prompt over the combined section summaries,
    capped at the smaller of [number of chunks * words_per_chunk_summary]
    words at 1.3 tokens a word and 3000.  When that request yields a text,
    the summary returned is the part of the text before its last full
    stop -- the whole text when it has none -- with the surrounding white
    space removed and a full stop appended. *)
Theorem generate_summary_reduce_step fuel text_content max_input_tokens
  words_per_chunk_summary w chunks summaries w1 :
  let limit := effective_content_limit_for_splitting svc max_input_tokens in
  let combined := Py.join (Py.nl +:+ Py.nl) summaries in
  let cap :=
    Z.min (Z.quot (13 * (Z.of_nat (length chunks) * words_per_chunk_summary)) 10)
      3000 in
  limit < count_tokens svc text_content ->
  split_text svc (Z.quot (8 * limit) 10) (Z.quot (Z.quot (8 * limit) 10) 10)
    (count_tokens svc) text_content = Ok chunks ->
  summarize_chunks svc max_input_tokens (Z.quot (13 * words_per_chunk_summary) 10)
    0 chunks [] w = (Ret summaries, w1) ->
  summaries <> [] ->
  count_tokens svc combined <= limit ->
  exists r w',
    generate_summary svc (S fuel) text_content max_input_tokens
      words_per_chunk_summary w = (r, w')
    /\ llm_requests w' = llm_requests w1 ++ [(final_reduce_prompt combined, cap)]
    /\ forall generated,
         generate_text svc (final_reduce_prompt combined) cap w1
         = (Ret (Some generated), w') ->
         exists part0,
           r = Ret (Some (Py.strip part0 +:+ "."))
           /\ (Py.occurs "." generated = false -> part0 = generated)
           /\ (forall a b, generated = a +:+ String "." b ->
                 Py.occurs "." b = false -> part0 = a).
Proof.
  intros limit combined cap Hover Hsplit Hloop Hne Hfit.
  cbn [generate_summary].
  pose proof (generate_summary_pass_chunked _ _ _ _ _ _ _ Hover Hsplit Hloop) as Hpass.
  destruct summaries as [|s0 rest]; [congruence|].
  cbv zeta in Hpass. fold combined limit cap in Hpass.
  assert (Hle : (count_tokens svc combined >? limit) = false) by lia.
  rewrite Hle in Hpass.
  destruct (generate_text_posts (final_reduce_prompt combined) cap w1) as [g Hg].
  unfold bind at 1. rewrite Hpass. unfold bind at 1. rewrite Hg.
  destruct g as [generated|].
  - destruct (Py.rsplit1 "." generated) as [|part0 tl] eqn:Hparts;
      [exfalso; exact (rsplit1_not_nil _ _ Hparts)|].
    eexists _, _. split; [reflexivity|]. split; [reflexivity|].
    intros generated' Hg'.
    assert (generated' = generated) by congruence. subst generated'.
    exists part0. split; [reflexivity|]. split.
    + intros Hno. rewrite (rsplit1_absent _ _ Hno) in Hparts. congruence.
    + intros a b -> Hno. rewrite (rsplit1_last _ a b Hno) in Hparts. congruence.
  - eexists _, _. split; [reflexivity|]. split; [reflexivity|].
    intros generated' Hg'. discriminate.
Qed.

Lemma summarize_chunks_returns max_input_tokens cap chunks :
  forall i summaries w,
    exists l w',
      summarize_chunks svc max_input_tokens cap i chunks summaries w = (Ret l, w').
Proof.
  induction chunks as [|chunk rest IH]; intros i summaries w; cbn [summarize_chunks].
  - eexists _, _. reflexivity.
  - destruct (count_tokens svc (chunk_summary_prompt (i + 1) chunk) >? max_input_tokens).
    + apply IH.
    + destruct (generate_text_posts (chunk_summary_prompt (i + 1) chunk) cap w)
        as [r Hr].
      rewrite (bind_Ret _ _ _ _ _ Hr). apply IH.
Qed.



(** The loop over the chunks only adds to the summaries it starts with,
    and it adds nothing only if every chunk is skipped for overflow or its
    request yields no text. *)
Lemma summarize_chunks_adds max_input_tokens cap chunks :
  forall i summaries w l w',
    summarize_chunks svc max_input_tokens cap i chunks summaries w = (Ret l, w') ->
    exists extra,
      l = summaries ++ extra
      /\ (extra = [] ->
          forall (j : nat) chunk,
            chunks !! j = Some chunk ->
            max_input_tokens
            < count_tokens svc (chunk_summary_prompt (i + Z.of_nat j + 1) chunk)
            \/ exists wj r wj',
                 generate_text svc (chunk_summary_prompt (i + Z.of_nat j + 1) chunk)
                   cap wj = (Ret r, wj')
                 /\ Py.truthy_opt r = false).
Proof.
  induction chunks as [|chunk rest IH]; intros i summaries w l w' H;
    cbn [summarize_chunks] in H.
  - inversion H; subst. exists []. split; [rewrite app_nil_r; reflexivity|].
    intros _ j c Hj. inversion Hj.
  - destruct (count_tokens svc (chunk_summary_prompt (i + 1) chunk) >? max_input_tokens)
      eqn:Hskip.
    + destruct (IH _ _ _ _ _ H) as (extra & -> & Hextra).
      exists extra. split; [reflexivity|]. intros Hnil [|j] c Hj.
      * inversion Hj; subst. left.
        replace (i + Z.of_nat 0 + 1) with (i + 1) by lia. lia.
      * replace (i + Z.of_nat (S j) + 1) with (i + 1 + Z.of_nat j + 1) by lia.
        exact (Hextra Hnil j c Hj).
    + destruct (generate_text_posts (chunk_summary_prompt (i + 1) chunk) cap w)
        as [r Hr].
      rewrite (bind_Ret _ _ _ _ _ Hr) in H.
      destruct (IH _ _ _ _ _ H) as (extra & -> & Hextra).
      destruct r as [s0|]; [destruct (Py.truthy s0) eqn:Ht|].
      * exists (s0 :: extra). split; [rewrite <- app_assoc; reflexivity|].
        discriminate.
      * exists extra. split; [reflexivity|]. intros Hnil [|j] c Hj.
        -- inversion Hj; subst. right.
           replace (i + Z.of_nat 0 + 1) with (i + 1) by lia.
           eexists w, (Some s0), _. split; [exact Hr | exact Ht].
        -- replace (i + Z.of_nat (S j) + 1) with (i + 1 + Z.of_nat j + 1) by lia.
           exact (Hextra Hnil j c Hj).
      * exists extra. split; [reflexivity|]. intros Hnil [|j] c Hj.
        -- inversion Hj; subst. right.
           replace (i + Z.of_nat 0 + 1) with (i + 1) by lia.
           eexists w, None, _. split; [exact Hr | reflexivity].
        -- replace (i + Z.of_nat (S j) + 1) with (i + 1 + Z.of_nat j + 1) by lia.
           exact (Hextra Hnil j c Hj).
Qed.

(** Conversely, when every chunk is over the limit with its prompt or has
    a request that yields no text whenever it is posted, the loop collects
    nothing. *)
Lemma summarize_chunks_nothing max_input_tokens cap chunks :
  forall i summaries w,
    (forall (j : nat) chunk,
        chunks !! j = Some chunk ->
        max_input_tokens
        < count_tokens svc (chunk_summary_prompt (i + Z.of_nat j + 1) chunk)
        \/ forall wj r wj',
             generate_text svc (chunk_summary_prompt (i + Z.of_nat j + 1) chunk)
               cap wj = (Ret r, wj') ->
             Py.truthy_opt r = false) ->
    exists w',
      summarize_chunks svc max_input_tokens cap i chunks summaries w
      = (Ret summaries, w').
Proof.
  induction chunks as [|chunk rest IH]; intros i summaries w Hall;
    cbn [summarize_chunks].
  - eexists. reflexivity.
  - assert (Hrest : forall (j : nat) c,
               rest !! j = Some c ->
               max_input_tokens
               < count_tokens svc (chunk_summary_prompt (i + 1 + Z.of_nat j + 1) c)
               \/ forall wj r wj',
                    generate_text svc (chunk_summary_prompt (i + 1 + Z.of_nat j + 1) c)
                      cap wj = (Ret r, wj') ->
                    Py.truthy_opt r = false).
    { intros j c Hj.
      replace (i + 1 + Z.of_nat j + 1) with (i + Z.of_nat (S j) + 1) by lia.
      exact (Hall (S j) c Hj). }
    pose proof (Hall 0%nat chunk eq_refl) as H0.
    replace (i + Z.of_nat 0 + 1) with (i + 1) in H0 by lia.
    destruct (count_tokens svc (chunk_summary_prompt (i + 1) chunk) >? max_input_tokens)
      eqn:Hskip.
    + exact (IH _ _ _ Hrest).
    + destruct H0 as [H0|H0]; [lia|].
      destruct (generate_text_posts (chunk_summary_prompt (i + 1) chunk) cap w)
        as [r Hr].
      rewrite (bind_Ret _ _ _ _ _ Hr).
      pose proof (H0 _ _ _ Hr) as Hfalse.
      destruct r as [s0|]; [cbn in Hfalse; rewrite Hfalse|]; exact (IH _ _ _ Hrest).
Qed.

(** On the chunked path, a call that returns no summary has reached,
    through its recursive calls, a pass in which no section summary was
    collected. *)
Lemma generate_summary_none_only_if max_input_tokens words_per_chunk_summary fuel :
  let limit := effective_content_limit_for_splitting svc max_input_tokens in
  forall text_content w w',
    limit < count_tokens svc text_content ->
    generate_summary svc fuel text_content max_input_tokens
      words_per_chunk_summary w = (Ret None, w') ->
    exists t1 w1 chunks,
      nested svc max_input_tokens words_per_chunk_summary (text_content, w) (t1, w1)
      /\ limit < count_tokens svc t1
      /\ split_text svc (Z.quot (8 * limit) 10) (Z.quot (Z.quot (8 * limit) 10) 10)
           (count_tokens svc) t1 = Ok chunks
      /\ summarize_chunks svc max_input_tokens
           (Z.quot (13 * words_per_chunk_summary) 10) 0 chunks [] w1 = (Ret [], w').
Proof.
  intros limit. induction fuel as [|fuel IH]; intros text_content w w' Hover Hrun;
    [discriminate|].
  cbn [generate_summary] in Hrun.
  destruct (bind_Ret_inv _ _ _ _ _ Hrun) as (next & w1 & Hpass & Hk).
  destruct (split_text svc (Z.quot (8 * limit) 10) (Z.quot (Z.quot (8 * limit) 10) 10)
              (count_tokens svc) text_content) as [chunks|e] eqn:Hsplit.
  - destruct (summarize_chunks_returns max_input_tokens
                (Z.quot (13 * words_per_chunk_summary) 10) chunks 0 [] w)
      as (summaries & ws & Hloop).
    rewrite (generate_summary_pass_chunked _ _ _ _ _ _ _ Hover Hsplit Hloop) in Hpass.
    destruct summaries as [|s0 rest].
    + inversion Hpass; subst. inversion Hk; subst.
      exists text_content, w, chunks. repeat split; try assumption. apply nested_here.
    + cbv zeta in Hpass. fold limit in Hpass.
      destruct (count_tokens svc (Py.join (Py.nl +:+ Py.nl) (s0 :: rest)) >? limit)
        eqn:Hbig.
      * inversion Hpass; subst.
        assert (Hover' :
          limit < count_tokens svc (Py.join (Py.nl +:+ Py.nl) (s0 :: rest))) by lia.
        destruct (IH _ _ _ Hover' Hk) as (t1 & w2 & chunks' & Hn & Ho & Hs & Hl).
        exists t1, w2, chunks'. repeat split; try assumption.
        eapply nested_call; [|exact Hn].
        rewrite (generate_summary_pass_chunked _ _ _ _ _ _ _ Hover Hsplit Hloop).
        cbv zeta. fold limit. rewrite Hbig. reflexivity.
      * exfalso.
        match type of Hpass with
        | bind (generate_text svc ?p ?c) _ ws = _ =>
            destruct (generate_text_posts p c ws) as [g Hg];
            rewrite (bind_Ret _ _ _ _ _ Hg) in Hpass
        end.
        destruct g as [g|]; [|discriminate].
        destruct (Py.rsplit1 "." g); [discriminate|].
        inversion Hpass; subst. discriminate.
  - exfalso. unfold generate_summary_pass in Hpass. fold limit in Hpass.
    apply Z.leb_gt in Hover. rewrite Hover in Hpass.
    unfold Py.int_mul_0_8, Py.int_mul_0_1 in Hpass. rewrite Hsplit in Hpass.
    discriminate.
Qed.

(** Conversely, once the recursive calls reach a pass of the chunked path
    that collects no section summary, the call returns no summary. *)
Lemma generate_summary_none_if max_input_tokens words_per_chunk_summary x y :
  let limit := effective_content_limit_for_splitting svc max_input_tokens in
  nested svc max_input_tokens words_per_chunk_summary x y ->
  forall chunks w',
    limit < count_tokens svc (fst y) ->
    split_text svc (Z.quot (8 * limit) 10) (Z.quot (Z.quot (8 * limit) 10) 10)
      (count_tokens svc) (fst y) = Ok chunks ->
    summarize_chunks svc max_input_tokens
      (Z.quot (13 * words_per_chunk_summary) 10) 0 chunks [] (snd y) = (Ret [], w') ->
    exists fuel,
      generate_summary svc fuel (fst x) max_input_tokens words_per_chunk_summary
        (snd x) = (Ret None, w').
Proof.
  intros limit Hnested.
  induction Hnested as [[t w]|t w t1 w1 y Hpass Hrest IH];
    intros chunks w' Hover Hsplit Hloop.
  - exists 1%nat. cbn [generate_summary fst snd] in *.
    rewrite (bind_Ret _ _ _ _ _
               (generate_summary_pass_chunked _ _ _ _ _ _ _ Hover Hsplit Hloop)).
    reflexivity.
  - destruct (IH chunks w' Hover Hsplit Hloop) as [fuel Hfuel].
    exists (S fuel). cbn [generate_summary fst snd] in *.
    rewrite (bind_Ret _ _ _ _ _ Hpass). exact Hfuel.
Qed.

End llm_properties.

Lemma generate_summary_direct_path_witness :
  exists summary w',
    llm_service.generate_summary (demo.services (demo.answers "It is short."))
      1 "A short book." 30000 100 demo.blank = (Ret summary, w')
    /\ llm_requests w'
       = llm_requests demo.blank
           ++ [(llm_service.direct_prompt "A short book.",
                Z.quot (13 * (2 * 100)) 10)].
Proof.
  apply (generate_summary_direct_path
           (demo.services (demo.answers "It is short.")) 0 "A short book."
           30000 100 demo.blank).
  vm_compute. discriminate.
Defined.

(** C6, as stated, fails: here the reduce request yields a text without a
    full stop, and the summary returned is that text with a full stop
    appended -- not an initial part of the generated text. *)
Lemma generate_summary_reduce_appends_full_stop :
  let svc :=
    demo.services
      (demo.replies [demo.says "One part."; demo.says "Next part.";
                     demo.says "No full stop"] RequestError) in
  llm_service.generate_text svc
    (llm_service.final_reduce_prompt ("One part." +:+ Py.nl +:+ Py.nl +:+ "Next part."))
    260
    (snd (llm_service.summarize_chunks svc 700 130 0
            ["Twenty characters ok" +:+ Py.nl +:+ Py.nl +:+ "Twen"; "ty characters ok"]
            [] demo.blank))
  = (Ret (Some "No full stop"),
     snd (llm_service.generate_summary svc 1 demo.forty_two 700 100 demo.blank))
  /\ fst (llm_service.generate_summary svc 1 demo.forty_two 700 100 demo.blank)
     = Ret (Some "No full stop.")
  /\ Py.startswith "No full stop." "No full stop" = false.
Proof. vm_compute. repeat split; reflexivity. Qed.

Lemma generate_summary_reduce_step_witness :
  let svc :=
    demo.services
      (demo.replies [demo.says "One part."; demo.says "Next part.";
                     demo.says (String (ascii_of_nat 160) " All of it. And the")] RequestError) in
  exists r w',
    llm_service.generate_summary svc 1 demo.forty_two 700 100 demo.blank = (r, w')
    /\ r = Ret (Some "All of it.")
    /\ map snd (llm_requests w') = [130; 130; 260].
Proof.
  intros svc.
  destruct (generate_summary_reduce_step svc 0 demo.forty_two 700 100 demo.blank
              ["Twenty characters ok" +:+ Py.nl +:+ Py.nl +:+ "Twen"; "ty characters ok"]
              ["One part."; "Next part."]%string
              (snd (llm_service.summarize_chunks svc 700 130 0
                      ["Twenty characters ok" +:+ Py.nl +:+ Py.nl +:+ "Twen";
                       "ty characters ok"] [] demo.blank)))
    as (r & w' & Hrun & Hreq & Hres).
  - vm_compute. reflexivity.
  - vm_compute. reflexivity.
  - vm_compute. reflexivity.
  - discriminate.
  - vm_compute. discriminate.
  - exists r, w'. split; [exact Hrun|]. split.
    + destruct (Hres (String (ascii_of_nat 160) " All of it. And the")) as (part0 & Hr & _ & Hcut).
      * replace w' with
          (snd (llm_service.generate_summary svc 1 demo.forty_two 700 100 demo.blank))
          by (rewrite Hrun; reflexivity).
        vm_compute. reflexivity.
      * rewrite Hr, (Hcut (String (ascii_of_nat 160) " All of it") " And the"%string eq_refl eq_refl).
        reflexivity.
    + rewrite Hreq. vm_compute. reflexivity.
Defined.

(** ** The recursion limit of the interpreter *)

Section recursion_limit.

Import llm_service.

Variable svc : Services.

(** Below the recursion limit the interpreter runs the call as
    [generate_summary] describes it. *)
Lemma generate_summary_within_agrees max_input_tokens words_per_chunk_summary fuel :
  forall depth text_content w,
    (fuel <= depth)%nat ->
    fst (generate_summary svc fuel text_content max_input_tokens
           words_per_chunk_summary w) <> OutOfFuel ->
    generate_summary_within svc depth text_content max_input_tokens
      words_per_chunk_summary w
    = generate_summary svc fuel text_content max_input_tokens
        words_per_chunk_summary w.
Proof.
  induction fuel as [|fuel IH]; intros depth text_content w Hle Hends;
    [exfalso; apply Hends; reflexivity|].
  destruct depth as [|depth]; [lia|].
  cbn [generate_summary generate_summary_within] in *.
  destruct (generate_summary_pass svc text_content max_input_tokens
              words_per_chunk_summary w) as [[next|e|] w1] eqn:Hpass.
  - rewrite (bind_Ret _ _ _ _ _ Hpass) in Hends.
    rewrite !(bind_Ret _ _ _ _ _ Hpass).
    destruct next as [summary|combined]; [reflexivity|].
    apply IH; [lia | exact Hends].
  - rewrite !(bind_Exc _ _ _ _ _ Hpass). reflexivity.
  - unfold bind. rewrite Hpass. reflexivity.
Qed.



End recursion_limit.



(** ** What a computation leaves unchanged *)

#[local] Instance unchanged_refl {X} (f : World -> X) : Reflexive (unchanged f).
Proof. intros w. reflexivity. Qed.

#[local] Instance unchanged_trans {X} (f : World -> X) : Transitive (unchanged f).
Proof. intros w1 w2 w3 H1 H2. unfold unchanged in *. congruence. Qed.

#[local] Instance keeps_document_refl i : Reflexive (keeps_document i).
Proof. intros w H. exact H. Qed.

#[local] Instance keeps_document_trans i : Transitive (keeps_document i).
Proof. intros w1 w2 w3 H1 H2 H. exact (H2 (H1 H)). Qed.

Section preserves_rules.

Context {R : World -> World -> Prop} `{!Reflexive R} `{!Transitive R}.

Lemma preserves_ret {A} (a : A) : preserves R (ret a).
Proof. intros w r w' H. inversion H; subst. reflexivity. Qed.

Lemma preserves_raise {A} e : preserves R (@raise A e).
Proof. intros w r w' H. inversion H; subst. reflexivity. Qed.

Lemma preserves_get_world : preserves R get_world.
Proof. intros w r w' H. inversion H; subst. reflexivity. Qed.

Lemma preserves_guarded {A} (raises : World -> option PyExc) (m : M A) :
  preserves R m -> preserves R (guarded raises m).
Proof.
  intros Hm w r w' H. unfold guarded in H.
  destruct (raises w); [inversion H; subst; reflexivity | exact (Hm _ _ _ H)].
Qed.

Lemma preserves_lift_result {A} (x : result A) : preserves R (lift_result x).
Proof. destruct x; [apply preserves_ret | apply preserves_raise]. Qed.

Lemma preserves_bind {A B} (m : M A) (k : A -> M B) :
  preserves R m -> (forall a, preserves R (k a)) -> preserves R (bind m k).
Proof.
  intros Hm Hk w r w' H.
  destruct (bind_inv _ _ _ _ _ H) as [(a & w1 & H1 & H2)|[(e & H1 & _)|[H1 _]]].
  - transitivity w1; [exact (Hm _ _ _ H1) | exact (Hk _ _ _ _ H2)].
  - exact (Hm _ _ _ H1).
  - exact (Hm _ _ _ H1).
Qed.

Lemma preserves_try_except {A} (body : M A) handler :
  preserves R body -> (forall e, preserves R (handler e)) ->
  preserves R (try_except body handler).
Proof.
  intros Hb Hh w r w' H. unfold try_except in H.
  destruct (body w) as [[a|e|] w1] eqn:E.
  - inversion H; subst. exact (Hb _ _ _ E).
  - transitivity w1; [exact (Hb _ _ _ E) | exact (Hh _ _ _ _ H)].
  - inversion H; subst. exact (Hb _ _ _ E).
Qed.

Lemma preserves_try_finally {A} (body : M A) cleanup :
  preserves R body -> preserves R cleanup ->
  preserves R (try_finally body cleanup).
Proof.
  intros Hb Hc w r w' H. unfold try_finally in H.
  destruct (body w) as [[a|e|] w1] eqn:E.
  - destruct (cleanup w1) as [[u|e'|] w2] eqn:E2; inversion H; subst;
      (transitivity w1; [exact (Hb _ _ _ E) | exact (Hc _ _ _ E2)]).
  - destruct (cleanup w1) as [[u|e'|] w2] eqn:E2; inversion H; subst;
      (transitivity w1; [exact (Hb _ _ _ E) | exact (Hc _ _ _ E2)]).
  - inversion H; subst. exact (Hb _ _ _ E).
Qed.

End preserves_rules.

Lemma preserves_modify {X} (f : World -> X) (g : World -> World) :
  (forall w, f (g w) = f w) -> preserves (unchanged f) (modify g).
Proof. intros Hf w r w' H. inversion H; subst. apply Hf. Qed.

Lemma unchanged_keeps_document {A} (m : M A) i :
  preserves (unchanged db_documents) m -> preserves (keeps_document i) m.
Proof. intros H w r w' Hrun Hsome. rewrite (H _ _ _ Hrun). exact Hsome. Qed.

Section frames.

Variable svc : Services.

Context {X : Type} (f : World -> X).

Lemma generate_text_unchanged prompt max_tokens :
  (forall g w, f (set_llm_requests g w) = f w) ->
  preserves (unchanged f) (llm_service.generate_text svc prompt max_tokens).
Proof.
  intros Hf w r w' H.
  destruct (generate_text_posts svc prompt max_tokens w) as [r' Hr].
  rewrite Hr in H. inversion H; subst. apply Hf.
Qed.

Lemma summarize_chunks_unchanged max_input_tokens cap chunks :
  (forall g w, f (set_llm_requests g w) = f w) ->
  forall i summaries,
    preserves (unchanged f)
      (llm_service.summarize_chunks svc max_input_tokens cap i chunks summaries).
Proof.
  intros Hf. induction chunks as [|chunk rest IH]; intros i summaries;
    cbn [llm_service.summarize_chunks].
  - apply preserves_ret.
  - destruct (_ >? _); [apply IH|].
    apply preserves_bind; [apply generate_text_unchanged; exact Hf|].
    intros a. apply IH.
Qed.

Lemma generate_summary_pass_unchanged text_content max_input_tokens wpcs :
  (forall g w, f (set_llm_requests g w) = f w) ->
  preserves (unchanged f)
    (llm_service.generate_summary_pass svc text_content max_input_tokens wpcs).
Proof.
  intros Hf. unfold llm_service.generate_summary_pass.
  destruct (_ <=? _).
  - apply preserves_bind; [apply generate_text_unchanged; exact Hf|].
    intros a. apply preserves_ret.
  - apply preserves_bind; [apply preserves_lift_result|]. intros chunks.
    apply preserves_bind; [apply summarize_chunks_unchanged; exact Hf|].
    intros [|s0 rest]; [apply preserves_ret|].
    cbv zeta. destruct (_ >? _); [apply preserves_ret|].
    apply preserves_bind; [apply generate_text_unchanged; exact Hf|].
    intros [g|]; [|apply preserves_raise].
    destruct (Py.rsplit1 "." g); [apply preserves_raise | apply preserves_ret].
Qed.

Lemma generate_summary_unchanged fuel :
  (forall g w, f (set_llm_requests g w) = f w) ->
  forall text_content max_input_tokens wpcs,
    preserves (unchanged f)
      (llm_service.generate_summary svc fuel text_content max_input_tokens wpcs).
Proof.
  intros Hf. induction fuel as [|fuel IH]; intros text_content max_input_tokens wpcs;
    cbn [llm_service.generate_summary].
  - intros w r w' H. inversion H; subst. reflexivity.
  - apply preserves_bind; [apply generate_summary_pass_unchanged; exact Hf|].
    intros [summary|combined]; [apply preserves_ret | apply IH].
Qed.

Lemma update_state_unchanged state meta :
  (forall g w, f (set_task_states g w) = f w) ->
  preserves (unchanged f) (tasks.update_state state meta).
Proof. intros Hf. apply preserves_modify. intros w. apply Hf. Qed.

Lemma update_processing_progress_unchanged stage pct :
  (forall g w, f (set_task_states g w) = f w) ->
  preserves (unchanged f) (tasks.update_processing_progress stage pct).
Proof. apply update_state_unchanged. Qed.

Lemma commit_document_unchanged document_id g :
  (forall g w, f (set_db_documents g w) = f w) ->
  preserves (unchanged f) (tasks.commit_document document_id g).
Proof. intros Hf. apply preserves_modify. intros w. apply Hf. Qed.

Lemma download_file_unchanged object_name :
  preserves (unchanged f) (s3_service.download_file svc object_name).
Proof.
  intros w r w' H. unfold s3_service.download_file in H.
  destruct (s3_get_fails svc object_name); inversion H; subst; reflexivity.
Qed.

Lemma delete_file_unchanged object_name :
  (forall g w, f (set_s3_objects g w) = f w) ->
  preserves (unchanged f) (s3_service.delete_file svc object_name).
Proof.
  intros Hf w r w' H. unfold s3_service.delete_file in H.
  destruct (s3_delete_fails svc object_name); inversion H; subst;
    [reflexivity | apply Hf].
Qed.

Lemma named_temporary_file_unchanged content :
  (forall g n w, f (set_temp_files g n w) = f w) ->
  preserves (unchanged f) (tasks.named_temporary_file content).
Proof. intros Hf w r w' H. inversion H; subst. apply Hf. Qed.

Lemma fitz_open_unchanged path :
  preserves (unchanged f) (tasks.fitz_open svc path).
Proof.
  intros w r w' H. unfold tasks.fitz_open in H.
  destruct (temp_files w !! path); [|inversion H; subst; reflexivity].
  exact (preserves_lift_result _ _ _ _ H).
Qed.

Lemma cleanup_unchanged path0 :
  (forall g n w, f (set_temp_files g n w) = f w) ->
  preserves (unchanged f) (tasks.cleanup path0).
Proof.
  intros Hf w r w' H. unfold tasks.cleanup in H.
  destruct (path0 <? temp_counter w)%nat; [|inversion H; subst; reflexivity].
  destruct (temp_files w !! path0); inversion H; subst; [apply Hf | reflexivity].
Qed.

Lemma get_or_create_collection_unchanged name :
  (forall g w, f (set_chroma g w) = f w) ->
  preserves (unchanged f) (vector_db_service.get_or_create_collection svc name).
Proof.
  intros Hf w r w' H. unfold vector_db_service.get_or_create_collection in H.
  destruct (negb (chroma_client svc)); [inversion H; subst; reflexivity|].
  destruct (chroma_get_or_create_fails svc name); [inversion H; subst; reflexivity|].
  destruct (chroma w !! name); inversion H; subst; [reflexivity | apply Hf].
Qed.

Lemma add_chunks_to_collection_unchanged collection texts embeddings metadatas ids :
  (forall g w, f (set_chroma g w) = f w) ->
  preserves (unchanged f)
    (vector_db_service.add_chunks_to_collection svc collection texts embeddings
       metadatas ids).
Proof.
  intros Hf. unfold vector_db_service.add_chunks_to_collection.
  destruct collection as [name|]; [|apply preserves_ret].
  cbv zeta. destruct (negb _); [apply preserves_ret|].
  destruct (negb _); [apply preserves_ret|].
  intros w r w' H.
  destruct (chroma w !! name); [|inversion H; subst; reflexivity].
  destruct (chroma_add_fails svc name _); inversion H; subst;
    [reflexivity | apply Hf].
Qed.

Lemma query_collection_unchanged collection query_embeddings n_results :
  preserves (unchanged f)
    (vector_db_service.query_collection svc collection query_embeddings n_results).
Proof.
  intros w r w' H. unfold vector_db_service.query_collection in H.
  assert (w' = w); [|subst; reflexivity].
  destruct collection as [name|]; [|inversion H; reflexivity].
  repeat match type of H with
         | (match ?x with _ => _ end) = _ => destruct x
         | (let (_, _) := ?x in _) = _ => destruct x
         end; inversion H; reflexivity.
Qed.

Lemma delete_collection_unchanged name :
  (forall g w, f (set_chroma g w) = f w) ->
  preserves (unchanged f) (vector_db_service.delete_collection svc name).
Proof.
  intros Hf w r w' H. unfold vector_db_service.delete_collection in H.
  destruct (negb (chroma_client svc)); [inversion H; subst; reflexivity|].
  destruct (chroma_delete_fails svc name); [inversion H; subst; reflexivity|].
  destruct (chroma w !! name); inversion H; subst; [apply Hf | reflexivity].
Qed.

End frames.

Lemma generate_summary_within_unchanged {X} (f : World -> X) svc depth :
  (forall g w, f (set_llm_requests g w) = f w) ->
  forall text_content max_input_tokens wpcs,
    preserves (unchanged f)
      (llm_service.generate_summary_within svc depth text_content max_input_tokens
         wpcs).
Proof.
  intros Hf. induction depth as [|depth IH]; intros text_content max_input_tokens wpcs;
    cbn [llm_service.generate_summary_within].
  - apply preserves_bind; [apply generate_summary_pass_unchanged; exact Hf|].
    intros [summary|combined]; [apply preserves_ret | apply preserves_raise].
  - apply preserves_bind; [apply generate_summary_pass_unchanged; exact Hf|].
    intros [summary|combined]; [apply preserves_ret | apply IH].
Qed.

(** Decomposes a goal [preserves (unchanged f) m] along the structure of
    [m]; the side conditions say that [f] does not read the part of the
    world a primitive writes. *)
Ltac frame :=
  repeat first
    [ apply preserves_ret
    | apply preserves_raise
    | apply preserves_get_world
    | apply preserves_lift_result
    | apply preserves_guarded
    | apply generate_summary_within_unchanged; [intros; reflexivity]
    | apply download_file_unchanged
    | apply fitz_open_unchanged
    | apply query_collection_unchanged
    | apply generate_text_unchanged; [intros; reflexivity]
    | apply generate_summary_unchanged; [intros; reflexivity]
    | apply update_processing_progress_unchanged; [intros; reflexivity]
    | apply update_state_unchanged; [intros; reflexivity]
    | apply commit_document_unchanged; [intros; reflexivity]
    | apply delete_file_unchanged; [intros; reflexivity]
    | apply named_temporary_file_unchanged; [intros; reflexivity]
    | apply cleanup_unchanged; [intros; reflexivity]
    | apply get_or_create_collection_unchanged; [intros; reflexivity]
    | apply add_chunks_to_collection_unchanged; [intros; reflexivity]
    | apply delete_collection_unchanged; [intros; reflexivity]
    | apply preserves_bind; [|intros ?]
    | apply preserves_try_except; [|intros ?]
    | apply preserves_try_finally
    | match goal with
      | |- preserves _ (if ?c then _ else _) => destruct c
      | |- preserves _ (match ?x with _ => _ end) => destruct x
      end ].

Section stage_frames.

Variable svc : Services.

Lemma download_stage_db document :
  preserves (unchanged db_documents) (tasks.download_stage svc document).
Proof. unfold tasks.download_stage. frame. Qed.

Lemma extract_stage_db path :
  preserves (unchanged db_documents) (tasks.extract_stage svc path).
Proof. unfold tasks.extract_stage. frame. Qed.

Lemma chunk_stage_db full_text :
  preserves (unchanged db_documents) (tasks.chunk_stage svc full_text).
Proof. unfold tasks.chunk_stage. frame. Qed.

Lemma embed_stage_db chunks :
  preserves (unchanged db_documents) (tasks.embed_stage svc chunks).
Proof. unfold tasks.embed_stage. frame. Qed.

Lemma store_stage_db document_id document chunks embeddings :
  preserves (unchanged db_documents)
    (tasks.store_stage svc document_id document chunks embeddings).
Proof. unfold tasks.store_stage. frame. Qed.

End stage_frames.

(** ** The progress reports of a run *)

Section reports_rules.

Variable base : list (string * TaskMeta).

Lemma reports_raise {A} e i j :
  (i < length tasks.progress_reports)%nat -> (i <= j)%nat ->
  reports base (@raise A e) i j.
Proof.
  intros Hi Hij w r w' Hw H. inversion H; subst.
  exists i. split; [lia | exact Hw].
Qed.

Lemma reports_silent {A} (m : M A) i :
  (i < length tasks.progress_reports)%nat ->
  preserves (unchanged task_states) m -> reports base m i i.
Proof.
  intros Hi Hm w r w' Hw H. pose proof (Hm _ _ _ H) as E. unfold unchanged in E.
  destruct r; [congruence| |exact I].
  exists i. split; [lia | congruence].
Qed.

Lemma reports_progress stage pct i :
  tasks.progress_reports !! i = Some ("PROGRESS"%string, MetaProgress stage pct) ->
  reports base (tasks.update_processing_progress stage pct) i (S i).
Proof.
  intros Hi w r w' Hw H. inversion H; subst.
  change (task_states w ++ [("PROGRESS"%string, MetaProgress stage pct)]
          = base ++ take (S i) tasks.progress_reports).
  rewrite Hw, (take_S_r _ _ _ Hi), app_assoc. reflexivity.
Qed.

Lemma reports_bind {A B} (m : M A) (k : A -> M B) i j l :
  (i <= j <= l)%nat ->
  reports base m i j -> (forall a, reports base (k a) j l) ->
  reports base (bind m k) i l.
Proof.
  intros Hijl Hm Hk w r w' Hw H.
  destruct (bind_inv _ _ _ _ _ H) as [(a & w1 & H1 & H2)|[(e & H1 & ->)|[H1 ->]]].
  - pose proof (Hm _ _ _ Hw H1) as Hw1. cbn in Hw1.
    pose proof (Hk a _ _ _ Hw1 H2) as Hr.
    destruct r; [exact Hr| |exact I].
    destruct Hr as (k0 & Hk0 & Hts). exists k0. split; [lia | exact Hts].
  - destruct (Hm _ _ _ Hw H1) as (k0 & Hk0 & Hts).
    exists k0. split; [lia | exact Hts].
  - exact I.
Qed.

Lemma reports_bind_progress {B} stage pct (k : unit -> M B) i l :
  tasks.progress_reports !! i = Some ("PROGRESS"%string, MetaProgress stage pct) ->
  (S i <= l)%nat ->
  (forall a, reports base (k a) (S i) l) ->
  reports base (bind (tasks.update_processing_progress stage pct) k) i l.
Proof.
  intros Hi Hl Hk. apply (reports_bind _ _ i (S i) l); [lia| |exact Hk].
  apply reports_progress. exact Hi.
Qed.

Lemma reports_bind_silent {A B} (m : M A) (k : A -> M B) i l :
  (i < length tasks.progress_reports)%nat -> (i <= l)%nat ->
  preserves (unchanged task_states) m ->
  (forall a, reports base (k a) i l) ->
  reports base (bind m k) i l.
Proof.
  intros Hi Hl Hm Hk. apply (reports_bind _ _ i i l); [lia| |exact Hk].
  apply reports_silent; assumption.
Qed.

Lemma reports_guarded {A} raises (m : M A) i j :
  (i < length tasks.progress_reports)%nat -> (i <= j)%nat ->
  reports base m i j -> reports base (guarded raises m) i j.
Proof.
  intros Hi Hij Hm w r w' Hw H. unfold guarded in H.
  destruct (raises w); [|exact (Hm _ _ _ Hw H)].
  inversion H; subst. exists i. split; [lia | exact Hw].
Qed.

Lemma reports_progress_guarded bk stage pct i :
  tasks.progress_reports !! i = Some ("PROGRESS"%string, MetaProgress stage pct) ->
  reports base (worker.update_processing_progress bk stage pct) i (S i).
Proof.
  intros Hi. apply reports_guarded;
    [exact (lookup_lt_Some _ _ _ Hi) | lia | apply reports_progress; exact Hi].
Qed.

Lemma reports_bind_progress_guarded {B} bk stage pct (k : unit -> M B) i l :
  tasks.progress_reports !! i = Some ("PROGRESS"%string, MetaProgress stage pct) ->
  (S i <= l)%nat ->
  (forall a, reports base (k a) (S i) l) ->
  reports base (bind (worker.update_processing_progress bk stage pct) k) i l.
Proof.
  intros Hi Hl Hk. apply (reports_bind _ _ i (S i) l); [lia| |exact Hk].
  apply reports_progress_guarded. exact Hi.
Qed.

End reports_rules.

Ltac reports_steps :=
  repeat first
    [ apply reports_raise; [simpl; lia | lia]
    | apply reports_progress; reflexivity
    | apply reports_progress_guarded; reflexivity
    | apply reports_bind_progress_guarded; [reflexivity | lia | intros ?]
    | apply reports_silent; [simpl; lia | solve [frame]]
    | apply reports_bind_progress; [reflexivity | lia | intros ?]
    | apply reports_bind_silent; [simpl; lia | lia | solve [frame] | intros ?]
    | match goal with
      | |- reports _ (if ?c then _ else _) _ _ => destruct c
      | |- reports _ (match ?x with _ => _ end) _ _ => destruct x
      end ].

Section stage_reports.

Variable svc : Services.
Variable base : list (string * TaskMeta).

Lemma download_stage_reports document :
  reports base (tasks.download_stage svc document) 0 2.
Proof. unfold tasks.download_stage. reports_steps. Qed.

Lemma extract_stage_reports path :
  reports base (tasks.extract_stage svc path) 2 4.
Proof. unfold tasks.extract_stage. reports_steps. Qed.

Lemma summary_stage_reports fuel document_id full_text :
  reports base (tasks.summary_stage svc fuel document_id full_text) 4 6.
Proof. unfold tasks.summary_stage. reports_steps. Qed.

Lemma chunk_stage_reports full_text :
  reports base (tasks.chunk_stage svc full_text) 6 8.
Proof. unfold tasks.chunk_stage. reports_steps. Qed.

Lemma embed_stage_reports chunks :
  reports base (tasks.embed_stage svc chunks) 8 10.
Proof. unfold tasks.embed_stage. reports_steps. Qed.

Lemma store_stage_reports document_id document chunks embeddings :
  reports base (tasks.store_stage svc document_id document chunks embeddings) 10 12.
Proof. unfold tasks.store_stage. reports_steps. Qed.

Lemma complete_stage_reports document_id :
  reports base (tasks.complete_stage document_id) 12 13.
Proof. unfold tasks.complete_stage. reports_steps. Qed.

Lemma stages_reports fuel document_id document :
  reports base (tasks.stages svc fuel document_id document) 0 13.
Proof.
  unfold tasks.stages.
  apply (reports_bind _ _ _ 0 2 13); [lia|apply download_stage_reports|intros path].
  apply (reports_bind _ _ _ 2 4 13); [lia|apply extract_stage_reports|intros full_text].
  apply (reports_bind _ _ _ 4 6 13); [lia|apply summary_stage_reports|intros _].
  apply (reports_bind _ _ _ 6 8 13); [lia|apply chunk_stage_reports|intros chunks].
  apply (reports_bind _ _ _ 8 10 13); [lia|apply embed_stage_reports|intros embeddings].
  apply (reports_bind _ _ _ 10 12 13); [lia|apply store_stage_reports|intros _].
  apply complete_stage_reports.
Qed.

End stage_reports.

(** ** The ingestion task *)

Lemma commit_document_keeps i j g :
  preserves (keeps_document i) (tasks.commit_document j g).
Proof.
  intros w r w' H Hsome. inversion H; subst. cbn.
  apply lookup_alter_is_Some. exact Hsome.
Qed.

Ltac keeps :=
  repeat first
    [ apply commit_document_keeps
    | apply preserves_guarded
    | apply unchanged_keeps_document; solve [frame]
    | apply preserves_bind; [|intros ?]
    | match goal with
      | |- preserves _ (if ?c then _ else _) => destruct c
      | |- preserves _ (match ?x with _ => _ end) => destruct x
      end ].

Lemma cleanup_returns path0 w :
  exists w', tasks.cleanup path0 w = (Ret tt, w').
Proof.
  unfold tasks.cleanup. destruct (path0 <? temp_counter w)%nat; [|eauto].
  destruct (temp_files w !! path0); eauto.
Qed.

Section task_properties.

Import models.

Section failure.

Variable svc : Services.

Lemma stages_keeps_document fuel document_id document i :
  preserves (keeps_document i) (tasks.stages svc fuel document_id document).
Proof.
  unfold tasks.stages, tasks.download_stage, tasks.extract_stage,
    tasks.summary_stage, tasks.chunk_stage, tasks.embed_stage, tasks.store_stage,
    tasks.complete_stage.
  keeps.
Qed.

Lemma process_pdf_task_unfold fuel document_id document w :
  db_documents w !! document_id = Some document ->
  tasks.process_pdf_task svc fuel document_id w
  = try_finally
      (try_except (tasks.stages svc fuel document_id document)
         (tasks.on_exception document_id))
      (tasks.cleanup (temp_counter w)) (started document_id w).
Proof.
  intros Hdoc. unfold tasks.process_pdf_task.
  unfold bind at 1. unfold get_world. rewrite Hdoc. reflexivity.
Qed.

(** The run of the task when the [try] block raises. *)
Lemma process_pdf_task_when_stage_raises fuel document_id document w e w1 :
  db_documents w !! document_id = Some document ->
  tasks.stages svc fuel document_id document (started document_id w) = (Exc e, w1) ->
  exists w',
    tasks.process_pdf_task svc fuel document_id w = (Ret tt, w')
    /\ (exists d, db_documents w' !! document_id = Some d
                  /\ processing_status d = FAILED)
    /\ (exists k, (k < length tasks.progress_reports)%nat
                  /\ task_states w'
                     = task_states w
                         ++ [("PROGRESS"%string, MetaProgress "Initializing" 5)]
                         ++ take k tasks.progress_reports
                         ++ [("FAILED"%string, MetaExc (str_exc e) 0)])
    /\ llm_requests w' = llm_requests w1
    /\ chroma w' = chroma w1
    /\ s3_objects w' = s3_objects w1.
Proof.
  intros Hdoc Hstages.
  rewrite (process_pdf_task_unfold fuel _ _ _ Hdoc).
  unfold try_finally, try_except. rewrite Hstages.
  set (w2 := set_task_states
               (fun l => l ++ [("FAILED"%string, MetaExc (str_exc e) 0)])
               (set_db_documents (alter (set_processing_status FAILED) document_id) w1)).
  change (tasks.on_exception document_id e w1) with (Ret tt, w2).
  destruct (cleanup_returns (temp_counter w) w2) as [w3 Hclean]. rewrite Hclean.
  exists w3. split; [reflexivity|].
  assert (Hpresent : is_Some (db_documents w1 !! document_id)).
  { apply (stages_keeps_document fuel document_id document document_id _ _ _ Hstages).
    cbn. apply lookup_alter_is_Some. rewrite Hdoc. eauto. }
  destruct Hpresent as [d1 Hd1].
  split; [|split; [|split; [|split]]].
  - exists (set_processing_status FAILED d1).
    rewrite (cleanup_unchanged db_documents _ (fun _ _ _ => eq_refl) _ _ _ Hclean).
    cbn. rewrite lookup_alter_eq, Hd1. split; reflexivity.
  - pose proof (stages_reports svc
                  (task_states w
                     ++ [("PROGRESS"%string, MetaProgress "Initializing" 5)])
                  fuel document_id document (started document_id w) (Exc e) w1)
      as Hrep.
    destruct (Hrep ltac:(cbn; rewrite app_nil_r; reflexivity) Hstages)
      as (k & Hk & Hts).
    exists k. split; [lia|].
    rewrite (cleanup_unchanged task_states _ (fun _ _ _ => eq_refl) _ _ _ Hclean).
    cbn. rewrite Hts, <- !app_assoc. reflexivity.
  - rewrite (cleanup_unchanged llm_requests _ (fun _ _ _ => eq_refl) _ _ _ Hclean).
    reflexivity.
  - rewrite (cleanup_unchanged chroma _ (fun _ _ _ => eq_refl) _ _ _ Hclean).
    reflexivity.
  - rewrite (cleanup_unchanged s3_objects _ (fun _ _ _ => eq_refl) _ _ _ Hclean).
    reflexivity.
Qed.

End failure.

Section rerun_properties.

Variable svc : Services.

Lemma stages_status_irrelevant fuel document_id document s :
  tasks.stages svc fuel document_id (set_processing_status s document)
  = tasks.stages svc fuel document_id document.
Proof. reflexivity. Qed.

Lemma alter_status_twice (m : gmap Z Document) document_id s s' :
  alter (set_processing_status s') document_id
    (alter (set_processing_status s) document_id m)
  = alter (set_processing_status s') document_id m.
Proof.
  rewrite alter_alter_eq. apply alter_ext. intros d _. reflexivity.
Qed.

(** The run does not depend on the status the document has when the task
    is invoked. *)
Lemma process_pdf_task_ignores_status fuel document_id document w s :
  db_documents w !! document_id = Some document ->
  tasks.process_pdf_task svc fuel document_id
    (set_db_documents (alter (set_processing_status s) document_id) w)
  = tasks.process_pdf_task svc fuel document_id w.
Proof.
  intros Hdoc.
  rewrite (process_pdf_task_unfold svc fuel _ document _ Hdoc).
  rewrite (process_pdf_task_unfold svc fuel _ (set_processing_status s document)).
  - rewrite stages_status_irrelevant.
    unfold started, set_db_documents, set_task_states.
    cbn [db_documents s3_objects chroma task_states llm_requests temp_files
           temp_counter].
    rewrite alter_status_twice. reflexivity.
  - cbn [db_documents set_db_documents]. rewrite lookup_alter_eq, Hdoc. reflexivity.
Qed.

Lemma stages_completed fuel document_id document w w1 :
  tasks.stages svc fuel document_id document w = (Ret tt, w1) ->
  exists w0,
    db_documents w1
    = alter (set_processing_status COMPLETED) document_id (db_documents w0).
Proof.
  intros H. unfold tasks.stages in H.
  do 6 (apply bind_Ret_inv in H; destruct H as (? & ? & _ & H)).
  unfold tasks.complete_stage in H.
  apply bind_Ret_inv in H. destruct H as ([] & w0 & Hcommit & Hreport).
  inversion Hcommit; subst. inversion Hreport; subst.
  eexists. reflexivity.
Qed.

(** A run that returns leaves the document in a terminal state. *)
Lemma process_pdf_task_ends_terminal fuel document_id document w w' :
  db_documents w !! document_id = Some document ->
  tasks.process_pdf_task svc fuel document_id w = (Ret tt, w') ->
  exists d, db_documents w' !! document_id = Some d
            /\ (processing_status d = COMPLETED \/ processing_status d = FAILED).
Proof.
  intros Hdoc Hrun. rewrite (process_pdf_task_unfold svc fuel _ _ _ Hdoc) in Hrun.
  unfold try_finally, try_except in Hrun.
  destruct (tasks.stages svc fuel document_id document (started document_id w))
    as [[[]|e|] w1] eqn:Hstages.
  - destruct (cleanup_returns (temp_counter w) w1) as [w3 Hclean].
    rewrite Hclean in Hrun. inversion Hrun; subst w3.
    rewrite (cleanup_unchanged db_documents _ (fun _ _ _ => eq_refl) _ _ _ Hclean).
    assert (Hpresent : is_Some (db_documents w1 !! document_id)).
    { apply (stages_keeps_document svc fuel document_id document document_id
               _ _ _ Hstages).
      cbn. apply lookup_alter_is_Some. rewrite Hdoc. eauto. }
    destruct (stages_completed _ _ _ _ _ Hstages) as [w0 Hdb].
    rewrite Hdb in *. rewrite lookup_alter_eq in *.
    destruct (db_documents w0 !! document_id) as [d0|];
      [|destruct Hpresent; discriminate].
    exists (set_processing_status COMPLETED d0). split; [reflexivity|]. left. reflexivity.
  - destruct (process_pdf_task_when_stage_raises svc fuel document_id document w e w1
                Hdoc Hstages) as (w3 & Hrun' & (d & Hd & Hfailed) & _).
    rewrite (process_pdf_task_unfold svc fuel _ _ _ Hdoc) in Hrun'.
    unfold try_finally, try_except in Hrun'. rewrite Hstages in Hrun'.
    rewrite Hrun' in Hrun. inversion Hrun; subst. eauto.
  - discriminate.
Qed.

End rerun_properties.

Section without_summary.

Variable svc : Services.

Lemma add_chunks_to_collection_returns collection texts embeddings metadatas ids w :
  exists w',
    vector_db_service.add_chunks_to_collection svc collection texts embeddings
      metadatas ids w = (Ret tt, w').
Proof.
  unfold vector_db_service.add_chunks_to_collection.
  destruct collection as [name|]; [|eexists; reflexivity].
  cbv zeta. destruct (negb _); [eexists; reflexivity|].
  destruct (negb _); [eexists; reflexivity|].
  destruct (chroma w !! name); [|eexists; reflexivity].
  destruct (chroma_add_fails svc name _); eexists; reflexivity.
Qed.

Lemma store_stage_returns document_id document chunks embeddings w :
  chroma_client svc = true ->
  chroma_get_or_create_fails svc ("doc_" +:+ Py.str_of_int (id document)) = false ->
  exists w',
    tasks.store_stage svc document_id document chunks embeddings w = (Ret tt, w')
    /\ db_documents w' = db_documents w.
Proof.
  intros Hclient Hcreate.
  assert (Hrun : exists w',
    tasks.store_stage svc document_id document chunks embeddings w = (Ret tt, w')).
  { unfold tasks.store_stage. unfold bind at 1.
    unfold tasks.update_processing_progress at 1, tasks.update_state, modify.
    cbv zeta. unfold bind at 1.
    unfold vector_db_service.get_or_create_collection.
    rewrite Hclient, Hcreate. cbn [negb].
    match goal with
    | |- context [chroma ?w0 !! ?n] => destruct (chroma w0 !! n)
    end.
    - match goal with
      | |- context [bind (vector_db_service.add_chunks_to_collection svc ?c ?t ?e ?m ?i)
                      _ ?w0] =>
          destruct (add_chunks_to_collection_returns c t e m i w0) as [w1 H1];
          rewrite (bind_Ret _ _ _ _ _ H1)
      end.
      eexists. reflexivity.
    - match goal with
      | |- context [bind (vector_db_service.add_chunks_to_collection svc ?c ?t ?e ?m ?i)
                      _ ?w0] =>
          destruct (add_chunks_to_collection_returns c t e m i w0) as [w1 H1];
          rewrite (bind_Ret _ _ _ _ _ H1)
      end.
      eexists. reflexivity. }
  destruct Hrun as [w' Hrun]. exists w'. split; [exact Hrun|].
  exact (store_stage_db svc _ _ _ _ _ _ _ Hrun).
Qed.

(** With no summary the summary stage returns and writes no column. *)
Lemma summary_stage_without_summary fuel document_id full_text w w2 :
  llm_service.generate_summary svc fuel full_text 30000 100
    (set_task_states
       (fun l => l ++ [("PROGRESS"%string, MetaProgress "Generating summary" 45)]) w)
  = (Ret None, w2) ->
  tasks.summary_stage svc fuel document_id full_text w
  = (Ret tt,
     set_task_states
       (fun l => l ++ [("PROGRESS"%string,
                        MetaProgress "Summary generation complete" 48)]) w2).
Proof.
  intros Hsum. unfold tasks.summary_stage. unfold bind at 1.
  unfold tasks.update_processing_progress at 1, tasks.update_state, modify.
  rewrite (bind_Ret _ _ _ _ _ Hsum). reflexivity.
Qed.

(** When [generate_summary] returns no summary and the later stages find
    their services working, the run ends [COMPLETED], with the summary
    column as it was. *)
Lemma process_pdf_task_completes_without_summary fuel document_id document w
  full_text w1 w2 c cs e es :
  db_documents w !! document_id = Some document ->
  bind (tasks.download_stage svc document) (tasks.extract_stage svc)
    (started document_id w) = (Ret full_text, w1) ->
  llm_service.generate_summary svc fuel full_text 30000 100
    (set_task_states
       (fun l => l ++ [("PROGRESS"%string, MetaProgress "Generating summary" 45)]) w1)
  = (Ret None, w2) ->
  split_text svc 1000 200 Py.len full_text = Ok (c :: cs) ->
  embedding_service.get_embeddings svc (c :: cs) = e :: es ->
  chroma_client svc = true ->
  chroma_get_or_create_fails svc ("doc_" +:+ Py.str_of_int (id document)) = false ->
  exists w',
    tasks.process_pdf_task svc fuel document_id w = (Ret tt, w')
    /\ exists d, db_documents w' !! document_id = Some d
                 /\ processing_status d = COMPLETED
                 /\ summary d = summary document.
Proof.
  intros Hdoc Hfirst Hsum Hsplit Hemb Hclient Hcreate.
  rewrite (process_pdf_task_unfold svc fuel _ _ _ Hdoc).
  destruct (bind_Ret_inv _ _ _ _ _ Hfirst) as (path & wd & Hdown & Hext).
  pose proof (download_stage_db svc _ _ _ _ Hdown) as Edown.
  pose proof (extract_stage_db svc _ _ _ _ Hext) as Eext.
  pose proof (generate_summary_unchanged svc db_documents fuel
                (fun _ _ => eq_refl) _ _ _ _ _ _ Hsum) as Esum.
  unfold unchanged in *.
  set (w3 := set_task_states
               (fun l => l ++ [("PROGRESS"%string,
                                MetaProgress "Summary generation complete" 48)]) w2).
  set (w4 := set_task_states
               (fun l => l ++ [("PROGRESS"%string,
                                MetaProgress "Text chunking for RAG complete" 60)])
               (set_task_states
                  (fun l => l ++ [("PROGRESS"%string,
                                   MetaProgress "Chunking text for RAG" 50)]) w3)).
  set (w5 := set_task_states
               (fun l => l ++ [("PROGRESS"%string,
                                MetaProgress "Embeddings generated" 80)])
               (set_task_states
                  (fun l => l ++ [("PROGRESS"%string,
                                   MetaProgress "Generating embeddings" 70)]) w4)).
  assert (Hchunk : tasks.chunk_stage svc full_text w3 = (Ret (c :: cs), w4)).
  { unfold tasks.chunk_stage. unfold bind at 1.
    unfold tasks.update_processing_progress at 1, tasks.update_state, modify.
    rewrite Hsplit. reflexivity. }
  assert (Hembed : tasks.embed_stage svc (c :: cs) w4 = (Ret (e :: es), w5)).
  { unfold tasks.embed_stage. rewrite Hemb. reflexivity. }
  destruct (store_stage_returns document_id document (c :: cs) (e :: es) w5
              Hclient Hcreate) as (w6 & Hstore & Estore).
  set (w7 := set_task_states
               (fun l => l ++ [("PROGRESS"%string,
                                MetaProgress "Processing completed" 100)])
               (set_db_documents
                  (alter (set_processing_status COMPLETED) document_id) w6)).
  assert (Hstages :
    tasks.stages svc fuel document_id document (started document_id w) = (Ret tt, w7)).
  { unfold tasks.stages.
    rewrite (bind_Ret _ _ _ _ _ Hdown), (bind_Ret _ _ _ _ _ Hext).
    rewrite (bind_Ret _ _ _ _ _ (summary_stage_without_summary _ _ _ _ _ Hsum)).
    fold w3.
    rewrite (bind_Ret _ _ _ _ _ Hchunk), (bind_Ret _ _ _ _ _ Hembed).
    rewrite (bind_Ret _ _ _ _ _ Hstore). reflexivity. }
  unfold try_finally, try_except. rewrite Hstages.
  destruct (cleanup_returns (temp_counter w) w7) as [w8 Hclean]. rewrite Hclean.
  exists w8. split; [reflexivity|].
  exists (set_processing_status COMPLETED (set_processing_status PROCESSING document)).
  rewrite (cleanup_unchanged db_documents _ (fun _ _ _ => eq_refl) _ _ _ Hclean).
  subst w7 w5 w4 w3. cbn [db_documents set_task_states set_db_documents].
  rewrite Estore. cbn [db_documents set_task_states set_db_documents].
  rewrite Esum. cbn [db_documents set_task_states set_db_documents].
  rewrite Eext, Edown. unfold started.
  cbn [db_documents set_task_states set_db_documents].
  rewrite !lookup_alter_eq, Hdoc. repeat split; reflexivity.
Qed.

End without_summary.

Section other_operations.

Variable svc : Services.

Lemma query_document_db document_id query_text current_user :
  preserves (unchanged db_documents)
    (endpoints.query_document svc document_id query_text current_user).
Proof. unfold endpoints.query_document. frame. Qed.

Lemma delete_document_db document_id current_user w r w' :
  endpoints.delete_document svc document_id current_user w = (r, w') ->
  db_documents w' = db_documents w
  \/ db_documents w' = delete document_id (db_documents w).
Proof.
  unfold endpoints.delete_document. unfold bind at 1. unfold get_world.
  destruct (db_documents w !! document_id) as [document|];
    [|intros H; inversion H; subst; left; reflexivity].
  destruct (negb _); [intros H; inversion H; subst; left; reflexivity|].
  unfold try_except. intros H.
  match type of H with
  | context [bind (s3_service.delete_file svc ?n) ?k w] =>
      destruct (bind (s3_service.delete_file svc n) k w) as [[u|e|] w1] eqn:Hbody
  end.
  - inversion H; subst.
    destruct (bind_Ret_inv _ _ _ _ _ Hbody) as (b & wa & Ha & Hbody').
    destruct (bind_Ret_inv _ _ _ _ _ Hbody') as (b' & wb & Hb & Hc).
    pose proof (delete_file_unchanged svc db_documents _ (fun _ _ => eq_refl)
                  _ _ _ Ha) as Ea.
    pose proof (delete_collection_unchanged svc db_documents _ (fun _ _ => eq_refl)
                  _ _ _ Hb) as Eb.
    unfold unchanged in *. unfold crud_document.delete_document in Hc.
    destruct (db_delete_fails svc document_id); [discriminate|].
    inversion Hc; subst. right. cbn. congruence.
  - inversion H; subst. left.
    destruct (bind_inv _ _ _ _ _ Hbody)
      as [(b & wa & Ha & Hbody')|[(e0 & Ha & _)|[Ha _]]].
    + pose proof (delete_file_unchanged svc db_documents _ (fun _ _ => eq_refl)
                    _ _ _ Ha) as Ea.
      destruct (bind_inv _ _ _ _ _ Hbody')
        as [(b' & wb & Hb & Hc)|[(e1 & Hb & _)|[Hb _]]].
      * pose proof (delete_collection_unchanged svc db_documents _
                      (fun _ _ => eq_refl) _ _ _ Hb) as Eb.
        unfold unchanged in *. unfold crud_document.delete_document in Hc.
        destruct (db_delete_fails svc document_id); inversion Hc; subst.
        congruence.
      * pose proof (delete_collection_unchanged svc db_documents _
                      (fun _ _ => eq_refl) _ _ _ Hb) as Eb.
        unfold unchanged in *. congruence.
      * pose proof (delete_collection_unchanged svc db_documents _
                      (fun _ _ => eq_refl) _ _ _ Hb) as Eb.
        unfold unchanged in *. congruence.
    + exact (delete_file_unchanged svc db_documents _ (fun _ _ => eq_refl) _ _ _ Ha).
    + exact (delete_file_unchanged svc db_documents _ (fun _ _ => eq_refl) _ _ _ Ha).
  - inversion H; subst. left.
    destruct (bind_inv _ _ _ _ _ Hbody)
      as [(b & wa & Ha & Hbody')|[(e0 & Ha & Habs)|[Ha _]]].
    + pose proof (delete_file_unchanged svc db_documents _ (fun _ _ => eq_refl)
                    _ _ _ Ha) as Ea.
      destruct (bind_inv _ _ _ _ _ Hbody')
        as [(b' & wb & Hb & Hc)|[(e1 & Hb & Habs)|[Hb _]]].
      * unfold crud_document.delete_document in Hc.
        destruct (db_delete_fails svc document_id); discriminate.
      * discriminate.
      * pose proof (delete_collection_unchanged svc db_documents _
                      (fun _ _ => eq_refl) _ _ _ Hb) as Eb.
        unfold unchanged in *. congruence.
    + discriminate.
    + exact (delete_file_unchanged svc db_documents _ (fun _ _ => eq_refl) _ _ _ Ha).
Qed.

End other_operations.

(** C2 (amended). [process_pdf_task] reads the persisted status for no
    purpose: for an existing document it sets [PROCESSING] and runs the
    stages whatever the status was, so a run on a document already
    [PROCESSING] is the run it would be from any other status.  A run that
    returns leaves the document [COMPLETED] or [FAILED]; the query
    operation leaves the table of documents as it is and the delete
    operation only removes a row; so a document in a terminal state gets
    [PROCESSING] again only by a new invocation of the task. *)
Theorem process_pdf_task_no_status_guard (svc : Services) :
  (forall fuel document_id document w s,
      db_documents w !! document_id = Some document ->
      tasks.process_pdf_task svc fuel document_id
        (set_db_documents (alter (set_processing_status s) document_id) w)
      = tasks.process_pdf_task svc fuel document_id w)
  /\ (forall fuel document_id document w w',
        db_documents w !! document_id = Some document ->
        tasks.process_pdf_task svc fuel document_id w = (Ret tt, w') ->
        exists d, db_documents w' !! document_id = Some d
                  /\ (processing_status d = COMPLETED
                      \/ processing_status d = FAILED))
  /\ (forall document_id query_text current_user w r w',
        endpoints.query_document svc document_id query_text current_user w = (r, w') ->
        db_documents w' = db_documents w)
  /\ (forall document_id current_user w r w' j d,
        endpoints.delete_document svc document_id current_user w = (r, w') ->
        db_documents w' !! j = Some d -> db_documents w !! j = Some d).
Proof.
  split; [|split; [|split]].
  - intros. eapply process_pdf_task_ignores_status. eassumption.
  - intros. eapply process_pdf_task_ends_terminal; eassumption.
  - intros document_id query_text current_user w r w' H.
    exact (query_document_db svc _ _ _ _ _ _ H).
  - intros document_id current_user w r w' j d H Hj.
    destruct (delete_document_db svc _ _ _ _ _ H) as [E|E]; rewrite E in Hj.
    + exact Hj.
    + apply lookup_delete_Some in Hj. tauto.
Qed.

Lemma process_pdf_task_no_status_guard_witness :
  tasks.process_pdf_task (demo.services (demo.answers "It is short.")) 1 1
    (set_db_documents (alter (set_processing_status PROCESSING) 1)
       (demo.uploaded PENDING))
  = tasks.process_pdf_task (demo.services (demo.answers "It is short.")) 1 1
      (demo.uploaded PENDING).
Proof.
  apply (proj1 (process_pdf_task_no_status_guard
                  (demo.services (demo.answers "It is short.")))
           1%nat 1 (demo.book PENDING) (demo.uploaded PENDING) PROCESSING).
  vm_compute. reflexivity.
Defined.

(** C2, as stated, fails: invoked on a document that is already
    [PROCESSING], the task runs every stage again and ends [COMPLETED]. *)
Lemma process_pdf_task_runs_on_processing_document :
  let svc := demo.services (demo.answers "It is short.") in
  let w := demo.uploaded PROCESSING in
  let w' := snd (tasks.process_pdf_task svc 1 1 w) in
  (processing_status <$> db_documents w !! 1) = Some PROCESSING
  /\ fst (tasks.process_pdf_task svc 1 1 w) = Ret tt
  /\ task_states w'
     = ("PROGRESS"%string, MetaProgress "Initializing" 5) :: tasks.progress_reports
  /\ length (llm_requests w') = 1%nat
  /\ (length <$> chroma w' !! "doc_1"%string) = Some 1%nat
  /\ (processing_status <$> db_documents w' !! 1) = Some COMPLETED.
Proof. vm_compute. repeat split; reflexivity. Qed.

(** C5 (amended). On the chunked path [generate_summary] returns no
    summary exactly when its recursive calls reach a pass that collects no
    section summary -- which need not be the pass on the input itself.
    A pass collects none only if each of its chunks is skipped for
    overflow or has a request that yields no text, and it collects none
    if that holds whenever the request is posted.  That outcome does not stop the ingestion: the summary stage returns,
    and when the later stages find their services working the run ends
    [COMPLETED] with the summary column as it was. *)
Theorem generate_summary_no_summary_non_fatal (svc : Services)
  (max_input_tokens words_per_chunk_summary : Z) :
  let limit := llm_service.effective_content_limit_for_splitting svc max_input_tokens in
  let chunks_of t :=
    split_text svc (Z.quot (8 * limit) 10) (Z.quot (Z.quot (8 * limit) 10) 10)
      (llm_service.count_tokens svc) t in
  let section_summaries chunks :=
    llm_service.summarize_chunks svc max_input_tokens
      (Z.quot (13 * words_per_chunk_summary) 10) 0 chunks [] in
  (forall fuel text_content w w',
      limit < llm_service.count_tokens svc text_content ->
      llm_service.generate_summary svc fuel text_content max_input_tokens
        words_per_chunk_summary w = (Ret None, w') ->
      exists t1 w1 chunks,
        llm_service.nested svc max_input_tokens words_per_chunk_summary
          (text_content, w) (t1, w1)
        /\ limit < llm_service.count_tokens svc t1
        /\ chunks_of t1 = Ok chunks
        /\ section_summaries chunks w1 = (Ret [], w'))
  /\ (forall text_content w t1 w1 chunks w',
        llm_service.nested svc max_input_tokens words_per_chunk_summary
          (text_content, w) (t1, w1) ->
        limit < llm_service.count_tokens svc t1 ->
        chunks_of t1 = Ok chunks ->
        section_summaries chunks w1 = (Ret [], w') ->
        exists fuel,
          llm_service.generate_summary svc fuel text_content max_input_tokens
            words_per_chunk_summary w = (Ret None, w'))
  /\ (forall chunks w1 w',
        section_summaries chunks w1 = (Ret [], w') ->
        forall (j : nat) chunk,
          chunks !! j = Some chunk ->
          max_input_tokens
          < llm_service.count_tokens svc
              (llm_service.chunk_summary_prompt (Z.of_nat j + 1) chunk)
          \/ exists wj r wj',
               llm_service.generate_text svc
                 (llm_service.chunk_summary_prompt (Z.of_nat j + 1) chunk)
                 (Z.quot (13 * words_per_chunk_summary) 10) wj = (Ret r, wj')
               /\ Py.truthy_opt r = false)
  /\ (forall chunks w1,
        (forall (j : nat) chunk,
            chunks !! j = Some chunk ->
            max_input_tokens
            < llm_service.count_tokens svc
                (llm_service.chunk_summary_prompt (Z.of_nat j + 1) chunk)
            \/ forall wj r wj',
                 llm_service.generate_text svc
                   (llm_service.chunk_summary_prompt (Z.of_nat j + 1) chunk)
                   (Z.quot (13 * words_per_chunk_summary) 10) wj = (Ret r, wj') ->
                 Py.truthy_opt r = false) ->
        exists w', section_summaries chunks w1 = (Ret [], w'))
  /\ (forall fuel document_id document w full_text w1 w2 c cs e es,
        db_documents w !! document_id = Some document ->
        bind (tasks.download_stage svc document) (tasks.extract_stage svc)
          (started document_id w) = (Ret full_text, w1) ->
        llm_service.generate_summary svc fuel full_text 30000 100
          (set_task_states
             (fun l => l ++ [("PROGRESS"%string,
                              MetaProgress "Generating summary" 45)]) w1)
        = (Ret None, w2) ->
        split_text svc 1000 200 Py.len full_text = Ok (c :: cs) ->
        embedding_service.get_embeddings svc (c :: cs) = e :: es ->
        chroma_client svc = true ->
        chroma_get_or_create_fails svc ("doc_" +:+ Py.str_of_int (id document))
        = false ->
        exists w',
          tasks.process_pdf_task svc fuel document_id w = (Ret tt, w')
          /\ exists d, db_documents w' !! document_id = Some d
                       /\ processing_status d = COMPLETED
                       /\ summary d = summary document).
Proof.
  intros limit chunks_of section_summaries. split; [|split; [|split; [|split]]].
  - intros fuel text_content w w' Hover Hrun.
    exact (generate_summary_none_only_if svc _ _ fuel _ _ _ Hover Hrun).
  - intros text_content w t1 w1 chunks w' Hnested Hover Hsplit Hloop.
    exact (generate_summary_none_if svc _ _ _ _ Hnested chunks w' Hover Hsplit Hloop).
  - intros chunks w1 w' Hloop j chunk Hj.
    destruct (summarize_chunks_adds svc _ _ _ _ _ _ _ _ Hloop) as (extra & E & Hall).
    cbn in E. subst extra.
    exact (Hall eq_refl j chunk Hj).
  - intros chunks w1 Hall.
    exact (summarize_chunks_nothing svc _ _ chunks 0 [] w1 Hall).
  - intros. eapply process_pdf_task_completes_without_summary; eassumption.
Qed.

Lemma generate_summary_no_summary_non_fatal_witness :
  let svc := demo.services demo.unreachable in
  exists w',
    tasks.process_pdf_task svc 1 1 (demo.uploaded PENDING) = (Ret tt, w')
    /\ exists d, db_documents w' !! 1 = Some d
                 /\ processing_status d = COMPLETED
                 /\ summary d = summary (demo.book PENDING).
Proof.
  intros svc.
  apply (proj2 (proj2 (proj2 (proj2
           (generate_summary_no_summary_non_fatal svc 30000 100))))
           1%nat 1 (demo.book PENDING) (demo.uploaded PENDING)
           "A short book. It has an end."%string
           (snd (bind (tasks.download_stage svc (demo.book PENDING))
                   (tasks.extract_stage svc) (started 1 (demo.uploaded PENDING))))
           (snd (llm_service.generate_summary svc 1 "A short book. It has an end."
                   30000 100
                   (set_task_states
                      (fun l => l ++ [("PROGRESS"%string,
                                       MetaProgress "Generating summary" 45)])
                      (snd (bind (tasks.download_stage svc (demo.book PENDING))
                              (tasks.extract_stage svc)
                              (started 1 (demo.uploaded PENDING)))))))
           "A short book. It has an end."%string [] [inject_Z 28] []);
    vm_compute; reflexivity.
Defined.

(** C5, as stated, fails: here both section requests of the pass on the
    input succeed, the combined summaries are over the budget, and the
    recursive call, whose requests all fail, makes the outer call return
    no summary. *)
Lemma generate_summary_none_after_successful_sections :
  let svc :=
    demo.services
      (demo.replies [demo.says demo.twenty; demo.says demo.twenty] RequestError) in
  let chunks :=
    ["Twenty characters ok" +:+ Py.nl +:+ Py.nl +:+ "Twen"; "ty characters ok"] in
  llm_service.effective_content_limit_for_splitting svc 700
  < llm_service.count_tokens svc demo.forty_two
  /\ split_text svc 26 2 (llm_service.count_tokens svc) demo.forty_two = Ok chunks
  /\ fst (llm_service.summarize_chunks svc 700 130 0 chunks [] demo.blank)
     = Ret [demo.twenty; demo.twenty]
  /\ fst (llm_service.generate_summary svc 2 demo.forty_two 700 100 demo.blank)
     = Ret None.
Proof. vm_compute. repeat split; reflexivity. Qed.

End task_properties.

(** ** The task as the worker runs it *)

Section worker_properties.

Import models.

Variable bk : Backend.
Variable svc : Services.






End worker_properties.

(** With a session and a state backend that never raise, and below the
    recursion limit, the worker runs the task as [tasks.process_pdf_task]
    describes it. *)

Section worker_agreement.

Variable svc : Services.

Lemma bind_agree {A B} (m : M A) (k1 k2 : A -> M B) w :
  fst (bind m k2 w) <> OutOfFuel ->
  (forall a w', m w = (Ret a, w') -> fst (k2 a w') <> OutOfFuel ->
                k1 a w' = k2 a w') ->
  bind m k1 w = bind m k2 w.
Proof.
  unfold bind. destruct (m w) as [[a|e|] w']; intros Hends Hk;
    [apply (Hk a w' eq_refl Hends) | reflexivity | reflexivity].
Qed.

Lemma bind_agree_head {A B} (m1 m2 : M A) (k : A -> M B) w :
  m1 w = m2 w -> bind m1 k w = bind m2 k w.
Proof. unfold bind. intros ->. reflexivity. Qed.

Lemma bind_ends_head {A B} (m : M A) (k : A -> M B) w :
  fst (bind m k w) <> OutOfFuel -> fst (m w) <> OutOfFuel.
Proof.
  unfold bind. destruct (m w) as [[a|e|] w']; cbn; intros Hends;
    [discriminate | discriminate | exfalso; apply Hends; reflexivity].
Qed.

Lemma worker_summary_stage_agrees fuel depth document_id full_text w :
  (fuel <= depth)%nat ->
  fst (tasks.summary_stage svc fuel document_id full_text w) <> OutOfFuel ->
  worker.summary_stage worker.reliable svc depth document_id full_text w
  = tasks.summary_stage svc fuel document_id full_text w.
Proof.
  intros Hle Hends. unfold worker.summary_stage, tasks.summary_stage in *.
  change (worker.update_processing_progress worker.reliable "Generating summary" 45)
    with (tasks.update_processing_progress "Generating summary" 45).
  apply bind_agree; [exact Hends|]. intros _ w1 _ Hends1.
  apply bind_ends_head in Hends1 as Hsummary.
  etransitivity;
    [apply bind_agree_head;
     apply (generate_summary_within_agrees svc 30000 100 fuel depth full_text w1
              Hle Hsummary)|].
  reflexivity.
Qed.

Lemma worker_stages_agree fuel depth document_id document w :
  (fuel <= depth)%nat ->
  fst (tasks.stages svc fuel document_id document w) <> OutOfFuel ->
  worker.stages worker.reliable svc depth document_id document w
  = tasks.stages svc fuel document_id document w.
Proof.
  intros Hle Hends. unfold worker.stages, tasks.stages in *.
  change (worker.download_stage worker.reliable svc document)
    with (tasks.download_stage svc document).
  apply bind_agree; [exact Hends|]. intros path w1 _ Hends1.
  change (worker.extract_stage worker.reliable svc path)
    with (tasks.extract_stage svc path).
  apply bind_agree; [exact Hends1|]. intros full_text w2 _ Hends2.
  apply bind_ends_head in Hends2 as Hsummary.
  etransitivity;
    [apply bind_agree_head;
     apply (worker_summary_stage_agrees fuel depth document_id full_text w2
              Hle Hsummary)|].
  reflexivity.
Qed.

Lemma worker_process_pdf_task_agrees fuel depth document_id w :
  (fuel <= depth)%nat ->
  fst (tasks.process_pdf_task svc fuel document_id w) <> OutOfFuel ->
  worker.process_pdf_task worker.reliable svc depth document_id w
  = tasks.process_pdf_task svc fuel document_id w.
Proof.
  intros Hle Hends. unfold worker.process_pdf_task, tasks.process_pdf_task in *.
  apply bind_agree; [exact Hends|]. intros w0 w0' Hget Hends0.
  unfold get_world in Hget. injection Hget as <- <-.
  destruct (db_documents w !! document_id) as [document|]; [|reflexivity].
  change (worker.commit_document worker.reliable document_id
            (models.set_processing_status models.PROCESSING))
    with (tasks.commit_document document_id
            (models.set_processing_status models.PROCESSING)).
  apply bind_agree; [exact Hends0|]. intros _ w1 _ Hends1.
  change (worker.update_processing_progress worker.reliable "Initializing" 5)
    with (tasks.update_processing_progress "Initializing" 5).
  apply bind_agree; [exact Hends1|]. intros _ w2 _ Hends2.
  unfold try_finally, try_except in *.
  rewrite (worker_stages_agree fuel depth document_id document w2 Hle).
  - reflexivity.
  - intros Hout. apply Hends2.
    destruct (tasks.stages svc fuel document_id document w2) as [[[]|e|] w3];
      [discriminate Hout | discriminate Hout | reflexivity].
Qed.

End worker_agreement.



(** ** The reranker *)

Section reranker_properties.

Import reranker_service.

Lemma insert_reverse_elem x l c :
  c ∈ insert_reverse x l <-> c = x \/ c ∈ l.
Proof.
  induction l as [|y l IH]; simpl.
  - rewrite list_elem_of_singleton, elem_of_nil. tauto.
  - destruct (Qle_bool (key y) (key x)).
    + rewrite elem_of_cons. tauto.
    + rewrite !elem_of_cons, IH. tauto.
Qed.

Lemma insert_reverse_sorted x l :
  StronglySorted not_below l -> StronglySorted not_below (insert_reverse x l).
Proof.
  induction l as [|y l IH]; intros Hl; simpl.
  - repeat constructor.
  - apply StronglySorted_cons in Hl. destruct Hl as [Hy Hl].
    destruct (Qle_bool (key y) (key x)) eqn:E.
    + apply Qle_bool_iff in E. apply StronglySorted_cons. split.
      * constructor; [exact E|].
        eapply Forall_impl; [exact Hy|]. intros z Hz. unfold not_below in *.
        eapply Qle_trans; eassumption.
      * apply StronglySorted_cons. split; [exact Hy | exact Hl].
    + apply StronglySorted_cons. split; [|apply IH; exact Hl].
      apply Forall_forall. intros z Hz. apply insert_reverse_elem in Hz.
      destruct Hz as [->|Hz].
      * unfold not_below. apply Qlt_le_weak, Qnot_le_lt. intros Hle.
        apply Qle_bool_iff in Hle. congruence.
      * rewrite Forall_forall in Hy. exact (Hy z Hz).
Qed.

Lemma sorted_reverse_sorted l : StronglySorted not_below (sorted_reverse l).
Proof.
  induction l as [|x l IH]; simpl; [constructor|].
  apply insert_reverse_sorted. exact IH.
Qed.

Lemma sorted_reverse_elem l c : c ∈ sorted_reverse l <-> c ∈ l.
Proof.
  induction l as [|x l IH]; simpl; [reflexivity|].
  rewrite insert_reverse_elem, elem_of_cons, IH. reflexivity.
Qed.

Lemma take_sorted n (l : list Candidate) :
  StronglySorted not_below l -> StronglySorted not_below (take n l).
Proof.
  intros H. rewrite <- (take_drop n l) in H.
  exact (StronglySorted_app_1_l _ _ _ H).
Qed.

Lemma score_documents_enough documents scores :
  (length documents <= length scores)%nat ->
  exists scored, score_documents documents scores = Some scored.
Proof.
  revert scores. induction documents as [|d documents IH]; intros scores H.
  - exists []. destruct scores; reflexivity.
  - destruct scores as [|sc scores]; [simpl in H; lia|].
    destruct (IH scores ltac:(simpl in H; lia)) as [scored Hs].
    exists (with_score d sc :: scored). simpl. rewrite Hs. reflexivity.
Qed.

Lemma score_documents_elem documents scores scored c :
  score_documents documents scores = Some scored ->
  c ∈ scored ->
  exists i d sc,
    documents !! i = Some d /\ scores !! i = Some sc /\ c = with_score d sc.
Proof.
  revert scores scored.
  induction documents as [|d documents IH]; intros scores scored H Hc.
  - destruct scores; inversion H; subst; inversion Hc.
  - destruct scores as [|sc scores]; [discriminate|]. simpl in H.
    destruct (score_documents documents scores) as [l|] eqn:E; [|discriminate].
    inversion H; subst. apply elem_of_cons in Hc. destruct Hc as [->|Hc].
    + exists 0%nat, d, sc. repeat split; reflexivity.
    + destruct (IH _ _ E Hc) as (i & d' & sc' & Hd & Hs & ->).
      exists (S i), d', sc'. repeat split; assumption.
Qed.

Lemma slice_to_take {A} (l : list A) n :
  0 <= n -> Py.slice_to l n = take (Z.to_nat n) l.
Proof. intros H. unfold Py.slice_to. destruct (0 <=? n) eqn:E; [reflexivity|lia]. Qed.

Lemma rerank_cases svc query documents top_n :
  rerank svc query documents top_n = Py.slice_to documents top_n
  \/ exists predict scores scored,
       cross_encoder svc = Some predict
       /\ predict (map (fun doc => (query, cand_document doc)) documents) = Ok scores
       /\ score_documents documents scores = Some scored
       /\ rerank svc query documents top_n
          = Py.slice_to (sorted_reverse scored) top_n.
Proof.
  unfold rerank. destruct (cross_encoder svc) as [predict|]; [|left; reflexivity].
  destruct documents as [|d documents].
  - left. unfold Py.slice_to. destruct (0 <=? top_n); rewrite take_nil; reflexivity.
  - destruct (predict _) as [scores|e] eqn:Hp; [|left; reflexivity].
    destruct (score_documents (d :: documents) scores) as [scored|] eqn:Hs;
      [|left; reflexivity].
    right. exists predict, scores, scored. repeat split; assumption.
Qed.

Lemma sorted_positions {A} (R : A -> A -> Prop) (l : list A) :
  StronglySorted R l ->
  forall i j a b, (i < j)%nat -> l !! i = Some a -> l !! j = Some b -> R a b.
Proof.
  induction 1 as [|x l Hl IH Hx]; intros i j a b Hij Ha Hb; [inversion Ha|].
  destruct j as [|j]; [lia|]. cbn in Hb. destruct i as [|i].
  - cbn in Ha. inversion Ha; subst.
    rewrite Forall_forall in Hx. apply Hx.
    apply list_elem_of_In. apply list_elem_of_In.
    exact (list_elem_of_lookup_2 _ _ _ Hb).
  - cbn in Ha. apply (IH i j); [lia | exact Ha | exact Hb].
Qed.

(** C7. For a requested count [top_n] (the endpoint asks for 5), [rerank]
    returns at most [top_n] candidates.  With the model loaded and a score
    for every candidate, each candidate returned is an input candidate
    with the score the model gave it attached, and of two candidates
    returned the later one never has the higher score.  Without the model
    the result is the first [top_n] candidates as they came in, with
    nothing attached. *)
Theorem rerank_top_n svc query documents top_n :
  0 <= top_n ->
  let out := rerank svc query documents top_n in
  Z.of_nat (length out) <= top_n
  /\ (forall predict scores,
        cross_encoder svc = Some predict ->
        predict (map (fun doc => (query, cand_document doc)) documents) = Ok scores ->
        (length documents <= length scores)%nat ->
        (forall c, c ∈ out ->
           exists i d sc,
             documents !! i = Some d /\ scores !! i = Some sc
             /\ cand_id c = cand_id d /\ cand_document c = cand_document d
             /\ cand_distance c = cand_distance d
             /\ cand_metadata c = cand_metadata d
             /\ relevance_score c = Some sc)
        /\ forall i j a b,
             (i < j)%nat -> out !! i = Some a -> out !! j = Some b ->
             exists sa sb,
               relevance_score a = Some sa /\ relevance_score b = Some sb
               /\ (sb <= sa)%Q)
  /\ (cross_encoder svc = None -> out = take (Z.to_nat top_n) documents).
Proof.
  intros Hn out. split; [|split].
  - subst out. destruct (rerank_cases svc query documents top_n)
      as [->|(predict & scores & scored & _ & _ & _ & ->)];
      apply slice_to_length; exact Hn.
  - intros predict scores Hmodel Hpredict Henough. subst out. unfold rerank.
    rewrite Hmodel. destruct documents as [|d documents].
    + split; [intros c Hc; inversion Hc | intros i j a b _ Ha; inversion Ha].
    + rewrite Hpredict.
      destruct (score_documents_enough (d :: documents) scores Henough)
        as [scored Hscored].
      rewrite Hscored, (slice_to_take _ _ Hn).
      assert (Helem : forall c,
        c ∈ take (Z.to_nat top_n) (sorted_reverse scored) ->
        exists i d' sc,
          (d :: documents) !! i = Some d' /\ scores !! i = Some sc
          /\ c = with_score d' sc).
      { intros c Hc. apply elem_of_take in Hc. destruct Hc as (j & Hc & _).
        apply list_elem_of_lookup_2 in Hc.
        apply (proj1 (sorted_reverse_elem _ _)) in Hc.
        exact (score_documents_elem _ _ _ _ Hscored Hc). }
      split.
      * intros c Hc. destruct (Helem c Hc) as (i & d' & sc & Hd & Hs & ->).
        exists i, d', sc. repeat split; assumption || reflexivity.
      * intros i j a b Hij Ha Hb.
        pose proof (sorted_positions not_below _
                      (take_sorted (Z.to_nat top_n) _ (sorted_reverse_sorted scored))
                      i j a b Hij Ha Hb) as Horder.
        destruct (Helem a (list_elem_of_lookup_2 _ _ _ Ha)) as (? & da & sa & _ & _ & ->).
        destruct (Helem b (list_elem_of_lookup_2 _ _ _ Hb)) as (? & db & sb & _ & _ & ->).
        exists sa, sb. split; [reflexivity|]. split; [reflexivity|].
        exact Horder.
  - intros Hmodel. subst out. unfold rerank. rewrite Hmodel.
    apply slice_to_take. exact Hn.
Qed.

End reranker_properties.

Lemma rerank_top_n_witness :
  let documents :=
    [demo.candidate 0 "Short."; demo.candidate 1 "The longest passage.";
     demo.candidate 2 "A longer one."] in
  let out := reranker_service.rerank (demo.services demo.unreachable) "Which?"
               documents 2 in
  Z.of_nat (length out) <= 2
  /\ map (fun c => (cand_document c, relevance_score c)) out
     = [("The longest passage."%string, Some 20%Q); ("A longer one."%string, Some 13%Q)]
  /\ (forall i j a b,
        (i < j)%nat -> out !! i = Some a -> out !! j = Some b ->
        exists sa sb,
          relevance_score a = Some sa /\ relevance_score b = Some sb
          /\ (sb <= sa)%Q)
  /\ reranker_service.rerank (demo.services_no_reranker demo.unreachable) "Which?"
       documents 2
     = [demo.candidate 0 "Short."; demo.candidate 1 "The longest passage."].
Proof.
  intros documents out.
  destruct (rerank_top_n (demo.services demo.unreachable) "Which?"%string documents 2
              ltac:(lia)) as (Hlength & Hscored & _).
  destruct (rerank_top_n (demo.services_no_reranker demo.unreachable) "Which?"%string
              documents 2 ltac:(lia)) as (_ & _ & Hfallback).
  split; [exact Hlength|]. split; [vm_compute; reflexivity|]. split.
  - exact (proj2 (Hscored demo.score_length [6%Q; 20%Q; 13%Q] eq_refl eq_refl
                    (le_n 3))).
  - rewrite (Hfallback eq_refl). reflexivity.
Defined.

(** ** The vector store gateway and the endpoints *)

Section gateway_properties.

Variable svc : Services.

Lemma query_collection_returns collection query_embeddings n_results w :
  exists l,
    vector_db_service.query_collection svc collection query_embeddings n_results w
    = (Ret l, w).
Proof.
  unfold vector_db_service.query_collection.
  destruct collection as [name|]; [|eexists; reflexivity].
  repeat match goal with
         | |- exists l, (match ?x with _ => _ end) = _ => destruct x
         end; eexists; reflexivity.
Qed.

Lemma get_or_create_collection_returns name w :
  exists c w',
    vector_db_service.get_or_create_collection svc name w = (Ret c, w')
    /\ (c = None \/ c = Some name)
    /\ (chroma_client svc = true -> chroma_get_or_create_fails svc name = false ->
        c = Some name /\ chroma w' !! name = Some (default [] (chroma w !! name))).
Proof.
  unfold vector_db_service.get_or_create_collection.
  destruct (chroma_client svc); cbn [negb].
  - destruct (chroma_get_or_create_fails svc name).
    + eexists _, _. split; [reflexivity|]. split; [left; reflexivity|].
      intros _ H. discriminate.
    + destruct (chroma w !! name) as [stored|] eqn:E.
      * eexists _, _. split; [reflexivity|]. split; [right; reflexivity|].
        intros _ _. split; [reflexivity|]. rewrite E. reflexivity.
      * eexists _, _. split; [reflexivity|]. split; [right; reflexivity|].
        intros _ _. split; [reflexivity|]. cbn. apply lookup_insert_eq.
  - eexists _, _. split; [reflexivity|]. split; [left; reflexivity|].
    intros H. discriminate.
Qed.

(** The three ways in which [query_collection] gives the empty list. *)
Lemma query_collection_empty_cases :
  (forall query_embeddings n_results w,
      vector_db_service.query_collection svc None query_embeddings n_results w
      = (Ret [], w))
  /\ (forall name query_embeddings n_results w stored e,
        chroma w !! name = Some stored ->
        chroma_query svc stored query_embeddings n_results = Raises e ->
        vector_db_service.query_collection svc (Some name) query_embeddings
          n_results w = (Ret [], w))
  /\ (forall name query_embeddings n_results w stored results rest,
        chroma w !! name = Some stored ->
        chroma_query svc stored query_embeddings n_results = Ok results ->
        documents results = [] :: rest ->
        vector_db_service.query_collection svc (Some name) query_embeddings
          n_results w = (Ret [], w)).
Proof.
  split; [|split].
  - reflexivity.
  - intros name query_embeddings n_results w stored e Hs Hq.
    unfold vector_db_service.query_collection. rewrite Hs, Hq. reflexivity.
  - intros name query_embeddings n_results w stored results rest Hs Hq Hd.
    unfold vector_db_service.query_collection. rewrite Hs, Hq, Hd. reflexivity.
Qed.

End gateway_properties.

Section query_properties.

Import models.
Import endpoints.

Variable svc : Services.

(** The run of [query_document] once the document is found, owned by the
    caller and [COMPLETED]. *)
Lemma query_document_completed document_id query_text current_user w document :
  db_documents w !! document_id = Some document ->
  owner_id document = current_user ->
  processing_status document = COMPLETED ->
  query_document svc document_id query_text current_user w
  = bind (vector_db_service.get_or_create_collection svc
            ("doc_" +:+ Py.str_of_int (id document)))
      (fun collection =>
         match collection with
         | None =>
             raise (HTTPException 500 "Could not access document's vector store.")
         | Some _ =>
             match embedding_service.get_embeddings svc [query_text] with
             | [] =>
                 raise (HTTPException 500
                          "Failed to generate embedding for the query.")
             | _ :: _ =>
                 bind (vector_db_service.query_collection svc collection
                         (embedding_service.get_embeddings svc [query_text]) 10)
                   (fun candidates =>
                      match candidates with
                      | [] =>
                          raise (HTTPException 404
                                   "No relevant chunks found for this query in the document.")
                      | _ :: _ =>
                          match reranker_service.rerank svc query_text candidates 5 with
                          | [] =>
                              raise (HTTPException 404
                                       "No relevant chunks found after re-ranking.")
                          | _ :: _ =>
                              bind (llm_service.generate_text svc
                                      (rag_prompt
                                         (Py.join (Py.nl +:+ Py.nl)
                                            (map cand_document
                                               (reranker_service.rerank svc query_text
                                                  candidates 5)))
                                         query_text) 1000)
                                (fun llm_response =>
                                   match llm_response with
                                   | Some answer =>
                                       if Py.truthy answer then
                                         ret {| llm_answer := answer;
                                                retrieved_chunks :=
                                                  reranker_service.rerank svc query_text
                                                    candidates 5 |}
                                       else
                                         raise (HTTPException 500
                                                  "Failed to get a response from the Language Model.")
                                   | None =>
                                       raise (HTTPException 500
                                                "Failed to get a response from the Language Model.")
                                   end)
                          end
                      end)
             end
         end) w.
Proof.
  intros Hdoc Howner Hstatus. unfold query_document. unfold bind at 1.
  unfold get_world. rewrite Hdoc, Hstatus.
  apply Z.eqb_eq in Howner. rewrite Howner. cbn [negb].
  unfold INITIAL_CHROMA_RESULTS, TOP_N_RERANKED_RESULTS,
    HTTP_500_INTERNAL_SERVER_ERROR, HTTP_404_NOT_FOUND.
  f_equal.
Qed.

(** C8. A run of [query_document] posts at most one generation request,
    and posts it only when the document is [COMPLETED], the vector search
    for 10 results has given a candidate and the rerank to 5 has given a
    candidate; the prompt is built from the reranked passages.  A document
    that is not [COMPLETED] is answered with 409, an empty search or an
    empty rerank with 404, and in these cases no request is posted. *)
Theorem query_document_generation_guard document_id query_text current_user w r w' :
  query_document svc document_id query_text current_user w = (r, w') ->
  (llm_requests w' = llm_requests w
   \/ exists document w1 candidates,
        db_documents w !! document_id = Some document
        /\ processing_status document = COMPLETED
        /\ vector_db_service.query_collection svc
             (Some ("doc_" +:+ Py.str_of_int (id document)))
             (embedding_service.get_embeddings svc [query_text]) 10 w1
           = (Ret candidates, w1)
        /\ candidates <> []
        /\ reranker_service.rerank svc query_text candidates 5 <> []
        /\ llm_requests w'
           = llm_requests w
               ++ [(rag_prompt
                      (Py.join (Py.nl +:+ Py.nl)
                         (map cand_document
                            (reranker_service.rerank svc query_text candidates 5)))
                      query_text, 1000)])
  /\ (forall document,
        db_documents w !! document_id = Some document ->
        owner_id document = current_user ->
        processing_status document <> COMPLETED ->
        r = Exc (HTTPException 409
                   ("Document is not yet processed. Current status: "
                      +:+ value (processing_status document) +:+ ". Please wait."))
        /\ w' = w)
  /\ (forall document w1 e es candidates,
        db_documents w !! document_id = Some document ->
        owner_id document = current_user ->
        processing_status document = COMPLETED ->
        vector_db_service.get_or_create_collection svc
          ("doc_" +:+ Py.str_of_int (id document)) w
        = (Ret (Some ("doc_" +:+ Py.str_of_int (id document))), w1) ->
        embedding_service.get_embeddings svc [query_text] = e :: es ->
        vector_db_service.query_collection svc
          (Some ("doc_" +:+ Py.str_of_int (id document))) (e :: es) 10 w1
        = (Ret candidates, w1) ->
        (candidates = [] ->
         r = Exc (HTTPException 404
                    "No relevant chunks found for this query in the document.")
         /\ llm_requests w' = llm_requests w)
        /\ (candidates <> [] ->
            reranker_service.rerank svc query_text candidates 5 = [] ->
            r = Exc (HTTPException 404 "No relevant chunks found after re-ranking.")
            /\ llm_requests w' = llm_requests w)).
Proof.
  intros Hrun. split; [|split].
  - destruct (db_documents w !! document_id) as [document|] eqn:Hdoc.
    2:{ left. unfold query_document in Hrun. unfold bind at 1 in Hrun.
        unfold get_world in Hrun. rewrite Hdoc in Hrun. inversion Hrun; reflexivity. }
    destruct (owner_id document =? current_user) eqn:Howner.
    2:{ left. unfold query_document in Hrun. unfold bind at 1 in Hrun.
        unfold get_world in Hrun. rewrite Hdoc, Howner in Hrun.
        inversion Hrun; reflexivity. }
    destruct (processing_status document) eqn:Hstatus.
    1-2,4: left; unfold query_document in Hrun; unfold bind at 1 in Hrun;
      unfold get_world in Hrun; rewrite Hdoc, Howner, Hstatus in Hrun;
      inversion Hrun; reflexivity.
    apply Z.eqb_eq in Howner.
    rewrite (query_document_completed _ _ _ _ _ Hdoc Howner Hstatus) in Hrun.
    destruct (get_or_create_collection_returns svc
                ("doc_" +:+ Py.str_of_int (id document)) w)
      as (c & w1 & Hc & Hname & _).
    pose proof (get_or_create_collection_unchanged svc llm_requests _
                  (fun _ _ => eq_refl) _ _ _ Hc) as Ellm. unfold unchanged in Ellm.
    rewrite (bind_Ret _ _ _ _ _ Hc) in Hrun.
    destruct Hname as [->| ->]; [left; inversion Hrun; subst; exact Ellm|].
    destruct (embedding_service.get_embeddings svc [query_text]) as [|e es] eqn:Hemb;
      [left; inversion Hrun; subst; exact Ellm|].
    destruct (query_collection_returns svc
                (Some ("doc_" +:+ Py.str_of_int (id document))) (e :: es) 10 w1)
      as [candidates Hq].
    rewrite (bind_Ret _ _ _ _ _ Hq) in Hrun.
    destruct candidates as [|c0 candidates];
      [left; inversion Hrun; subst; exact Ellm|].
    destruct (reranker_service.rerank svc query_text (c0 :: candidates) 5)
      as [|r0 reranked] eqn:Hrank;
      [left; inversion Hrun; subst; exact Ellm|].
    right. exists document, w1, (c0 :: candidates).
    split; [reflexivity|]. split; [exact Hstatus|]. split; [exact Hq|].
    split; [discriminate|]. split; [rewrite Hrank; discriminate|].
    rewrite Hrank.
    match type of Hrun with
    | bind (llm_service.generate_text svc ?p ?c) _ w1 = _ =>
        destruct (generate_text_posts svc p c w1) as [g Hg];
        rewrite (bind_Ret _ _ _ _ _ Hg) in Hrun
    end.
    rewrite <- Ellm.
    destruct g as [answer|]; [destruct (Py.truthy answer)|];
      inversion Hrun; subst; reflexivity.
  - intros document Hdoc Howner Hstatus.
    unfold query_document in Hrun. unfold bind at 1 in Hrun.
    unfold get_world in Hrun. rewrite Hdoc in Hrun.
    apply Z.eqb_eq in Howner. rewrite Howner in Hrun. cbn [negb] in Hrun.
    destruct (processing_status document); try congruence;
      inversion Hrun; subst; split; reflexivity.
  - intros document w1 e es candidates Hdoc Howner Hstatus Hc Hemb Hq.
    rewrite (query_document_completed _ _ _ _ _ Hdoc Howner Hstatus) in Hrun.
    pose proof (get_or_create_collection_unchanged svc llm_requests _
                  (fun _ _ => eq_refl) _ _ _ Hc) as Ellm. unfold unchanged in Ellm.
    rewrite (bind_Ret _ _ _ _ _ Hc), Hemb in Hrun.
    rewrite (bind_Ret _ _ _ _ _ Hq) in Hrun.
    split.
    + intros ->. inversion Hrun; subst. split; [reflexivity | exact Ellm].
    + intros Hne Hrank. destruct candidates as [|c0 candidates]; [congruence|].
      rewrite Hrank in Hrun. inversion Hrun; subst. split; [reflexivity | exact Ellm].
Qed.

(** C10. [query_collection] gives the empty list without a collection
    handle, when the vector index raises, and when the index has no
    match; and [query_document] answers the last two alike, with 404 and
    the same message. *)
Theorem query_collection_failure_looks_empty :
  (forall query_embeddings n_results w,
      vector_db_service.query_collection svc None query_embeddings n_results w
      = (Ret [], w))
  /\ (forall name query_embeddings n_results w stored e,
        chroma w !! name = Some stored ->
        chroma_query svc stored query_embeddings n_results = Raises e ->
        vector_db_service.query_collection svc (Some name) query_embeddings
          n_results w = (Ret [], w))
  /\ (forall name query_embeddings n_results w stored results rest,
        chroma w !! name = Some stored ->
        chroma_query svc stored query_embeddings n_results = Ok results ->
        documents results = [] :: rest ->
        vector_db_service.query_collection svc (Some name) query_embeddings
          n_results w = (Ret [], w))
  /\ (forall document_id query_text current_user w document stored,
        db_documents w !! document_id = Some document ->
        owner_id document = current_user ->
        processing_status document = COMPLETED ->
        chroma_client svc = true ->
        chroma_get_or_create_fails svc ("doc_" +:+ Py.str_of_int (id document))
        = false ->
        chroma w !! ("doc_" +:+ Py.str_of_int (id document)) = Some stored ->
        embedding_service.get_embeddings svc [query_text] <> [] ->
        ((exists e,
             chroma_query svc stored
               (embedding_service.get_embeddings svc [query_text]) 10 = Raises e)
         \/ (exists results rest,
               chroma_query svc stored
                 (embedding_service.get_embeddings svc [query_text]) 10 = Ok results
               /\ documents results = [] :: rest)) ->
        query_document svc document_id query_text current_user w
        = (Exc (HTTPException 404
                  "No relevant chunks found for this query in the document."), w)).
Proof.
  destruct (query_collection_empty_cases svc) as (Hnone & Hraise & Hempty).
  split; [exact Hnone|]. split; [exact Hraise|]. split; [exact Hempty|].
  intros document_id query_text current_user w document stored Hdoc Howner Hstatus
    Hclient Hcreate Hstored Hemb Hcause.
  rewrite (query_document_completed _ _ _ _ _ Hdoc Howner Hstatus).
  assert (Hc : vector_db_service.get_or_create_collection svc
                 ("doc_" +:+ Py.str_of_int (id document)) w
               = (Ret (Some ("doc_" +:+ Py.str_of_int (id document))), w)).
  { unfold vector_db_service.get_or_create_collection.
    rewrite Hclient, Hcreate, Hstored. reflexivity. }
  rewrite (bind_Ret _ _ _ _ _ Hc).
  destruct (embedding_service.get_embeddings svc [query_text]) as [|e es] eqn:E;
    [congruence|].
  assert (Hq : vector_db_service.query_collection svc
                 (Some ("doc_" +:+ Py.str_of_int (id document))) (e :: es) 10 w
               = (Ret [], w)).
  { destruct Hcause as [(e' & Hr)|(results & rest & Hr & Hd)].
    - exact (Hraise _ _ _ _ _ _ Hstored Hr).
    - exact (Hempty _ _ _ _ _ _ _ Hstored Hr Hd). }
  rewrite (bind_Ret _ _ _ _ _ Hq). reflexivity.
Qed.

(** The deletion of a document that succeeds. *)
Lemma delete_document_returns document_id current_user w w' :
  delete_document svc document_id current_user w = (Ret tt, w') ->
  exists document w1 w2 s3_deleted chroma_deleted,
    db_documents w !! document_id = Some document
    /\ s3_service.delete_file svc
         (Py.last_item (Py.split ".com/" (file_path document))) w
       = (Ret s3_deleted, w1)
    /\ vector_db_service.delete_collection svc
         ("doc_" +:+ Py.str_of_int (id document)) w1
       = (Ret chroma_deleted, w2)
    /\ w' = set_db_documents (delete document_id) w2.
Proof.
  unfold delete_document. unfold bind at 1. unfold get_world.
  destruct (db_documents w !! document_id) as [document|]; [|discriminate].
  destruct (negb _); [discriminate|].
  unfold try_except.
  match goal with
  | |- context [bind (s3_service.delete_file svc ?n) ?k w] =>
      destruct (bind (s3_service.delete_file svc n) k w) as [[[]|e|] w0] eqn:Hbody
  end; [|discriminate|discriminate].
  intros H. inversion H; subst w0.
  destruct (bind_Ret_inv _ _ _ _ _ Hbody) as (b & w1 & Ha & Hbody').
  destruct (bind_Ret_inv _ _ _ _ _ Hbody') as (b' & w2 & Hb & Hc).
  unfold crud_document.delete_document in Hc.
  destruct (db_delete_fails svc document_id); [discriminate|].
  inversion Hc; subst.
  exists document, w1, w2, b, b'. repeat split; assumption.
Qed.

(** C9 (amended). When the delete operation succeeds the record of the
    document is gone, and the deletion of its stored object and of its
    vector collection has each been attempted once before: the object is
    gone unless the object store refused the deletion, the collection is
    gone unless there is no vector client or it refused the deletion; a
    refusal leaves the object, or the collection, behind. *)
Theorem delete_document_best_effort document_id current_user w w' :
  delete_document svc document_id current_user w = (Ret tt, w') ->
  exists document,
    db_documents w !! document_id = Some document
    /\ db_documents w' !! document_id = None
    /\ let object_name := Py.last_item (Py.split ".com/" (file_path document)) in
       let collection_name := "doc_" +:+ Py.str_of_int (id document) in
       (s3_delete_fails svc object_name = false ->
        s3_objects w' !! object_name = None)
       /\ (s3_delete_fails svc object_name = true -> s3_objects w' = s3_objects w)
       /\ (chroma_client svc = true ->
           chroma_delete_fails svc collection_name = false ->
           chroma w' !! collection_name = None)
       /\ (chroma_client svc = false \/ chroma_delete_fails svc collection_name = true ->
           chroma w' = chroma w).
Proof.
  intros Hrun.
  destruct (delete_document_returns _ _ _ _ Hrun)
    as (document & w1 & w2 & b & b' & Hdoc & Ha & Hb & ->).
  exists document. split; [exact Hdoc|]. split; [cbn; apply lookup_delete_eq|].
  cbv zeta.
  pose proof (delete_collection_unchanged svc s3_objects _ (fun _ _ => eq_refl)
                _ _ _ Hb) as Es3.
  pose proof (delete_file_unchanged svc chroma _ (fun _ _ => eq_refl) _ _ _ Ha)
    as Echroma.
  unfold unchanged in *.
  cbn [s3_objects chroma set_db_documents].
  unfold s3_service.delete_file in Ha.
  unfold vector_db_service.delete_collection in Hb.
  repeat split.
  - intros Hok. rewrite Hok in Ha. inversion Ha; subst.
    rewrite Es3. cbn. apply lookup_delete_eq.
  - intros Hfail. rewrite Hfail in Ha. inversion Ha; subst. exact Es3.
  - intros Hclient Hok. rewrite Hclient, Hok in Hb. cbn [negb] in Hb.
    destruct (chroma w1 !! _) eqn:E; inversion Hb; subst.
    + cbn. apply lookup_delete_eq.
    + exact E.
  - intros [Hclient|Hfail].
    + rewrite Hclient in Hb. inversion Hb; subst. exact Echroma.
    + rewrite Hfail in Hb. destruct (negb (chroma_client svc)); inversion Hb; subst;
        exact Echroma.
Qed.

End query_properties.

Lemma query_document_generation_guard_witness :
  let svc := demo.services (demo.answers "It is short.") in
  let run := endpoints.query_document svc 1 "How long?" 7 demo.indexed in
  fst run = Ret {| endpoints.llm_answer := "It is short.";
                   endpoints.retrieved_chunks :=
                     [reranker_service.with_score
                        (demo.candidate 1 "It has an end.") (inject_Z 14);
                      reranker_service.with_score
                        (demo.candidate 0 "A short book.") (inject_Z 13)] |}
  /\ (llm_requests (snd run) = llm_requests demo.indexed
      \/ exists document w1 candidates,
           db_documents demo.indexed !! 1 = Some document
           /\ models.processing_status document = models.COMPLETED
           /\ vector_db_service.query_collection svc
                (Some ("doc_" +:+ Py.str_of_int (models.id document)))
                (embedding_service.get_embeddings svc ["How long?"%string]) 10 w1
              = (Ret candidates, w1)
           /\ candidates <> []
           /\ reranker_service.rerank svc "How long?" candidates 5 <> []
           /\ llm_requests (snd run)
              = llm_requests demo.indexed
                  ++ [(endpoints.rag_prompt
                         (Py.join (Py.nl +:+ Py.nl)
                            (map cand_document
                               (reranker_service.rerank svc "How long?" candidates 5)))
                         "How long?", 1000)]).
Proof.
  intros svc run. split; [vm_compute; reflexivity|].
  exact (proj1 (query_document_generation_guard svc 1 "How long?" 7 demo.indexed
                  (fst run) (snd run) (surjective_pairing run))).
Defined.

Lemma query_collection_failure_looks_empty_witness :
  endpoints.query_document (demo.services_index_down (demo.answers "It is short.")) 1
    "How long?" 7 demo.indexed
  = (Exc (HTTPException 404
            "No relevant chunks found for this query in the document."),
     demo.indexed).
Proof.
  apply (proj2 (proj2 (proj2 (query_collection_failure_looks_empty
                                (demo.services_index_down
                                   (demo.answers "It is short.")))))
           1 "How long?"%string 7 demo.indexed (demo.book models.COMPLETED)
           [demo.passage 0 "A short book."; demo.passage 1 "It has an end."]);
    try (vm_compute; reflexivity).
  - vm_compute. discriminate.
  - left. exists (LibraryError "index unavailable"). vm_compute. reflexivity.
Defined.

Lemma delete_document_best_effort_witness :
  let svc := demo.services (demo.answers "It is short.") in
  let w' := snd (endpoints.delete_document svc 1 7 demo.indexed) in
  db_documents w' !! 1 = None
  /\ s3_objects w' !! "raw_pdfs/1_Book.pdf"%string = None
  /\ chroma w' !! "doc_1"%string = None.
Proof.
  intros svc w'.
  destruct (delete_document_best_effort svc 1 7 demo.indexed w')
    as (document & Hdoc & Hgone & Hs3 & _ & Hchroma & _).
  - vm_compute. reflexivity.
  - assert (document = demo.book models.COMPLETED) as ->
      by (vm_compute in Hdoc; inversion Hdoc; reflexivity).
    split; [exact Hgone|]. split.
    + apply Hs3. reflexivity.
    + apply Hchroma; reflexivity.
Defined.

(** C9, as stated, fails: here the object store refuses the deletion and
    there is no vector client; the delete operation succeeds all the same
    and removes the record, and the stored object and the collection
    [doc_1] remain. *)
Lemma delete_document_leaves_orphans :
  let svc := demo.services_storage_down (demo.answers "It is short.") in
  let run := endpoints.delete_document svc 1 7 demo.indexed in
  fst run = Ret tt
  /\ db_documents (snd run) !! 1 = None
  /\ s3_objects (snd run) !! "raw_pdfs/1_Book.pdf"%string = Some demo.pdf
  /\ (length <$> chroma (snd run) !! "doc_1"%string) = Some 2%nat.
Proof. vm_compute. repeat split; reflexivity. Qed.

(** * More properties *)

(** ** Strings and [split] *)

Section split_properties.

Import Py PyStr.

Lemma app_cons c a b : String c a +:+ b = String c (a +:+ b).
Proof. reflexivity. Qed.

Lemma app_nil_l b : EmptyString +:+ b = b.
Proof. reflexivity. Qed.

Lemma string_app_nil_r a : a +:+ EmptyString = a.
Proof. induction a as [|c a IH]; [reflexivity|]. rewrite app_cons, IH. reflexivity. Qed.

Lemma string_app_assoc a b c : (a +:+ b) +:+ c = a +:+ b +:+ c.
Proof.
  induction a as [|x a IH]; [reflexivity|]. rewrite !app_cons, IH. reflexivity.
Qed.

Lemma string_length_app a b :
  String.length (a +:+ b) = (String.length a + String.length b)%nat.
Proof.
  induction a as [|x a IH]; [reflexivity|]. rewrite app_cons. simpl. rewrite IH.
  reflexivity.
Qed.

Lemma rev_string_acc acc s : rev_string acc s = rev_string EmptyString s +:+ acc.
Proof.
  revert acc. induction s as [|c s IH]; intros acc; [reflexivity|].
  simpl. rewrite (IH (String c acc)), (IH (String c EmptyString)).
  rewrite string_app_assoc. reflexivity.
Qed.

Lemma rev_string_cons c cur s :
  rev_string EmptyString (String c cur) +:+ s
  = rev_string EmptyString cur +:+ String c s.
Proof.
  cbn [rev_string]. rewrite (rev_string_acc (String c EmptyString)), string_app_assoc.
  reflexivity.
Qed.

Lemma startswith_refl sep b : startswith sep (sep +:+ b) = true.
Proof.
  induction sep as [|c sep IH]; [destruct b; reflexivity|].
  rewrite app_cons. simpl. rewrite Ascii.eqb_refl. exact IH.
Qed.

Lemma startswith_self x : startswith x x = true.
Proof.
  induction x as [|c x IH]; [reflexivity|]. simpl. rewrite Ascii.eqb_refl. exact IH.
Qed.

Lemma startswith_length sep a :
  startswith sep a = true -> (String.length sep <= String.length a)%nat.
Proof.
  revert a. induction sep as [|c sep IH]; intros a H; simpl; [lia|].
  destruct a as [|d a]; [discriminate|]. simpl in *.
  destruct (Ascii.eqb c d); [|discriminate]. specialize (IH _ H). lia.
Qed.

(** A match of [sep] at the start of [a +:+ y] lies within [a], or [a]
    is an initial part of [sep] and the rest of [sep] starts [y]. *)
Lemma startswith_app_inv sep a y :
  startswith sep (a +:+ y) = true ->
  startswith sep a = true
  \/ exists t, sep = a +:+ t /\ startswith t y = true.
Proof.
  revert sep. induction a as [|c a IH]; intros sep H.
  - right. exists sep. split; [reflexivity | exact H].
  - destruct sep as [|d sep]; [left; reflexivity|].
    rewrite app_cons in H. simpl in H. simpl.
    destruct (Ascii.eqb d c) eqn:E; [|discriminate].
    apply Ascii.eqb_eq in E. subst d.
    destruct (IH _ H) as [Hl|(t & -> & Ht)]; [left; exact Hl|].
    right. exists t. split; [reflexivity | exact Ht].
Qed.

Lemma startswith_shorter t u b :
  startswith t (u +:+ b) = true ->
  (String.length t <= String.length u)%nat ->
  startswith t u = true.
Proof.
  revert u. induction t as [|c t IH]; intros u H Hlen; [destruct u; reflexivity|].
  destruct u as [|d u]; [simpl in Hlen; lia|].
  rewrite app_cons in H. simpl in *.
  destruct (Ascii.eqb c d); [|discriminate]. apply IH; [exact H | lia].
Qed.

Lemma no_border_suffix sep x t :
  no_border sep (x +:+ t) = true -> t <> EmptyString -> startswith t sep = false.
Proof.
  induction x as [|c x IH]; intros H Ht.
  - rewrite app_nil_l in H. destruct t as [|c t]; [congruence|].
    simpl in H. apply andb_true_iff in H. destruct H as [H _].
    apply negb_true_iff in H. exact H.
  - rewrite app_cons in H. simpl in H. apply andb_true_iff in H.
    destruct H as [_ H]. exact (IH H Ht).
Qed.

(** With a separator that cannot overlap itself, a match that starts
    inside a non-empty [a] in [a +:+ sep +:+ b] lies wholly inside [a]. *)
Lemma startswith_before_sep sep a b :
  border_free sep = true -> a <> EmptyString ->
  startswith sep (a +:+ sep +:+ b) = true ->
  startswith sep a = true.
Proof.
  intros Hfree Ha H.
  destruct (startswith_app_inv _ _ _ H) as [Hl|(t & Hsep & Ht)]; [exact Hl|].
  destruct t as [|c t].
  - rewrite string_app_nil_r in Hsep. subst sep. apply startswith_self.
  - exfalso. destruct a as [|c0 a]; [congruence|]. subst sep.
    assert (Hshort :
      startswith (String c t) (String c0 a +:+ String c t) = true).
    { apply (startswith_shorter _ _ b Ht). rewrite string_length_app. lia. }
    change (no_border (String c0 a +:+ String c t) (a +:+ String c t) = true)
      in Hfree.
    rewrite (no_border_suffix _ a (String c t) Hfree ltac:(discriminate)) in Hshort.
    discriminate.
Qed.

Lemma split_go_not_nil sep s : forall k cur, split_go sep k cur s <> [].
Proof.
  induction s as [|c s IH]; intros k cur.
  - destruct k; discriminate.
  - destruct k as [|k]; simpl.
    + destruct (startswith sep (String c s)); [discriminate | apply IH].
    + apply IH.
Qed.

Lemma split_go_skip sep x s cur :
  split_go sep (String.length x) cur (x +:+ s) = split_go sep 0 cur s.
Proof.
  induction x as [|c x IH]; [reflexivity|]. rewrite app_cons. simpl. exact IH.
Qed.

(** Without an occurrence of [sep] there is one segment, the whole text. *)
Lemma split_go_absent sep s :
  has_sub sep s = false ->
  forall cur, split_go sep 0 cur s = [rev_string EmptyString cur +:+ s].
Proof.
  induction s as [|c s IH]; intros H cur.
  - simpl. rewrite string_app_nil_r. reflexivity.
  - simpl in H. apply orb_false_iff in H. destruct H as [H1 H2].
    cbn [split_go]. rewrite H1, (IH H2), rev_string_cons. reflexivity.
Qed.

(** The segment before the first occurrence. *)
Lemma split_go_first sep a b :
  border_free sep = true -> has_sub sep a = false ->
  forall cur,
    split_go sep 0 cur (a +:+ sep +:+ b)
    = (rev_string EmptyString cur +:+ a) :: split_go sep 0 EmptyString b.
Proof.
  intros Hfree. induction a as [|c a IH]; intros Ha cur.
  - rewrite app_nil_l, string_app_nil_r.
    destruct sep as [|d sep]; [discriminate|].
    rewrite app_cons. cbn [split_go].
    replace (startswith (String d sep) (String d (sep +:+ b))) with true
      by (symmetry; apply (startswith_refl (String d sep) b)).
    replace (String.length (String d sep) - 1)%nat with (String.length sep)
      by (simpl; lia).
    rewrite split_go_skip. reflexivity.
  - simpl in Ha. apply orb_false_iff in Ha. destruct Ha as [H1 H2].
    rewrite app_cons. cbn [split_go]. rewrite <- app_cons.
    destruct (startswith sep (String c a +:+ sep +:+ b)) eqn:E.
    + rewrite (startswith_before_sep sep (String c a) b Hfree
                 ltac:(discriminate) E) in H1.
      discriminate.
    + rewrite (IH H2), rev_string_cons. reflexivity.
Qed.

(** The segment after the last occurrence. *)
Lemma split_go_last sep n :
  border_free sep = true -> has_sub sep n = false ->
  forall p k cur,
    (k <= String.length p)%nat ->
    List.last (split_go sep k cur (p +:+ sep +:+ n)) EmptyString = n.
Proof.
  intros Hfree Hn. induction p as [|c p IH]; intros k cur Hk.
  - simpl in Hk. assert (k = 0%nat) as -> by lia.
    rewrite (split_go_first sep EmptyString n Hfree eq_refl cur).
    rewrite (split_go_absent _ _ Hn). reflexivity.
  - rewrite app_cons. destruct k as [|k].
    + cbn [split_go]. rewrite <- app_cons.
      destruct (startswith sep (String c p +:+ sep +:+ n)) eqn:E.
      * pose proof (startswith_before_sep sep (String c p) n Hfree
                      ltac:(discriminate) E) as Hin.
        apply startswith_length in Hin. simpl in Hin.
        pose proof (split_go_not_nil sep (p +:+ sep +:+ n)
                      (String.length sep - 1) EmptyString) as Hne.
        destruct (split_go sep (String.length sep - 1) EmptyString (p +:+ sep +:+ n))
          as [|x l] eqn:El; [congruence|].
        change (List.last (x :: l) EmptyString = n). rewrite <- El.
        apply IH. lia.
      * apply IH. lia.
    + cbn [split_go]. apply IH. simpl in Hk. lia.
Qed.

End split_properties.

(** The segment after the last separator, whatever comes before it. *)
Lemma last_segment_after (sep before key : string) :
  PyStr.border_free sep = true -> PyStr.has_sub sep key = false ->
  Py.last_item (Py.split sep (before +:+ sep +:+ key)) = key.
Proof.
  intros Hfree Hkey. unfold Py.last_item, Py.split.
  apply (split_go_last sep key Hfree Hkey). lia.
Qed.

(** The locator ends with [".com/"] and the key. *)
Lemma s3_url_shape (env : UploadEnv) (object_name : string) :
  s3_upload.s3_url env object_name
  = ("https://" +:+ bucket_name env +:+ ".s3." +:+ region_name env +:+ ".amazonaws")
    +:+ ".com/" +:+ object_name.
Proof.
  unfold s3_upload.s3_url.
  change (".amazonaws.com/" +:+ object_name)
    with (".amazonaws" +:+ ".com/" +:+ object_name).
  rewrite !string_app_assoc. reflexivity.
Qed.

(** X1. The object key that [delete_document] derives from the locator
    is the key [upload_file] built the locator from, for every key
    without [".com/"] in it. *)
Theorem locator_key_round_trip (env : UploadEnv) (object_name : string) :
  PyStr.has_sub ".com/" object_name = false ->
  Py.last_item (Py.split ".com/" (s3_upload.s3_url env object_name)) = object_name.
Proof.
  intros Hkey. rewrite s3_url_shape.
  apply last_segment_after; [reflexivity | exact Hkey].
Qed.

Lemma locator_key_round_trip_witness :
  Py.last_item
    (Py.split ".com/"
       (s3_upload.s3_url demo_upload.env
          "raw_pdfs/20240101120000000000_Second_Book.PDF"))
  = "raw_pdfs/20240101120000000000_Second_Book.PDF"%string.
Proof.
  apply (locator_key_round_trip demo_upload.env). vm_compute. reflexivity.
Defined.

(** ** More on the generation client and the summarizer *)

Section more_llm_properties.

Import llm_service.

Variable svc : Services.


(** X3. A generated text without the marker ["[/INST]"] is returned as it
    is.  When the text echoes a prompt up to the marker, what is returned
    is the text after the first marker, up to the next marker if the
    answer has one. *)
Theorem generate_text_strips_echo prompt max_tokens w generated others :
  llm_post svc (length (llm_requests w)) prompt max_tokens
  = Json (Some (generated :: others)) ->
  (PyStr.has_sub "[/INST]" generated = false ->
   fst (generate_text svc prompt max_tokens w) = Ret (Some generated))
  /\ (forall echo answer,
        generated = echo +:+ "[/INST]" +:+ answer ->
        PyStr.has_sub "[/INST]" echo = false ->
        exists segment rest,
          Py.split "[/INST]" answer = segment :: rest
          /\ fst (generate_text svc prompt max_tokens w) = Ret (Some segment)
          /\ (PyStr.has_sub "[/INST]" answer = false -> segment = answer)).
Proof.
  intros Hreply. unfold generate_text. rewrite Hreply. split.
  - intros Hno. unfold Py.split. rewrite (split_go_absent _ _ Hno). reflexivity.
  - intros echo answer -> Hecho. unfold Py.split.
    rewrite (split_go_first "[/INST]" echo answer eq_refl Hecho).
    pose proof (split_go_not_nil "[/INST]" answer 0 EmptyString) as Hne.
    destruct (Py.split_go "[/INST]" 0 EmptyString answer) as [|segment rest] eqn:E;
      [congruence|].
    exists segment, rest. split; [reflexivity|]. split; [reflexivity|].
    intros Hno. rewrite (split_go_absent _ _ Hno) in E. inversion E; subst.
    reflexivity.
Qed.

(** X4. The loop over the chunks posts one request for each chunk whose
    prompt is within [max_input_tokens], in the order of the chunks, each
    with the same output cap, and none for the others. *)
Theorem summarize_chunks_requests max_input_tokens cap chunks :
  forall i summaries w l w',
    summarize_chunks svc max_input_tokens cap i chunks summaries w = (Ret l, w') ->
    llm_requests w'
    = llm_requests w
        ++ map (fun prompt => (prompt, cap))
             (filter (fun prompt => count_tokens svc prompt <= max_input_tokens)
                (imap (fun j chunk => chunk_summary_prompt (i + Z.of_nat j + 1) chunk)
                   chunks)).
Proof.
  induction chunks as [|chunk rest IH]; intros i summaries w l w' H;
    cbn [summarize_chunks] in H.
  - inversion H; subst. cbn. rewrite app_nil_r. reflexivity.
  - cbn [imap]. rewrite filter_cons.
    replace (i + Z.of_nat 0 + 1) with (i + 1) by lia.
    assert (Hshift :
      imap ((fun j chunk => chunk_summary_prompt (i + Z.of_nat j + 1) chunk) ∘ S) rest
      = imap (fun j chunk => chunk_summary_prompt (i + 1 + Z.of_nat j + 1) chunk) rest).
    { apply imap_ext. intros j c _. cbn. f_equal. lia. }
    rewrite Hshift.
    destruct (count_tokens svc (chunk_summary_prompt (i + 1) chunk) >? max_input_tokens)
      eqn:Hskip.
    + rewrite decide_False by lia. exact (IH _ _ _ _ _ H).
    + rewrite decide_True by lia.
      destruct (generate_text_posts svc (chunk_summary_prompt (i + 1) chunk) cap w)
        as [r Hr].
      rewrite (bind_Ret _ _ _ _ _ Hr) in H.
      rewrite (IH _ _ _ _ _ H). cbn. rewrite <- app_assoc. reflexivity.
Qed.

(** X5. When the reduce request yields no text, [generate_summary] does
    not return: it raises [AttributeError], after the request. *)
Theorem generate_summary_reduce_failure fuel text_content max_input_tokens
  words_per_chunk_summary w chunks summaries w1 w2 :
  let limit := effective_content_limit_for_splitting svc max_input_tokens in
  let combined := Py.join (Py.nl +:+ Py.nl) summaries in
  limit < count_tokens svc text_content ->
  split_text svc (Z.quot (8 * limit) 10) (Z.quot (Z.quot (8 * limit) 10) 10)
    (count_tokens svc) text_content = Ok chunks ->
  summarize_chunks svc max_input_tokens (Z.quot (13 * words_per_chunk_summary) 10)
    0 chunks [] w = (Ret summaries, w1) ->
  summaries <> [] ->
  count_tokens svc combined <= limit ->
  generate_text svc (final_reduce_prompt combined)
    (Z.min (Z.quot (13 * (Z.of_nat (length chunks) * words_per_chunk_summary)) 10)
       3000) w1 = (Ret None, w2) ->
  generate_summary svc (S fuel) text_content max_input_tokens
    words_per_chunk_summary w
  = (Exc (AttributeError "'NoneType' object has no attribute 'rsplit'"), w2).
Proof.
  intros limit combined Hover Hsplit Hloop Hne Hfit Hreduce.
  cbn [generate_summary].
  pose proof (generate_summary_pass_chunked svc _ _ _ _ _ _ _ Hover Hsplit Hloop)
    as Hpass.
  destruct summaries as [|s0 rest]; [congruence|].
  cbv zeta in Hpass. fold combined limit in Hpass.
  assert (Hle : (count_tokens svc combined >? limit) = false) by lia.
  rewrite Hle in Hpass. rewrite (bind_Ret _ _ _ _ _ Hreduce) in Hpass.
  unfold bind at 1. rewrite Hpass. reflexivity.
Qed.

End more_llm_properties.


Lemma generate_text_strips_echo_witness :
  fst (llm_service.generate_text
         (demo.services (demo.answers "Question [/INST] The answer."))
         "Question" 1000 demo.blank)
  = Ret (Some " The answer."%string).
Proof.
  destruct (proj2 (generate_text_strips_echo
                     (demo.services (demo.answers "Question [/INST] The answer."))
                     "Question" 1000 demo.blank
                     "Question [/INST] The answer." [] eq_refl)
              "Question "%string " The answer."%string eq_refl eq_refl)
    as (segment & rest & _ & Hr & Hseg).
  rewrite Hr, (Hseg eq_refl). reflexivity.
Defined.

Lemma summarize_chunks_requests_witness :
  let svc := demo.services (demo.answers demo.twenty) in
  let chunks :=
    ["Twenty characters ok" +:+ Py.nl +:+ Py.nl +:+ "Twen"; "ty characters ok"] in
  map snd
    (llm_requests (snd (llm_service.summarize_chunks svc 700 130 0 chunks []
                          demo.blank)))
  = [130; 130].
Proof.
  intros svc chunks.
  rewrite (summarize_chunks_requests svc 700 130 chunks 0 [] demo.blank
             [demo.twenty; demo.twenty]
             (snd (llm_service.summarize_chunks svc 700 130 0 chunks [] demo.blank))).
  - vm_compute. reflexivity.
  - vm_compute. reflexivity.
Defined.

Lemma generate_summary_reduce_failure_witness :
  let svc :=
    demo.services
      (demo.replies [demo.says "One part."; demo.says "Next part."] RequestError) in
  fst (llm_service.generate_summary svc 1 demo.forty_two 700 100 demo.blank)
  = Exc (AttributeError "'NoneType' object has no attribute 'rsplit'").
Proof.
  intros svc.
  rewrite (generate_summary_reduce_failure svc 0 demo.forty_two 700 100 demo.blank
             ["Twenty characters ok" +:+ Py.nl +:+ Py.nl +:+ "Twen"; "ty characters ok"]
             ["One part."; "Next part."]%string
             (snd (llm_service.summarize_chunks svc 700 130 0
                     ["Twenty characters ok" +:+ Py.nl +:+ Py.nl +:+ "Twen";
                      "ty characters ok"] [] demo.blank))
             (snd (llm_service.generate_summary svc 1 demo.forty_two 700 100
                     demo.blank))).
  - reflexivity.
  - vm_compute. reflexivity.
  - vm_compute. reflexivity.
  - vm_compute. reflexivity.
  - discriminate.
  - vm_compute. discriminate.
  - vm_compute. reflexivity.
Defined.

(** ** More on the vector store gateway *)

Section more_gateway_properties.

Import vector_db_service.

Variable svc : Services.

Lemma make_chunks_aligned ids : forall texts embeddings metadatas,
  length ids = length texts -> length texts = length embeddings ->
  map chunk_id (make_chunks ids texts embeddings metadatas) = ids
  /\ map chunk_document (make_chunks ids texts embeddings metadatas) = texts
  /\ map chunk_embedding (make_chunks ids texts embeddings metadatas) = embeddings.
Proof.
  induction ids as [|i ids IH]; intros [|t texts] [|e embeddings] metadatas H1 H2;
    try discriminate; [repeat split; reflexivity|].
  cbn [make_chunks map chunk_id chunk_document chunk_embedding].
  destruct (IH texts embeddings (tail metadatas)) as (Ha & Hb & Hc);
    [simpl in H1; lia | simpl in H2; lia|].
  rewrite Ha, Hb, Hc. repeat split; reflexivity.
Qed.

Lemma new_records_elem stored records c :
  c ∈ new_records stored records
  <-> c ∈ records /\ holds stored (chunk_id c) = false.
Proof.
  unfold new_records. rewrite !list_elem_of_In, filter_In, negb_true_iff.
  reflexivity.
Qed.

Lemma new_records_fresh stored records :
  (forall i, i ∈ map chunk_id records -> holds stored i = false) ->
  new_records stored records = records.
Proof.
  induction records as [|c records IH]; intros H; [reflexivity|].
  cbn [new_records List.filter]. fold (new_records stored records).
  rewrite (H (chunk_id c)) by (cbn; apply elem_of_cons; left; reflexivity).
  cbn [negb]. rewrite IH; [reflexivity|].
  intros i Hi. apply H. cbn. apply elem_of_cons. right. exact Hi.
Qed.

Lemma new_records_stale stored records :
  (forall i, i ∈ map chunk_id records -> holds stored i = true) ->
  new_records stored records = [].
Proof.
  induction records as [|c records IH]; intros H; [reflexivity|].
  cbn [new_records List.filter]. fold (new_records stored records).
  rewrite (H (chunk_id c)) by (cbn; apply elem_of_cons; left; reflexivity).
  cbn [negb]. apply IH.
  intros i Hi. apply H. cbn. apply elem_of_cons. right. exact Hi.
Qed.

(** X6. [add_chunks_to_collection] never raises.  Without a collection,
    with as many ids as texts missing, or with as many embeddings as texts
    missing, it writes nothing.  When the lengths agree and
    [collection.add] does not raise, the records formed from the ids,
    texts and embeddings, in the order given, are added after the ones
    the collection had -- except those whose id the collection already
    holds, which are left out: so all of them are added when no id is
    held, and none when every id is.  When [collection.add] raises nothing
    is written either. *)
Theorem add_chunks_to_collection_contract collection texts embeddings metadatas ids w :
  exists w',
    add_chunks_to_collection svc collection texts embeddings metadatas (Some ids) w
    = (Ret tt, w')
    /\ (collection = None \/ length ids <> length texts
        \/ length texts <> length embeddings -> w' = w)
    /\ (forall name stored,
          collection = Some name -> chroma w !! name = Some stored ->
          length ids = length texts -> length texts = length embeddings ->
          if chroma_add_fails svc name ids then w' = w
          else
            exists records added,
              map chunk_id records = ids
              /\ map chunk_document records = texts
              /\ map chunk_embedding records = embeddings
              /\ w' = set_chroma (insert name (stored ++ added)) w
              /\ added
                 = List.filter (fun c => negb (holds stored (chunk_id c))) records
              /\ ((forall i, i ∈ ids -> holds stored i = false) -> added = records)
              /\ ((forall i, i ∈ ids -> holds stored i = true) -> added = [])).
Proof.
  unfold add_chunks_to_collection.
  destruct collection as [name|].
  2:{ exists w. split; [reflexivity|]. split; [reflexivity|]. intros; discriminate. }
  cbv zeta.
  destruct (length ids =? length texts)%nat eqn:E1; cbn [negb].
  2:{ exists w. split; [reflexivity|]. split; [reflexivity|].
      intros n st _ _ H. apply Nat.eqb_neq in E1. congruence. }
  destruct (length texts =? length embeddings)%nat eqn:E2; cbn [negb].
  2:{ exists w. split; [reflexivity|]. split; [reflexivity|].
      intros n st _ _ _ H. apply Nat.eqb_neq in E2. congruence. }
  apply Nat.eqb_eq in E1, E2.
  destruct (chroma w !! name) as [stored|] eqn:Es.
  2:{ exists w. split; [reflexivity|]. split; [reflexivity|].
      intros n st Hn Hst. inversion Hn; subst. congruence. }
  destruct (chroma_add_fails svc name ids) eqn:Ef.
  - exists w. split; [reflexivity|]. split; [reflexivity|].
    intros n st Hn Hst _ _. inversion Hn; subst. rewrite Ef. reflexivity.
  - eexists. split; [reflexivity|]. split; [intros [H|[H|H]]; congruence|].
    intros n st Hn Hst _ _. inversion Hn; subst. rewrite Ef.
    assert (st = stored) by congruence. subst st.
    destruct (make_chunks_aligned ids texts embeddings (default [] metadatas) E1 E2)
      as (Ha & Hb & Hc).
    exists (make_chunks ids texts embeddings (default [] metadatas)),
      (new_records stored (make_chunks ids texts embeddings (default [] metadatas))).
    split; [exact Ha|]. split; [exact Hb|]. split; [exact Hc|].
    split; [reflexivity|]. split; [reflexivity|]. split.
    + intros Hfresh. apply new_records_fresh. rewrite Ha. exact Hfresh.
    + intros Hstale. apply new_records_stale. rewrite Ha. exact Hstale.
Qed.

(** X7. [get_or_create_collection] never raises, never drops or changes
    the records of a collection, and obtaining a collection a second time
    changes nothing; when no collection is obtained the world is as it
    was. *)
Theorem get_or_create_collection_keeps name w :
  exists c w',
    get_or_create_collection svc name w = (Ret c, w')
    /\ (forall other stored,
          chroma w !! other = Some stored -> chroma w' !! other = Some stored)
    /\ (c = None -> w' = w)
    /\ (forall handle, c = Some handle ->
          handle = name
          /\ is_Some (chroma w' !! name)
          /\ get_or_create_collection svc name w' = (Ret (Some name), w')).
Proof.
  unfold get_or_create_collection.
  destruct (chroma_client svc); cbn [negb].
  2:{ exists None, w. repeat split; try tauto; discriminate. }
  destruct (chroma_get_or_create_fails svc name).
  { exists None, w. repeat split; try tauto; discriminate. }
  destruct (chroma w !! name) as [stored|] eqn:E.
  - exists (Some name), w. split; [reflexivity|]. split; [tauto|].
    split; [discriminate|]. intros handle Hh. inversion Hh; subst.
    split; [reflexivity|]. split; [eauto|]. rewrite E. reflexivity.
  - eexists (Some name), _. split; [reflexivity|]. split.
    + intros other stored Ho. cbn. rewrite lookup_insert_ne; [exact Ho|].
      intros ->. congruence.
    + split; [discriminate|]. intros handle Hh. inversion Hh; subst.
      split; [reflexivity|]. cbn. rewrite lookup_insert_eq. split; [eauto|].
      reflexivity.
Qed.

(** X8. [delete_collection] never raises.  When it reports [True] the
    collection existed and is gone, and the others are untouched; when it
    reports [False] nothing has changed; and deleting the same collection
    again reports [False] and changes nothing. *)
Theorem delete_collection_outcome name w :
  exists b w',
    delete_collection svc name w = (Ret b, w')
    /\ (b = true ->
        is_Some (chroma w !! name)
        /\ w' = set_chroma (delete name) w
        /\ chroma w' !! name = None
        /\ forall other, other <> name -> chroma w' !! other = chroma w !! other)
    /\ (b = false -> w' = w)
    /\ (b = true -> delete_collection svc name w' = (Ret false, w')).
Proof.
  unfold delete_collection.
  destruct (chroma_client svc); cbn [negb].
  2:{ exists false, w. repeat split; try tauto; discriminate. }
  destruct (chroma_delete_fails svc name).
  { exists false, w. repeat split; try tauto; discriminate. }
  destruct (chroma w !! name) as [stored|] eqn:E.
  - eexists true, _. split; [reflexivity|]. split; [|split; [discriminate|]].
    + intros _. split; [eauto|]. split; [reflexivity|]. cbn.
      split; [apply lookup_delete_eq|]. intros other Hne.
      apply lookup_delete_ne. congruence.
    + intros _. cbn. rewrite lookup_delete_eq. reflexivity.
  - exists false, w. repeat split; try tauto; discriminate.
Qed.

Lemma format_results_positions ids0 documents0 distances0 metadatas0 indices out :
  format_results ids0 documents0 distances0 metadatas0 indices = Some out ->
  Forall2
    (fun i c =>
       ids0 !! i = Some (cand_id c) /\ documents0 !! i = Some (cand_document c)
       /\ distances0 !! i = Some (cand_distance c)
       /\ metadatas0 !! i = Some (cand_metadata c)
       /\ relevance_score c = None)
    indices out.
Proof.
  revert out. induction indices as [|i rest IH]; intros out H; simpl in H.
  - inversion H. constructor.
  - destruct (ids0 !! i) eqn:E1; [|discriminate].
    destruct (documents0 !! i) eqn:E2; [|discriminate].
    destruct (distances0 !! i) eqn:E3; [|discriminate].
    destruct (metadatas0 !! i) eqn:E4; [|discriminate].
    destruct (format_results ids0 documents0 distances0 metadatas0 rest) eqn:E;
      [|discriminate].
    specialize (IH _ eq_refl). inversion H; subst.
    constructor; [cbn; repeat split; assumption | exact IH].
Qed.

Lemma format_results_defined ids0 documents0 distances0 metadatas0 indices :
  Forall (fun i => is_Some (ids0 !! i) /\ is_Some (documents0 !! i)
                   /\ is_Some (distances0 !! i) /\ is_Some (metadatas0 !! i))
    indices ->
  is_Some (format_results ids0 documents0 distances0 metadatas0 indices).
Proof.
  induction 1 as [|i rest ([a Ha] & [b Hb] & [c Hc] & [d Hd]) _ [l IH]]; simpl;
    [eauto|].
  rewrite Ha, Hb, Hc, Hd, IH. eauto.
Qed.

Lemma format_results_undefined ids0 documents0 distances0 metadatas0 indices i :
  i ∈ indices ->
  ids0 !! i = None \/ distances0 !! i = None \/ metadatas0 !! i = None ->
  format_results ids0 documents0 distances0 metadatas0 indices = None.
Proof.
  induction indices as [|j rest IH]; intros Hi Hbad; [inversion Hi|].
  simpl. apply elem_of_cons in Hi.
  destruct (ids0 !! j) eqn:E1; [|reflexivity].
  destruct (documents0 !! j) eqn:E2; [|reflexivity].
  destruct (distances0 !! j) eqn:E3; [|reflexivity].
  destruct (metadatas0 !! j) eqn:E4; [|reflexivity].
  destruct Hi as [->|Hi]; [destruct Hbad as [H|[H|H]]; congruence|].
  rewrite (IH Hi Hbad). reflexivity.
Qed.

(** X9. When the index answers with at least as many ids, distances and
    metadata as documents for the first query, [query_collection] returns
    one candidate per document, in the order of the index; the candidate
    at a position carries the id, text, distance and metadata of that
    position and no relevance score; the world is unchanged. *)
Theorem query_collection_formats name query_embeddings n_results w stored results
  ids0 ids' documents0 documents' distances0 distances' metadatas0 metadatas' :
  chroma w !! name = Some stored ->
  chroma_query svc stored query_embeddings n_results = Ok results ->
  ids results = ids0 :: ids' ->
  documents results = documents0 :: documents' ->
  distances results = distances0 :: distances' ->
  metadatas results = metadatas0 :: metadatas' ->
  (length documents0 <= length ids0)%nat ->
  (length documents0 <= length distances0)%nat ->
  (length documents0 <= length metadatas0)%nat ->
  exists out,
    query_collection svc (Some name) query_embeddings n_results w = (Ret out, w)
    /\ length out = length documents0
    /\ forall i c, out !! i = Some c ->
         ids0 !! i = Some (cand_id c)
         /\ documents0 !! i = Some (cand_document c)
         /\ distances0 !! i = Some (cand_distance c)
         /\ metadatas0 !! i = Some (cand_metadata c)
         /\ relevance_score c = None.
Proof.
  intros Hs Hq Hi Hd Hdist Hm L1 L2 L3.
  unfold query_collection. rewrite Hs, Hq, Hd, Hi, Hdist, Hm.
  destruct documents0 as [|d0 documents0].
  { exists []. split; [reflexivity|]. split; [reflexivity|].
    intros i c Hc. inversion Hc. }
  destruct (format_results_defined ids0 (d0 :: documents0) distances0 metadatas0
              (seq 0 (length (d0 :: documents0)))) as [out Hout].
  { apply Forall_forall. intros i Hin. apply elem_of_seq in Hin.
    repeat split; apply lookup_lt_is_Some; lia. }
  rewrite Hout. exists out. split; [reflexivity|].
  pose proof (format_results_positions _ _ _ _ _ _ Hout) as Hpos.
  split.
  - rewrite <- (Forall2_length _ _ _ Hpos), length_seq. reflexivity.
  - intros i c Hc.
    destruct (Forall2_lookup_r _ _ _ _ _ Hpos Hc) as (j & Hj & Hfields).
    apply lookup_seq in Hj. destruct Hj as [-> _]. exact Hfields.
Qed.

(** X10. When the index answers with fewer ids, distances or metadata
    than documents, [query_collection] returns the empty list, not the
    candidates it could have formed. *)
Theorem query_collection_misaligned name query_embeddings n_results w stored results
  ids0 ids' documents0 documents' distances0 distances' metadatas0 metadatas' :
  chroma w !! name = Some stored ->
  chroma_query svc stored query_embeddings n_results = Ok results ->
  ids results = ids0 :: ids' ->
  documents results = documents0 :: documents' ->
  distances results = distances0 :: distances' ->
  metadatas results = metadatas0 :: metadatas' ->
  (length ids0 < length documents0 \/ length distances0 < length documents0
   \/ length metadatas0 < length documents0)%nat ->
  query_collection svc (Some name) query_embeddings n_results w = (Ret [], w).
Proof.
  intros Hs Hq Hi Hd Hdist Hm Hshort.
  unfold query_collection. rewrite Hs, Hq, Hd, Hi, Hdist, Hm.
  destruct documents0 as [|d0 documents0]; [reflexivity|].
  assert (Hnone :
    format_results ids0 (d0 :: documents0) distances0 metadatas0
      (seq 0 (length (d0 :: documents0))) = None).
  { destruct Hshort as [H|[H|H]].
    - apply (format_results_undefined _ _ _ _ _ (length ids0));
        [apply elem_of_seq; lia | left; apply lookup_ge_None; lia].
    - apply (format_results_undefined _ _ _ _ _ (length distances0));
        [apply elem_of_seq; lia | right; left; apply lookup_ge_None; lia].
    - apply (format_results_undefined _ _ _ _ _ (length metadatas0));
        [apply elem_of_seq; lia | right; right; apply lookup_ge_None; lia]. }
  rewrite Hnone. reflexivity.
Qed.

End more_gateway_properties.

Lemma add_chunks_to_collection_contract_witness :
  let svc := demo.services demo.unreachable in
  exists w',
    vector_db_service.add_chunks_to_collection svc (Some "doc_1"%string)
      ["It has an end."; "And an index."]%string [[14%Q]; [13%Q]] None
      (Some ["doc_1_chunk_1"; "doc_1_chunk_2"]%string) demo.indexed
    = (Ret tt, w')
    /\ (map chunk_document <$> chroma w' !! "doc_1"%string)
       = Some ["A short book."; "It has an end."; "And an index."]%string.
Proof.
  intros svc.
  destruct (add_chunks_to_collection_contract svc (Some "doc_1"%string)
              ["It has an end."; "And an index."]%string [[14%Q]; [13%Q]] None
              ["doc_1_chunk_1"; "doc_1_chunk_2"]%string demo.indexed)
    as (w' & Hrun & _ & Hadd).
  exists w'. split; [exact Hrun|].
  specialize (Hadd "doc_1"%string
                [demo.passage 0 "A short book."; demo.passage 1 "It has an end."]
                eq_refl eq_refl eq_refl eq_refl).
  destruct Hadd as (records & added & _ & _ & _ & -> & _).
  replace (set_chroma
             (insert "doc_1"%string
                ([demo.passage 0 "A short book."; demo.passage 1 "It has an end."]
                   ++ added)) demo.indexed)
    with (snd (vector_db_service.add_chunks_to_collection svc (Some "doc_1"%string)
                 ["It has an end."; "And an index."]%string [[14%Q]; [13%Q]] None
                 (Some ["doc_1_chunk_1"; "doc_1_chunk_2"]%string) demo.indexed))
    by (rewrite Hrun; reflexivity).
  vm_compute. reflexivity.
Defined.

Lemma query_collection_formats_witness :
  exists out,
    vector_db_service.query_collection (demo.services demo.unreachable)
      (Some "doc_1"%string) [[13%Q]] 10 demo.indexed
    = (Ret out, demo.indexed)
    /\ length out = 2%nat.
Proof.
  destruct (query_collection_formats (demo.services demo.unreachable)
              "doc_1"%string [[13%Q]] 10 demo.indexed
              [demo.passage 0 "A short book."; demo.passage 1 "It has an end."]
              _ _ [] _ [] _ [] _ []
              eq_refl eq_refl eq_refl eq_refl eq_refl eq_refl
              (le_n 2) (le_n 2) (le_n 2))
    as (out & Hrun & Hlen & _).
  exists out. split; [exact Hrun | exact Hlen].
Defined.

Lemma query_collection_misaligned_witness :
  vector_db_service.query_collection
    (demo_index.services demo_index.query_short demo.score_length)
    (Some "doc_1"%string) [[13%Q]] 10 demo.indexed
  = (Ret [], demo.indexed).
Proof.
  apply (query_collection_misaligned
           (demo_index.services demo_index.query_short demo.score_length)
           "doc_1"%string [[13%Q]] 10 demo.indexed
           [demo.passage 0 "A short book."; demo.passage 1 "It has an end."]
           _ _ [] _ [] _ [] _ []
           eq_refl eq_refl eq_refl eq_refl eq_refl eq_refl).
  left. vm_compute. constructor.
Defined.

(** ** More on the re-ranker *)

Section more_reranker_properties.

Import reranker_service.

Variable svc : Services.

Lemma insert_reverse_perm x l : insert_reverse x l ≡ₚ x :: l.
Proof.
  induction l as [|y l IH]; simpl; [reflexivity|].
  destruct (Qle_bool (key y) (key x)); [reflexivity|].
  rewrite IH. apply Permutation_swap.
Qed.

Lemma sorted_reverse_perm l : sorted_reverse l ≡ₚ l.
Proof.
  induction l as [|x l IH]; simpl; [reflexivity|].
  rewrite insert_reverse_perm, IH. reflexivity.
Qed.

Lemma score_documents_length documents : forall scores scored,
  score_documents documents scores = Some scored ->
  length scored = length documents.
Proof.
  induction documents as [|d documents IH]; intros scores scored H.
  - destruct scores; inversion H; reflexivity.
  - destruct scores as [|sc scores]; [discriminate|]. simpl in H.
    destruct (score_documents documents scores) as [l|] eqn:E; [|discriminate].
    inversion H; subst. simpl. rewrite (IH _ _ E). reflexivity.
Qed.

Lemma score_documents_short documents : forall scores,
  (length scores < length documents)%nat ->
  score_documents documents scores = None.
Proof.
  induction documents as [|d documents IH]; intros scores H; [simpl in H; lia|].
  destruct scores as [|sc scores]; [reflexivity|]. simpl.
  rewrite IH; [reflexivity | simpl in H; lia].
Qed.

(** X11. With the model loaded and a score for every candidate, [rerank]
    returns the [top_n] best of the scored candidates: the result and the
    candidates left out are together exactly the scored candidates, no
    candidate left out has a higher score than one that is returned, and
    the result has [top_n] items, or all of them when there are fewer. *)
Theorem rerank_keeps_best query documents top_n predict scores :
  0 <= top_n ->
  cross_encoder svc = Some predict ->
  predict (map (fun doc => (query, cand_document doc)) documents) = Ok scores ->
  (length documents <= length scores)%nat ->
  exists scored rest,
    score_documents documents scores = Some scored
    /\ rerank svc query documents top_n ++ rest ≡ₚ scored
    /\ length (rerank svc query documents top_n)
       = Nat.min (Z.to_nat top_n) (length documents)
    /\ forall c d,
         c ∈ rerank svc query documents top_n -> d ∈ rest -> not_below c d.
Proof.
  intros Hn Hm Hp Hlen.
  destruct (score_documents_enough documents scores Hlen) as [scored Hs].
  exists scored, (drop (Z.to_nat top_n) (sorted_reverse scored)).
  assert (Hout : rerank svc query documents top_n
                 = take (Z.to_nat top_n) (sorted_reverse scored)).
  { unfold rerank. rewrite Hm. destruct documents as [|d documents].
    - destruct scores; inversion Hs; subst; simpl; rewrite take_nil; reflexivity.
    - rewrite Hp, Hs. apply slice_to_take. exact Hn. }
  rewrite Hout. split; [exact Hs|]. split; [|split].
  - rewrite take_drop. apply sorted_reverse_perm.
  - rewrite length_take, (Permutation_length (sorted_reverse_perm scored)),
      (score_documents_length _ _ _ Hs). reflexivity.
  - intros c d Hc Hd.
    pose proof (sorted_reverse_sorted scored) as Hsorted.
    rewrite <- (take_drop (Z.to_nat top_n) (sorted_reverse scored)) in Hsorted.
    exact (StronglySorted_app_1_elem_of _ _ _ _ _ Hsorted Hc Hd).
Qed.

(** X12. When the model raises, or gives fewer scores than there are
    candidates, [rerank] does not raise: it returns the first [top_n]
    candidates in the order they came in, without scores attached. *)
Theorem rerank_scoring_failure query documents top_n predict :
  cross_encoder svc = Some predict ->
  (exists e,
     predict (map (fun doc => (query, cand_document doc)) documents) = Raises e)
  \/ (exists scores,
        predict (map (fun doc => (query, cand_document doc)) documents) = Ok scores
        /\ (length scores < length documents)%nat) ->
  rerank svc query documents top_n = Py.slice_to documents top_n.
Proof.
  intros Hm H. unfold rerank. rewrite Hm.
  destruct documents as [|d documents].
  - unfold Py.slice_to. destruct (0 <=? top_n); rewrite take_nil; reflexivity.
  - destruct H as [[e He]|(scores & Hp & Hlen)].
    + rewrite He. reflexivity.
    + rewrite Hp, (score_documents_short _ _ Hlen). reflexivity.
Qed.

End more_reranker_properties.

Lemma rerank_keeps_best_witness :
  let svc := demo.services demo.unreachable in
  let documents :=
    [demo.candidate 0 "Short."; demo.candidate 1 "The longest passage.";
     demo.candidate 2 "A longer one."] in
  map cand_document (reranker_service.rerank svc "Which?" documents 2)
  = ["The longest passage."; "A longer one."]%string
  /\ exists scored rest,
       reranker_service.score_documents documents [6%Q; 20%Q; 13%Q] = Some scored
       /\ reranker_service.rerank svc "Which?" documents 2 ++ rest ≡ₚ scored.
Proof.
  intros svc documents. split; [vm_compute; reflexivity|].
  destruct (rerank_keeps_best svc "Which?"%string documents 2 demo.score_length
              [6%Q; 20%Q; 13%Q] ltac:(lia) eq_refl eq_refl (le_n 3))
    as (scored & rest & Hs & Hperm & _).
  exists scored, rest. split; [exact Hs | exact Hperm].
Defined.

Lemma rerank_scoring_failure_witness :
  let documents := [demo.candidate 0 "Short."; demo.candidate 1 "The longest passage."] in
  reranker_service.rerank
    (demo_index.services demo.query_first demo_index.score_once) "Which?" documents 1
  = [demo.candidate 0 "Short."]
  /\ reranker_service.rerank
       (demo_index.services demo.query_first demo_index.score_fails) "Which?" documents 1
     = [demo.candidate 0 "Short."].
Proof.
  intros documents. split.
  - rewrite (rerank_scoring_failure
               (demo_index.services demo.query_first demo_index.score_once)
               "Which?"%string documents 1 demo_index.score_once eq_refl).
    + reflexivity.
    + right. exists [1%Q]. split; [reflexivity | simpl; lia].
  - rewrite (rerank_scoring_failure
               (demo_index.services demo.query_first demo_index.score_fails)
               "Which?"%string documents 1 demo_index.score_fails eq_refl).
    + reflexivity.
    + left. eexists. reflexivity.
Defined.

(** ** More on the ingestion task *)

Section more_task_properties.

Import models.

Variable svc : Services.

Lemma commit_document_other document_id g (j : Z) :
  j <> document_id ->
  preserves (unchanged (fun w => db_documents w !! j))
    (tasks.commit_document document_id g).
Proof.
  intros Hne w r w' H. inversion H; subst. unfold unchanged. cbn.
  apply lookup_alter_ne. congruence.
Qed.

Lemma get_or_create_collection_other name (other : string) :
  other <> name ->
  preserves (unchanged (fun w => chroma w !! other))
    (vector_db_service.get_or_create_collection svc name).
Proof.
  intros Hne w r w' H. unfold vector_db_service.get_or_create_collection in H.
  destruct (negb (chroma_client svc)); [inversion H; subst; reflexivity|].
  destruct (chroma_get_or_create_fails svc name); [inversion H; subst; reflexivity|].
  destruct (chroma w !! name); inversion H; subst; [reflexivity|].
  unfold unchanged. cbn. apply lookup_insert_ne. congruence.
Qed.

Lemma add_chunks_to_collection_other name texts embeddings metadatas ids
  (other : string) :
  other <> name ->
  preserves (unchanged (fun w => chroma w !! other))
    (vector_db_service.add_chunks_to_collection svc (Some name) texts embeddings
       metadatas ids).
Proof.
  intros Hne. unfold vector_db_service.add_chunks_to_collection.
  cbv zeta. destruct (negb _); [apply preserves_ret|].
  destruct (negb _); [apply preserves_ret|].
  intros w r w' H.
  destruct (chroma w !! name); [|inversion H; subst; reflexivity].
  destruct (chroma_add_fails svc name _); inversion H; subst; [reflexivity|].
  unfold unchanged. cbn. apply lookup_insert_ne. congruence.
Qed.

Lemma get_or_create_collection_handle name w c w' :
  vector_db_service.get_or_create_collection svc name w = (Ret (Some c), w') ->
  c = name.
Proof.
  unfold vector_db_service.get_or_create_collection.
  destruct (negb (chroma_client svc)); [discriminate|].
  destruct (chroma_get_or_create_fails svc name); [discriminate|].
  destruct (chroma w !! name); intros H; inversion H; reflexivity.
Qed.

Lemma store_stage_other document_id document chunks embeddings (other : string) :
  other <> "doc_" +:+ Py.str_of_int (id document) ->
  preserves (unchanged (fun w => chroma w !! other))
    (tasks.store_stage svc document_id document chunks embeddings).
Proof.
  intros Hne. unfold tasks.store_stage.
  apply preserves_bind; [frame|]. intros _. cbv zeta.
  intros w r w' H.
  destruct (bind_inv _ _ _ _ _ H) as [(c & w1 & H1 & H2)|[(e & H1 & _)|[H1 _]]].
  - transitivity w1;
      [exact (get_or_create_collection_other _ _ Hne _ _ _ H1)|].
    destruct c as [c|]; [|inversion H2; subst; reflexivity].
    pose proof (get_or_create_collection_handle _ _ _ _ H1) as ->.
    revert H2. apply preserves_bind;
      [apply add_chunks_to_collection_other; exact Hne | intros ?; frame].
  - exact (get_or_create_collection_other _ _ Hne _ _ _ H1).
  - exact (get_or_create_collection_other _ _ Hne _ _ _ H1).
Qed.

Lemma s3_objects_untouched fuel document_id :
  preserves (unchanged s3_objects) (tasks.process_pdf_task svc fuel document_id).
Proof.
  unfold tasks.process_pdf_task, tasks.stages, tasks.download_stage,
    tasks.extract_stage, tasks.summary_stage, tasks.chunk_stage, tasks.embed_stage,
    tasks.store_stage, tasks.complete_stage, tasks.on_exception.
  frame.
Qed.

Lemma other_rows_untouched fuel document_id (j : Z) :
  j <> document_id ->
  preserves (unchanged (fun w => db_documents w !! j))
    (tasks.process_pdf_task svc fuel document_id).
Proof.
  intros Hj.
  unfold tasks.process_pdf_task, tasks.stages, tasks.download_stage,
    tasks.extract_stage, tasks.summary_stage, tasks.chunk_stage, tasks.embed_stage,
    tasks.store_stage, tasks.complete_stage, tasks.on_exception.
  frame; apply commit_document_other; exact Hj.
Qed.

Lemma other_collections_untouched fuel document_id document (name : string) path0 :
  name <> "doc_" +:+ Py.str_of_int (id document) ->
  preserves (unchanged (fun w => chroma w !! name))
    (try_finally
       (try_except (tasks.stages svc fuel document_id document)
          (tasks.on_exception document_id))
       (tasks.cleanup path0)).
Proof.
  intros Hname.
  unfold tasks.stages, tasks.download_stage,
    tasks.extract_stage, tasks.summary_stage, tasks.chunk_stage, tasks.embed_stage,
    tasks.complete_stage, tasks.on_exception.
  pose proof (fun chunks embeddings =>
                store_stage_other document_id document chunks embeddings name Hname)
    as Hstore.
  set (store := tasks.store_stage svc document_id document) in *.
  clearbody store.
  frame; apply Hstore.
Qed.

(** X13. What a run of [process_pdf_task] can touch, however it ends:
    it never writes to the object store; it leaves every other row of the
    documents table as it was; it leaves every vector collection other
    than the one of its document as it was; and for a document that does
    not exist it returns at once, having done nothing. *)
Theorem process_pdf_task_footprint fuel document_id w r w' :
  tasks.process_pdf_task svc fuel document_id w = (r, w') ->
  s3_objects w' = s3_objects w
  /\ (forall j, j <> document_id -> db_documents w' !! j = db_documents w !! j)
  /\ (forall document name,
        db_documents w !! document_id = Some document ->
        name <> "doc_" +:+ Py.str_of_int (id document) ->
        chroma w' !! name = chroma w !! name)
  /\ (db_documents w !! document_id = None -> r = Ret tt /\ w' = w).
Proof.
  intros H. split; [|split; [|split]].
  - exact (s3_objects_untouched fuel document_id _ _ _ H).
  - intros j Hj. exact (other_rows_untouched fuel document_id j Hj _ _ _ H).
  - intros document name Hdoc Hname.
    rewrite (process_pdf_task_unfold svc fuel _ _ _ Hdoc) in H.
    exact (other_collections_untouched fuel document_id document name _ Hname _ _ _ H).
  - intros Hnone. unfold tasks.process_pdf_task in H.
    unfold bind at 1, get_world in H. rewrite Hnone in H.
    inversion H; subst. split; reflexivity.
Qed.

Lemma download_stage_temp document w r w' :
  tasks.download_stage svc document w = (r, w') ->
  (temp_files w' = temp_files w /\ temp_counter w' = temp_counter w)
  \/ (exists content,
        temp_files w' = <[temp_counter w := content]> (temp_files w)
        /\ temp_counter w' = S (temp_counter w)).
Proof.
  unfold tasks.download_stage. unfold bind at 1.
  unfold tasks.update_processing_progress at 1, tasks.update_state, modify.
  cbv zeta. destruct (negb _).
  { intros H. inversion H; subst. left. split; reflexivity. }
  unfold bind at 1, s3_service.download_file.
  destruct (s3_get_fails svc _).
  { intros H. inversion H; subst. left. split; reflexivity. }
  cbn [s3_objects set_task_states].
  destruct (s3_objects w !! _) as [content|]; intros H; inversion H; subst.
  - right. exists content. split; reflexivity.
  - left. split; reflexivity.
Qed.

Lemma stages_temp fuel document_id document w r w' :
  try_except (tasks.stages svc fuel document_id document)
    (tasks.on_exception document_id) w = (r, w') ->
  (temp_files w' = temp_files w /\ temp_counter w' = temp_counter w)
  \/ (exists content,
        temp_files w' = <[temp_counter w := content]> (temp_files w)
        /\ temp_counter w' = S (temp_counter w)).
Proof.
  assert (Hrest : forall path,
    preserves (unchanged (fun w => (temp_files w, temp_counter w)))
      (let* full_text := tasks.extract_stage svc path in
       let* _ := tasks.summary_stage svc fuel document_id full_text in
       let* chunks := tasks.chunk_stage svc full_text in
       let* chunk_embeddings := tasks.embed_stage svc chunks in
       let* _ := tasks.store_stage svc document_id document chunks chunk_embeddings in
       tasks.complete_stage document_id)).
  { intros path.
    unfold tasks.extract_stage, tasks.summary_stage, tasks.chunk_stage,
      tasks.embed_stage, tasks.store_stage, tasks.complete_stage.
    frame. }
  assert (Hexc : forall e,
    preserves (unchanged (fun w => (temp_files w, temp_counter w)))
      (tasks.on_exception document_id e)).
  { intros e. unfold tasks.on_exception. frame. }
  assert (Hstages : forall r1 w1,
    tasks.stages svc fuel document_id document w = (r1, w1) ->
    (temp_files w1 = temp_files w /\ temp_counter w1 = temp_counter w)
    \/ (exists content,
          temp_files w1 = <[temp_counter w := content]> (temp_files w)
          /\ temp_counter w1 = S (temp_counter w))).
  { intros r1 w1 H. unfold tasks.stages in H.
    destruct (bind_inv _ _ _ _ _ H) as [(path & wd & H1 & H2)|[(e & H1 & _)|[H1 _]]].
    - pose proof (Hrest _ _ _ _ H2) as E. unfold unchanged in E.
      inversion E as [[E1 E2]]. rewrite E1, E2.
      exact (download_stage_temp _ _ _ _ H1).
    - exact (download_stage_temp _ _ _ _ H1).
    - exact (download_stage_temp _ _ _ _ H1). }
  intros H. unfold try_except in H.
  destruct (tasks.stages svc fuel document_id document w) as [[u|e|] w1] eqn:E.
  - inversion H; subst. exact (Hstages _ _ eq_refl).
  - pose proof (Hexc _ _ _ _ H) as E'. unfold unchanged in E'.
    inversion E' as [[E1 E2]]. rewrite E1, E2. exact (Hstages _ _ eq_refl).
  - inversion H; subst. exact (Hstages _ _ eq_refl).
Qed.

(** X14. [process_pdf_task] leaves no temporary file behind: when the
    run is over, whether the stages succeeded or one of them raised, the
    temporary files are the ones there were before.  The path that
    [NamedTemporaryFile] hands out is assumed to be unused. *)
Theorem process_pdf_task_removes_temp_file fuel document_id w r w' :
  temp_files w !! temp_counter w = None ->
  tasks.process_pdf_task svc fuel document_id w = (r, w') ->
  r <> OutOfFuel ->
  temp_files w' = temp_files w.
Proof.
  intros Hfresh H Hr.
  destruct (db_documents w !! document_id) as [document|] eqn:Hdoc.
  2:{ unfold tasks.process_pdf_task in H. unfold bind at 1, get_world in H.
      rewrite Hdoc in H. inversion H; subst. reflexivity. }
  rewrite (process_pdf_task_unfold svc fuel _ _ _ Hdoc) in H.
  unfold try_finally in H.
  destruct (try_except _ _ (started document_id w)) as [r1 w1] eqn:E.
  apply stages_temp in E.
  change (temp_files (started document_id w)) with (temp_files w) in E.
  change (temp_counter (started document_id w)) with (temp_counter w) in E.
  assert (Hclean : temp_files (snd (tasks.cleanup (temp_counter w) w1)) = temp_files w).
  { unfold tasks.cleanup. destruct E as [[E1 E2]|(content & E1 & E2)].
    - rewrite E2, Nat.ltb_irrefl. exact E1.
    - rewrite E2. replace (temp_counter w <? S (temp_counter w))%nat with true
        by (symmetry; apply Nat.ltb_lt; lia).
      rewrite E1, lookup_insert_eq. cbn. rewrite E1.
      apply delete_insert_id. exact Hfresh. }
  destruct r1 as [u|e|]; [| |inversion H; subst; congruence];
    destruct (tasks.cleanup (temp_counter w) w1) as [[u'|e'|] w2];
    inversion H; subst; try congruence; exact Hclean.
Qed.

(** X15. When the text of the downloaded file cannot be extracted --
    the PDF library raises, or the text of the pages is empty or only
    white space -- the run ends [FAILED] right after the report
    [Extracting text]; the failure message is that of the cause behind
    [Failed to extract text from PDF: ]; no generation request has been
    posted and no vector collection touched. *)
Theorem process_pdf_task_extraction_failure fuel document_id document w content e :
  db_documents w !! document_id = Some document ->
  Py.truthy (unquote svc (Py.lstrip_char "/" (urlparse_path svc (file_path document))))
  = true ->
  s3_get_fails svc
    (unquote svc (Py.lstrip_char "/" (urlparse_path svc (file_path document))))
  = false ->
  s3_objects w
    !! unquote svc (Py.lstrip_char "/" (urlparse_path svc (file_path document)))
  = Some content ->
  fitz_pages svc content = Raises e
  \/ (exists pages,
        fitz_pages svc content = Ok pages
        /\ Py.truthy (Py.strip (tasks.concat_pages pages)) = false
        /\ e = ValueError "Extracted text is empty or only whitespace.") ->
  exists w',
    tasks.process_pdf_task svc fuel document_id w = (Ret tt, w')
    /\ task_states w'
       = task_states w
           ++ [("PROGRESS"%string, MetaProgress "Initializing" 5);
               ("PROGRESS"%string, MetaProgress "Downloading from S3" 10);
               ("PROGRESS"%string, MetaProgress "Download complete" 20);
               ("PROGRESS"%string, MetaProgress "Extracting text" 30);
               ("FAILED"%string,
                MetaExc ("Failed to extract text from PDF: " +:+ str_exc e) 0)]
    /\ (processing_status <$> db_documents w' !! document_id) = Some FAILED
    /\ llm_requests w' = llm_requests w
    /\ chroma w' = chroma w.
Proof.
  intros Hdoc Htruthy Hget Hobj Hcause.
  rewrite (process_pdf_task_unfold svc fuel _ _ _ Hdoc).
  set (wd :=
    set_task_states
      (fun l => l ++ [("PROGRESS"%string, MetaProgress "Download complete" 20)])
      (set_temp_files (insert (temp_counter w) content) (S (temp_counter w))
         (set_task_states
            (fun l => l ++ [("PROGRESS"%string, MetaProgress "Downloading from S3" 10)])
            (started document_id w)))).
  assert (Hdown :
    tasks.download_stage svc document (started document_id w)
    = (Ret (temp_counter w), wd)).
  { unfold tasks.download_stage. unfold bind at 1.
    unfold tasks.update_processing_progress at 1, tasks.update_state, modify.
    cbv zeta. rewrite Htruthy. cbn [negb].
    unfold bind at 1, s3_service.download_file. rewrite Hget.
    cbn [s3_objects set_task_states started set_db_documents]. rewrite Hobj.
    reflexivity. }
  set (w1 :=
    set_task_states
      (fun l => l ++ [("PROGRESS"%string, MetaProgress "Extracting text" 30)]) wd).
  assert (Hext :
    tasks.extract_stage svc (temp_counter w) wd
    = (Exc (RuntimeError ("Failed to extract text from PDF: " +:+ str_exc e)), w1)).
  { unfold tasks.extract_stage. unfold bind at 1.
    unfold tasks.update_processing_progress at 1, tasks.update_state, modify.
    unfold bind at 1, try_except. unfold bind at 1, tasks.fitz_open.
    fold w1.
    assert (Hfile : temp_files w1 !! temp_counter w = Some content)
      by (cbn; apply lookup_insert_eq).
    rewrite Hfile.
    destruct Hcause as [Hraise|(pages & Hpages & Hblank & ->)].
    - rewrite Hraise. reflexivity.
    - rewrite Hpages. cbn [lift_result ret]. rewrite Hblank. reflexivity. }
  assert (Hstages :
    tasks.stages svc fuel document_id document (started document_id w)
    = (Exc (RuntimeError ("Failed to extract text from PDF: " +:+ str_exc e)), w1)).
  { unfold tasks.stages.
    rewrite (bind_Ret _ _ _ _ _ Hdown), (bind_Exc _ _ _ _ _ Hext). reflexivity. }
  unfold try_finally, try_except. rewrite Hstages.
  set (w2 := set_task_states
               (fun l => l ++ [("FAILED"%string,
                                MetaExc ("Failed to extract text from PDF: "
                                           +:+ str_exc e) 0)])
               (set_db_documents (alter (set_processing_status FAILED) document_id) w1)).
  change (tasks.on_exception document_id
            (RuntimeError ("Failed to extract text from PDF: " +:+ str_exc e)) w1)
    with (Ret tt, w2).
  destruct (cleanup_returns (temp_counter w) w2) as [w3 Hclean]. rewrite Hclean.
  exists w3. split; [reflexivity|].
  rewrite (cleanup_unchanged task_states _ (fun _ _ _ => eq_refl) _ _ _ Hclean).
  rewrite (cleanup_unchanged db_documents _ (fun _ _ _ => eq_refl) _ _ _ Hclean).
  rewrite (cleanup_unchanged llm_requests _ (fun _ _ _ => eq_refl) _ _ _ Hclean).
  rewrite (cleanup_unchanged chroma _ (fun _ _ _ => eq_refl) _ _ _ Hclean).
  cbn. rewrite <- !app_assoc. split; [reflexivity|].
  rewrite !lookup_alter_eq, Hdoc. repeat split; reflexivity.
Qed.

Lemma chunk_ids_length document_id chunks :
  length (tasks.chunk_ids document_id chunks) = length chunks.
Proof. unfold tasks.chunk_ids. rewrite length_map, length_seq. reflexivity. Qed.

(** X16. With the vector client working, the storage stage always
    returns.  When there are as many embeddings as chunks and
    [collection.add] does not raise, the records of the chunks, with the
    ids [doc_<id>_chunk_<i>] in order, are added to the collection
    [doc_<id>] after the ones it had, except those whose id it already
    holds: all of them when the collection is new, none when the
    collection holds all these ids, as after an earlier run.  When the
    numbers differ or [collection.add] raises, the stage returns all the
    same and the collection holds what it held before (nothing, if it was
    new). *)
Theorem store_stage_outcome document_id document chunks embeddings w :
  chroma_client svc = true ->
  chroma_get_or_create_fails svc ("doc_" +:+ Py.str_of_int (id document)) = false ->
  exists w',
    tasks.store_stage svc document_id document chunks embeddings w = (Ret tt, w')
    /\ (length chunks = length embeddings
        /\ chroma_add_fails svc ("doc_" +:+ Py.str_of_int (id document))
             (tasks.chunk_ids document_id chunks) = false ->
        exists records added,
          map chunk_id records = tasks.chunk_ids document_id chunks
          /\ map chunk_document records = chunks
          /\ map chunk_embedding records = embeddings
          /\ chroma w' !! ("doc_" +:+ Py.str_of_int (id document))
             = Some (default [] (chroma w !! ("doc_" +:+ Py.str_of_int (id document)))
                       ++ added)
          /\ added
             = List.filter
                 (fun c =>
                    negb (vector_db_service.holds
                            (default []
                               (chroma w !! ("doc_" +:+ Py.str_of_int (id document))))
                            (chunk_id c)))
                 records
          /\ (chroma w !! ("doc_" +:+ Py.str_of_int (id document)) = None ->
              added = records)
          /\ ((forall i, i ∈ tasks.chunk_ids document_id chunks ->
                 vector_db_service.holds
                   (default [] (chroma w !! ("doc_" +:+ Py.str_of_int (id document))))
                   i = true) ->
              added = []))
    /\ (length chunks <> length embeddings
        \/ chroma_add_fails svc ("doc_" +:+ Py.str_of_int (id document))
             (tasks.chunk_ids document_id chunks) = true ->
        chroma w' !! ("doc_" +:+ Py.str_of_int (id document))
        = Some (default [] (chroma w !! ("doc_" +:+ Py.str_of_int (id document))))).
Proof.
  intros Hclient Hcreate.
  set (name := "doc_" +:+ Py.str_of_int (id document)) in *.
  unfold tasks.store_stage. unfold bind at 1.
  unfold tasks.update_processing_progress at 1, tasks.update_state, modify.
  cbv zeta. fold name. unfold bind at 1.
  unfold vector_db_service.get_or_create_collection.
  rewrite Hclient, Hcreate. cbn [negb chroma set_task_states].
  unfold vector_db_service.add_chunks_to_collection.
  cbv zeta. rewrite chunk_ids_length, Nat.eqb_refl. cbn [negb].
  pose proof (make_chunks_aligned (tasks.chunk_ids document_id chunks) chunks
                embeddings (map (fun _ => Some (id document)) chunks)
                (chunk_ids_length _ _)) as Haligned.
  set (records := vector_db_service.make_chunks (tasks.chunk_ids document_id chunks)
                    chunks embeddings (map (fun _ => Some (id document)) chunks))
    in *.
  assert (Hadded : forall before,
    length chunks = length embeddings ->
    exists added,
      map chunk_id records = tasks.chunk_ids document_id chunks
      /\ map chunk_document records = chunks
      /\ map chunk_embedding records = embeddings
      /\ Some (before ++ vector_db_service.new_records before records)
         = Some (before ++ added)
      /\ added
         = List.filter
             (fun c => negb (vector_db_service.holds before (chunk_id c))) records
      /\ (before = [] -> added = records)
      /\ ((forall i, i ∈ tasks.chunk_ids document_id chunks ->
             vector_db_service.holds before i = true) -> added = [])).
  { intros before El. destruct (Haligned El) as (Ha & Hb & Hc).
    exists (vector_db_service.new_records before records).
    split; [exact Ha|]. split; [exact Hb|]. split; [exact Hc|].
    split; [reflexivity|]. split; [reflexivity|]. split.
    - intros ->. apply new_records_fresh. intros i _. reflexivity.
    - intros Hstale. apply new_records_stale. rewrite Ha. exact Hstale. }
  destruct (chroma w !! name) as [stored|] eqn:Es; cbn [default];
    (destruct (length chunks =? length embeddings)%nat eqn:El; cbn [negb];
     [apply Nat.eqb_eq in El | apply Nat.eqb_neq in El]);
    unfold bind at 1; cbn [chroma set_chroma set_task_states ret];
    rewrite ?Es, ?lookup_insert_eq;
    try (destruct (chroma_add_fails svc name _) eqn:Ef);
    (eexists; split; [reflexivity|]);
    cbn [chroma set_chroma set_task_states tasks.update_processing_progress
           tasks.update_state modify];
    rewrite ?lookup_insert_eq, ?Es; cbn [default].
  all: split; [intros [Hl Hf]; try congruence | intros [Hl|Hf]; try congruence].
  all: try reflexivity.
  - destruct (Hadded stored Hl) as (added & H1 & H2 & H3 & H4 & H5 & _ & H7).
    exists records, added. repeat split; try assumption. discriminate.
  - destruct (Hadded [] Hl) as (added & H1 & H2 & H3 & H4 & H5 & H6 & H7).
    exists records, added. repeat split; try assumption.
    intros _. apply H6. reflexivity.
Qed.

End more_task_properties.

Lemma process_pdf_task_footprint_witness :
  let svc := demo.services (demo.answers "It is short.") in
  let w' := snd (tasks.process_pdf_task svc 1 1 (demo.uploaded models.PENDING)) in
  s3_objects w' = s3_objects (demo.uploaded models.PENDING)
  /\ db_documents w' !! 2 = None.
Proof.
  intros svc w'.
  destruct (process_pdf_task_footprint svc 1 1 (demo.uploaded models.PENDING)
              (fst (tasks.process_pdf_task svc 1 1 (demo.uploaded models.PENDING))) w'
              (surjective_pairing _))
    as (Hs3 & Hrows & _).
  split; [exact Hs3|]. rewrite (Hrows 2); [reflexivity | discriminate].
Defined.

Lemma process_pdf_task_removes_temp_file_witness :
  let svc := demo.services_index_down demo.unreachable in
  temp_files (snd (tasks.process_pdf_task svc 1 1 (demo.uploaded models.PENDING))) = ∅.
Proof.
  intros svc.
  apply (process_pdf_task_removes_temp_file svc 1 1 (demo.uploaded models.PENDING)
           (fst (tasks.process_pdf_task svc 1 1 (demo.uploaded models.PENDING)))).
  - reflexivity.
  - apply surjective_pairing.
  - vm_compute. discriminate.
Defined.

Lemma process_pdf_task_extraction_failure_witness :
  let svc := demo.services demo.unreachable in
  let w :=
    set_s3_objects (insert "raw_pdfs/1_Book.pdf"%string (list_byte_of_string "   "))
      (demo.uploaded models.PENDING) in
  exists w',
    tasks.process_pdf_task svc 1 1 w = (Ret tt, w')
    /\ last (task_states w')
       = Some ("FAILED"%string,
               MetaExc
                 "Failed to extract text from PDF: Extracted text is empty or only whitespace."
                 0).
Proof.
  intros svc w.
  destruct (process_pdf_task_extraction_failure svc 1 1 (demo.book models.PENDING) w
              (list_byte_of_string "   ")
              (ValueError "Extracted text is empty or only whitespace.")
              eq_refl eq_refl eq_refl eq_refl)
    as (w' & Hrun & Hstates & _).
  - right. exists ["   "%string]. repeat split; reflexivity.
  - exists w'. split; [exact Hrun|]. rewrite Hstates. reflexivity.
Defined.

Lemma store_stage_outcome_witness :
  let svc := demo.services demo.unreachable in
  (exists w',
     tasks.store_stage svc 1 (demo.book models.COMPLETED) ["A short book."%string]
       [[13%Q]; [14%Q]] demo.blank = (Ret tt, w')
     /\ chroma w' !! "doc_1"%string = Some [])
  /\ (exists w',
        tasks.store_stage svc 1 (demo.book models.COMPLETED)
          ["A short book."; "It has an end."]%string [[13%Q]; [14%Q]] demo.indexed
        = (Ret tt, w')
        /\ chroma w' !! "doc_1"%string = chroma demo.indexed !! "doc_1"%string).
Proof.
  intros svc. split.
  - destruct (store_stage_outcome svc 1 (demo.book models.COMPLETED)
                ["A short book."%string] [[13%Q]; [14%Q]] demo.blank eq_refl eq_refl)
      as (w' & Hrun & _ & Hsilent).
    exists w'. split; [exact Hrun|]. apply Hsilent. left. discriminate.
  - destruct (store_stage_outcome svc 1 (demo.book models.COMPLETED)
                ["A short book."; "It has an end."]%string [[13%Q]; [14%Q]]
                demo.indexed eq_refl eq_refl)
      as (w' & Hrun & Hadd & _).
    exists w'. split; [exact Hrun|].
    destruct (Hadd (conj eq_refl eq_refl))
      as (records & added & _ & _ & _ & Hafter & _ & _ & Hstale).
    change (chroma w' !! "doc_1"%string)
      with (chroma w'
              !! ("doc_" +:+ Py.str_of_int (models.id (demo.book models.COMPLETED)))).
    rewrite Hafter, Hstale.
    + vm_compute. reflexivity.
    + intros i Hi. apply list_elem_of_In in Hi. vm_compute in Hi.
      destruct Hi as [<-|[<-|[]]]; vm_compute; reflexivity.
Defined.

Section task_columns.

Import models.

Variable svc : Services.

Lemma commit_document_columns {X} (column : Document -> X) document_id g :
  (forall d, column (g d) = column d) ->
  preserves (unchanged (fun w => column <$> db_documents w !! document_id))
    (tasks.commit_document document_id g).
Proof.
  intros Hg w r w' H. inversion H; subst. unfold unchanged. cbn.
  rewrite lookup_alter_eq. destruct (db_documents w !! document_id) as [d|]; cbn;
    [rewrite Hg|]; reflexivity.
Qed.

Lemma process_pdf_task_keeps_columns fuel document_id :
  preserves
    (unchanged (fun w =>
       (fun d => (id d, title d, file_path d, file_size_bytes d,
                  celery_task_id d, owner_id d))
         <$> db_documents w !! document_id))
    (tasks.process_pdf_task svc fuel document_id).
Proof.
  unfold tasks.process_pdf_task, tasks.stages, tasks.download_stage,
    tasks.extract_stage, tasks.summary_stage, tasks.chunk_stage, tasks.embed_stage,
    tasks.store_stage, tasks.complete_stage, tasks.on_exception.
  frame; apply commit_document_columns; intros ?; reflexivity.
Qed.

(** X17. Of the row of its document, [process_pdf_task] writes only the
    columns [processing_status] and [summary]: the id, the title, the
    locator, the size, the task id and the owner are after the run what
    they were before, however the run ends, and the row does not
    disappear. *)
Theorem process_pdf_task_columns fuel document_id w r w' document :
  db_documents w !! document_id = Some document ->
  tasks.process_pdf_task svc fuel document_id w = (r, w') ->
  exists status text,
    db_documents w' !! document_id
    = Some {| id := id document; title := title document;
              file_path := file_path document;
              file_size_bytes := file_size_bytes document;
              processing_status := status; summary := text;
              celery_task_id := celery_task_id document;
              owner_id := owner_id document |}.
Proof.
  intros Hdoc H.
  pose proof (process_pdf_task_keeps_columns fuel document_id _ _ _ H) as E.
  unfold unchanged in E. rewrite Hdoc in E.
  destruct (db_documents w' !! document_id) as [[i t p s st sm c o]|];
    [|discriminate].
  cbn in E. inversion E; subst. exists st, sm. reflexivity.
Qed.

End task_columns.

Lemma process_pdf_task_columns_witness :
  let svc := demo.services (demo.answers "It is short.") in
  exists status text,
    db_documents (snd (tasks.process_pdf_task svc 1 1 (demo.uploaded models.PENDING)))
      !! 1
    = Some {| models.id := 1; models.title := "Book";
              models.file_path := demo.url; models.file_size_bytes := Some 29;
              models.processing_status := status; models.summary := text;
              models.celery_task_id := None; models.owner_id := 7 |}.
Proof.
  intros svc.
  exact (process_pdf_task_columns svc 1 1 (demo.uploaded models.PENDING)
           (fst (tasks.process_pdf_task svc 1 1 (demo.uploaded models.PENDING)))
           (snd (tasks.process_pdf_task svc 1 1 (demo.uploaded models.PENDING)))
           (demo.book models.PENDING) eq_refl (surjective_pairing _)).
Defined.

(** ** More on the endpoints *)

Section more_endpoint_properties.

Variable svc : Services.
Variable env : UploadEnv.

(** X18. A document of another user is answered exactly like a document
    that does not exist, by the query, the delete and the status
    operations, and nothing is done for it. *)
Theorem foreign_document_looks_missing document_id query_text current_user w document :
  db_documents w !! document_id = Some document ->
  models.owner_id document <> current_user ->
  let missing := set_db_documents (delete document_id) w in
  let not_found :=
    HTTPException 404 "Document not found or you don't have access to it." in
  endpoints.query_document svc document_id query_text current_user w
  = (Exc not_found, w)
  /\ endpoints.query_document svc document_id query_text current_user missing
     = (Exc not_found, missing)
  /\ endpoints.delete_document svc document_id current_user w = (Exc not_found, w)
  /\ endpoints.delete_document svc document_id current_user missing
     = (Exc not_found, missing)
  /\ endpoints_more.get_document_processing_status env document_id current_user w
     = (Exc (HTTPException 404 "Document not found"), w)
  /\ endpoints_more.get_document_processing_status env document_id current_user missing
     = (Exc (HTTPException 404 "Document not found"), missing).
Proof.
  intros Hdoc Howner missing not_found.
  assert (Hmissing : db_documents missing !! document_id = None)
    by apply lookup_delete_eq.
  apply Z.eqb_neq in Howner.
  unfold endpoints.query_document, endpoints.delete_document,
    endpoints_more.get_document_processing_status.
  unfold bind, get_world, crud_create.get_document_by_id.
  rewrite Hmissing, Hdoc, Howner. repeat split; reflexivity.
Qed.

(** The run of an upload that answers with a document. *)
Lemma upload_document_run title file current_user w document w' :
  endpoints_more.upload_document svc env title file current_user w
  = (Ret document, w') ->
  let object_name := endpoints_more.upload_object_name env title file in
  let db_obj :=
    {| models.id := next_document_id env; models.title := title;
       models.file_path := s3_upload.s3_url env object_name;
       models.file_size_bytes := size file;
       models.processing_status := models.PENDING;
       models.summary := None;
       models.celery_task_id := None;
       models.owner_id := current_user |} in
  exists task,
    delay env (next_document_id env) = Ok task
    /\ document = endpoints_more.set_celery_task_id (Some task) db_obj
    /\ db_documents w !! next_document_id env = None
    /\ w' = set_db_documents
              (alter (endpoints_more.set_celery_task_id (Some task))
                 (next_document_id env))
              (set_db_documents (insert (next_document_id env) db_obj)
                 (set_s3_objects (insert object_name (file_content file)) w))
    /\ PyStr.endswith ".pdf" (PyStr.lower (filename file)) = true
    /\ (1 <=? Py.len title) && (Py.len title <=? 255) = true.
Proof.
  unfold endpoints_more.upload_document.
  destruct (PyStr.endswith ".pdf" (PyStr.lower (filename file))); [|discriminate].
  cbn [negb]. cbv zeta. unfold bind at 1, s3_upload.upload_file.
  destruct (s3_put_fails env _); [discriminate|].
  unfold try_except.
  match goal with
  | |- context [bind (crud_create.DocumentCreate env title) ?k ?w0] =>
      destruct (bind (crud_create.DocumentCreate env title) k w0)
        as [[d|e|] w1] eqn:Hbody
  end; [|unfold bind, s3_service.delete_file;
         destruct (s3_delete_fails svc _); discriminate
        |discriminate].
  intros H. inversion H; subst d w1. clear H.
  apply bind_Ret_inv in Hbody. destruct Hbody as (t & w1 & Hcreate & Hbody).
  unfold crud_create.DocumentCreate in Hcreate.
  destruct ((1 <=? Py.len title) && (Py.len title <=? 255)) eqn:Hlen; [|discriminate].
  inversion Hcreate; subst t w1. clear Hcreate.
  apply bind_Ret_inv in Hbody. destruct Hbody as (d & w1 & Hinsert & Hbody).
  unfold crud_create.create_document in Hinsert. cbv zeta in Hinsert.
  cbn [db_documents set_s3_objects] in Hinsert.
  destruct (db_insert_fails env); [discriminate|].
  destruct (db_documents w !! next_document_id env) eqn:Hfresh; [discriminate|].
  destruct (crud_create.file_path_taken _ _); [discriminate|].
  inversion Hinsert; subst d w1. clear Hinsert.
  apply bind_Ret_inv in Hbody. destruct Hbody as (task & w1 & Hdelay & Hbody).
  cbn [models.id] in Hdelay, Hbody.
  destruct (delay env (next_document_id env)) as [task'|] eqn:Hd; [|discriminate].
  inversion Hdelay; subst task' w1. clear Hdelay.
  unfold bind, modify, ret in Hbody.
  destruct (db_update_fails env); [discriminate|].
  destruct (db_refresh_fails env); [discriminate|].
  inversion Hbody; subst. clear Hbody.
  exists task. repeat split; reflexivity.
Qed.

(** X19. When [upload_document] answers with a document, the file name
    ends in [.pdf] whatever its case, the title has 1 to 255 characters,
    the id was unused; the row is now in the table, [PENDING], owned by
    the caller, located at the URL of the stored object, with the id of
    the dispatched task recorded; and the object holds the content of the
    file. *)
Theorem upload_document_success title file current_user w document w' :
  endpoints_more.upload_document svc env title file current_user w
  = (Ret document, w') ->
  exists task,
    delay env (next_document_id env) = Ok task
    /\ document
       = {| models.id := next_document_id env; models.title := title;
            models.file_path :=
              s3_upload.s3_url env (endpoints_more.upload_object_name env title file);
            models.file_size_bytes := size file;
            models.processing_status := models.PENDING;
            models.summary := None;
            models.celery_task_id := Some task;
            models.owner_id := current_user |}
    /\ db_documents w !! next_document_id env = None
    /\ db_documents w' = <[next_document_id env := document]> (db_documents w)
    /\ s3_objects w'
       = <[endpoints_more.upload_object_name env title file := file_content file]>
           (s3_objects w)
    /\ PyStr.endswith ".pdf" (PyStr.lower (filename file)) = true
    /\ 1 <= Py.len title <= 255.
Proof.
  intros Hup.
  destruct (upload_document_run _ _ _ _ _ _ Hup)
    as (task & Hdelay & -> & Hfresh & -> & Hpdf & Hlen).
  exists task. split; [exact Hdelay|]. split; [reflexivity|].
  split; [exact Hfresh|]. cbn.
  split; [apply alter_insert_eq|]. split; [reflexivity|]. split; [exact Hpdf|].
  apply andb_true_iff in Hlen. lia.
Qed.


End more_endpoint_properties.

Section more_endpoint_compositions.

Variable svc : Services.
Variable env : UploadEnv.

(** X21. Uploading a document and then deleting it brings the documents
    table and the object store back to what they were, when the key of
    the object has no [".com/"] in it, the key was unused, and neither
    the object store nor the database refuses the deletion. *)
Theorem upload_then_delete_restores title file current_user w document w1 :
  endpoints_more.upload_document svc env title file current_user w
  = (Ret document, w1) ->
  PyStr.has_sub ".com/" (endpoints_more.upload_object_name env title file) = false ->
  s3_objects w !! endpoints_more.upload_object_name env title file = None ->
  s3_delete_fails svc (endpoints_more.upload_object_name env title file) = false ->
  db_delete_fails svc (next_document_id env) = false ->
  exists w2,
    endpoints.delete_document svc (models.id document) current_user w1 = (Ret tt, w2)
    /\ db_documents w2 = db_documents w
    /\ s3_objects w2 = s3_objects w.
Proof.
  intros Hup Hkey Hunused Hs3 Hdb.
  destruct (upload_document_run svc env _ _ _ _ _ _ Hup)
    as (task & _ & -> & Hfresh & Hw1 & _).
  set (key := endpoints_more.upload_object_name env title file) in *.
  assert (Hobjects : s3_objects w1 = <[key := file_content file]> (s3_objects w))
    by (rewrite Hw1; reflexivity).
  match type of Hw1 with
  | context [set_db_documents (insert _ ?row)] =>
      assert (Hrows :
        db_documents w1
        = <[next_document_id env
            := endpoints_more.set_celery_task_id (Some task) row]> (db_documents w))
        by (rewrite Hw1; cbn; apply alter_insert_eq)
  end.
  clear Hw1.
  cbn [models.id endpoints_more.set_celery_task_id].
  unfold endpoints.delete_document. unfold bind at 1, get_world.
  rewrite Hrows, lookup_insert_eq.
  cbn [models.owner_id models.file_path models.id endpoints_more.set_celery_task_id].
  rewrite Z.eqb_refl. cbn [negb]. cbv zeta.
  rewrite s3_url_shape, (last_segment_after ".com/" _ _ eq_refl Hkey).
  unfold try_except, bind, s3_service.delete_file, crud_document.delete_document.
  rewrite Hs3, Hdb.
  match goal with
  | |- context [vector_db_service.delete_collection svc ?n ?w0] =>
      pose proof (delete_collection_unchanged svc db_documents n (fun _ _ => eq_refl) w0)
        as Edb;
      pose proof (delete_collection_unchanged svc s3_objects n (fun _ _ => eq_refl) w0)
        as Es3;
      destruct (vector_db_service.delete_collection svc n w0) as [[b|e|] w2] eqn:Hdel
  end.
  - eexists. split; [reflexivity|]. cbn.
    rewrite (Edb _ _ eq_refl), (Es3 _ _ eq_refl). cbn.
    rewrite Hrows, Hobjects. split; apply delete_insert_id; assumption.
  - exfalso. revert Hdel. unfold vector_db_service.delete_collection.
    repeat match goal with |- context [if ?c then _ else _] => destruct c end;
      discriminate.
  - exfalso. revert Hdel. unfold vector_db_service.delete_collection.
    repeat match goal with |- context [if ?c then _ else _] => destruct c end;
      discriminate.
Qed.

(** X22. The status operation changes nothing, and it asks the task
    queue only for a document that is [PROCESSING] and has a task id:
    two queues that agree on that task give the same answer, and for any
    other document the answer does not depend on the queue at all. *)
Theorem status_asks_queue_only_when_processing (env' : UploadEnv) document_id
  current_user w :
  (forall document task_id,
     db_documents w !! document_id = Some document ->
     models.processing_status document = models.PROCESSING ->
     models.celery_task_id document = Some task_id ->
     Py.truthy task_id = true ->
     async_result env' task_id = async_result env task_id) ->
  endpoints_more.get_document_processing_status env' document_id current_user w
  = endpoints_more.get_document_processing_status env document_id current_user w
  /\ snd (endpoints_more.get_document_processing_status env document_id current_user w)
     = w.
Proof.
  intros Hqueue. unfold endpoints_more.get_document_processing_status.
  unfold bind, crud_create.get_document_by_id.
  destruct (db_documents w !! document_id) as [document|]; [|split; reflexivity].
  destruct (negb _); [split; reflexivity|].
  destruct (models.processing_status document) eqn:Hstatus; try (split; reflexivity).
  destruct (models.celery_task_id document) as [task_id|] eqn:Htask;
    [|split; reflexivity].
  destruct (Py.truthy task_id) eqn:Htruthy; [|split; reflexivity].
  rewrite (Hqueue document task_id eq_refl Hstatus Htask Htruthy).
  split; reflexivity.
Qed.

(** X23. Once [process_pdf_task] has returned for a document, the status
    operation answers its owner from the table alone: [completed] with
    progress 100, or [failed] with progress 0. *)
Theorem status_after_task fuel document_id current_user w w' document :
  db_documents w !! document_id = Some document ->
  models.owner_id document = current_user ->
  tasks.process_pdf_task svc fuel document_id w = (Ret tt, w') ->
  exists response,
    endpoints_more.get_document_processing_status env document_id current_user w'
    = (Ret response, w')
    /\ endpoints_more.document_id response = models.id document
    /\ ((endpoints_more.db_status response = models.COMPLETED
         /\ endpoints_more.celery_state response = "completed"%string
         /\ endpoints_more.processing_stage response = "completed"%string
         /\ endpoints_more.current_progress response = 100)
        \/ (endpoints_more.db_status response = models.FAILED
            /\ endpoints_more.celery_state response = "failed"%string
            /\ endpoints_more.processing_stage response = "failed"%string
            /\ endpoints_more.current_progress response = 0)).
Proof.
  intros Hdoc Howner Hrun.
  destruct (process_pdf_task_ends_terminal svc _ _ _ _ _ Hdoc Hrun)
    as (d & Hd & Hterminal).
  pose proof (process_pdf_task_keeps_columns svc fuel document_id _ _ _ Hrun) as E.
  unfold unchanged in E. rewrite Hdoc, Hd in E. cbn in E.
  injection E as Hid _ _ _ _ Hown.
  unfold endpoints_more.get_document_processing_status.
  unfold bind, crud_create.get_document_by_id. rewrite Hd.
  rewrite Hown, Howner, Z.eqb_refl. cbn [negb].
  destruct Hterminal as [Hs|Hs]; rewrite Hs; eexists; (split; [reflexivity|]);
    (split; [exact Hid|]); [left | right]; rewrite ?Hs; repeat split; reflexivity.
Qed.

(** X24. When the database refuses the deletion of the row,
    [delete_document] answers 500 and the row stays; by then the stored
    object has been deleted, unless the object store refused, and so has
    the vector collection, unless the vector client is missing or
    refused. *)
Theorem delete_document_database_failure document_id current_user w document :
  db_documents w !! document_id = Some document ->
  models.owner_id document = current_user ->
  db_delete_fails svc document_id = true ->
  exists detail w',
    endpoints.delete_document svc document_id current_user w
    = (Exc (HTTPException 500
              ("Failed to delete document and its associated data: " +:+ detail)),
       w')
    /\ db_documents w' = db_documents w
    /\ (s3_delete_fails svc
          (Py.last_item (Py.split ".com/" (models.file_path document))) = false ->
        s3_objects w'
          !! Py.last_item (Py.split ".com/" (models.file_path document)) = None)
    /\ (chroma_client svc = true ->
        chroma_delete_fails svc ("doc_" +:+ Py.str_of_int (models.id document)) = false ->
        chroma w' !! ("doc_" +:+ Py.str_of_int (models.id document)) = None).
Proof.
  intros Hdoc Howner Hdb.
  unfold endpoints.delete_document. unfold bind at 1, get_world.
  rewrite Hdoc, Howner, Z.eqb_refl. cbn [negb]. cbv zeta.
  unfold try_except, bind, s3_service.delete_file, crud_document.delete_document,
    vector_db_service.delete_collection.
  rewrite Hdb.
  destruct (s3_delete_fails svc _) eqn:Hs3;
    (destruct (chroma_client svc) eqn:Hclient; cbn [negb];
     [destruct (chroma_delete_fails svc _) eqn:Hdel|]);
    cbn [chroma set_s3_objects];
    try (destruct (chroma w !! _) eqn:Hc);
    (eexists; eexists; split; [reflexivity|]); cbn;
    (split; [reflexivity|]);
    (split; [intros ?; try discriminate; try apply lookup_delete_eq
            |intros ? ?; try discriminate; try apply lookup_delete_eq;
             try assumption]).
Qed.

(** X25. What is stored is read back: after [upload_file] has returned
    the locator of an object, [download_file] returns the content of the
    uploaded file; and once [delete_file] has returned [True] for the
    object, [download_file] returns nothing for it. *)
Theorem stored_object_round_trip file object_name w :
  s3_put_fails env object_name = false ->
  s3_get_fails svc object_name = false ->
  exists w1,
    s3_upload.upload_file env file object_name w
    = (Ret (Some (s3_upload.s3_url env object_name)), w1)
    /\ s3_service.download_file svc object_name w1
       = (Ret (Some (file_content file)), w1)
    /\ forall w2,
         s3_service.delete_file svc object_name w1 = (Ret true, w2) ->
         s3_service.download_file svc object_name w2 = (Ret None, w2).
Proof.
  intros Hput Hget.
  unfold s3_upload.upload_file, s3_service.download_file, s3_service.delete_file.
  rewrite Hput, Hget. eexists. split; [reflexivity|]. cbn.
  rewrite lookup_insert_eq. split; [reflexivity|].
  intros w2. destruct (s3_delete_fails svc object_name); [discriminate|].
  intros H. inversion H; subst. cbn. rewrite lookup_delete_eq. reflexivity.
Qed.

End more_endpoint_compositions.

Lemma foreign_document_looks_missing_witness :
  endpoints.query_document (demo.services demo.unreachable) 1 "How long?" 8
    demo.indexed
  = (Exc (HTTPException 404 "Document not found or you don't have access to it."),
     demo.indexed).
Proof.
  apply (proj1 (foreign_document_looks_missing (demo.services demo.unreachable)
                  demo_upload.env 1 "How long?"%string 8 demo.indexed
                  (demo.book models.COMPLETED) eq_refl
                  ltac:(vm_compute; discriminate))).
Defined.

Lemma upload_document_success_witness :
  let run :=
    endpoints_more.upload_document (demo.services demo.unreachable) demo_upload.env
      "Second Book" demo_upload.file 7 demo.indexed in
  exists task,
    delay demo_upload.env 2 = Ok task
    /\ s3_objects (snd run) !! "raw_pdfs/20240101120000000000_Second_Book.PDF"%string
       = Some (file_content demo_upload.file).
Proof.
  intros run.
  destruct (upload_document_success (demo.services demo.unreachable) demo_upload.env
              "Second Book"%string demo_upload.file 7 demo.indexed
              {| models.id := 2; models.title := "Second Book";
                 models.file_path :=
                   "https://books.s3.eu-west-1.amazonaws.com/raw_pdfs/20240101120000000000_Second_Book.PDF";
                 models.file_size_bytes := Some 13;
                 models.processing_status := models.PENDING;
                 models.summary := None;
                 models.celery_task_id := Some "task-2"%string;
                 models.owner_id := 7 |}
              (snd run) ltac:(vm_compute; reflexivity))
    as (task & Hdelay & _ & _ & _ & Hobjects & _).
  exists task. split; [exact Hdelay|]. rewrite Hobjects. apply lookup_insert_eq.
Defined.


Lemma upload_then_delete_restores_witness :
  let svc := demo.services demo.unreachable in
  let w1 :=
    snd (endpoints_more.upload_document svc demo_upload.env "Second Book"
           demo_upload.file 7 demo.indexed) in
  exists w2,
    endpoints.delete_document svc 2 7 w1 = (Ret tt, w2)
    /\ db_documents w2 = db_documents demo.indexed
    /\ s3_objects w2 = s3_objects demo.indexed.
Proof.
  intros svc w1.
  apply (upload_then_delete_restores svc demo_upload.env "Second Book"%string
           demo_upload.file 7 demo.indexed
           {| models.id := 2; models.title := "Second Book";
              models.file_path :=
                "https://books.s3.eu-west-1.amazonaws.com/raw_pdfs/20240101120000000000_Second_Book.PDF";
              models.file_size_bytes := Some 13;
              models.processing_status := models.PENDING;
              models.summary := None;
              models.celery_task_id := Some "task-2"%string;
              models.owner_id := 7 |} w1);
    vm_compute; reflexivity.
Defined.

Lemma status_asks_queue_only_when_processing_witness :
  endpoints_more.get_document_processing_status demo_upload.env_queue_down 1 7
    demo.indexed
  = endpoints_more.get_document_processing_status demo_upload.env 1 7 demo.indexed.
Proof.
  apply (proj1 (status_asks_queue_only_when_processing demo_upload.env
                  demo_upload.env_queue_down 1 7 demo.indexed
                  ltac:(intros document task_id Hdoc Hstatus;
                        vm_compute in Hdoc; inversion Hdoc; subst;
                        discriminate Hstatus))).
Defined.

Lemma status_after_task_witness :
  let svc := demo.services (demo.answers "It is short.") in
  let w' := snd (tasks.process_pdf_task svc 1 1 (demo.uploaded models.PENDING)) in
  exists response,
    endpoints_more.get_document_processing_status demo_upload.env 1 7 w'
    = (Ret response, w')
    /\ endpoints_more.document_id response = 1.
Proof.
  intros svc w'.
  destruct (status_after_task svc demo_upload.env 1 1 7
              (demo.uploaded models.PENDING) w' (demo.book models.PENDING)
              eq_refl eq_refl ltac:(vm_compute; reflexivity))
    as (response & Hrun & Hid & _).
  exists response. split; [exact Hrun | exact Hid].
Defined.

Lemma delete_document_database_failure_witness :
  exists detail w',
    endpoints.delete_document demo_index.services_db_down 1 7 demo.indexed
    = (Exc (HTTPException 500
              ("Failed to delete document and its associated data: " +:+ detail)),
       w')
    /\ db_documents w' = db_documents demo.indexed
    /\ s3_objects w' !! "raw_pdfs/1_Book.pdf"%string = None.
Proof.
  destruct (delete_document_database_failure demo_index.services_db_down 1 7
              demo.indexed (demo.book models.COMPLETED) eq_refl eq_refl eq_refl)
    as (detail & w' & Hrun & Hrows & Hobject & _).
  exists detail, w'. split; [exact Hrun|]. split; [exact Hrows|].
  apply Hobject. reflexivity.
Defined.

Lemma stored_object_round_trip_witness :
  exists w1,
    s3_upload.upload_file demo_upload.env demo_upload.file "raw_pdfs/x.pdf" demo.blank
    = (Ret (Some "https://books.s3.eu-west-1.amazonaws.com/raw_pdfs/x.pdf"%string), w1)
    /\ s3_service.download_file (demo.services demo.unreachable) "raw_pdfs/x.pdf" w1
       = (Ret (Some (file_content demo_upload.file)), w1).
Proof.
  destruct (stored_object_round_trip (demo.services demo.unreachable) demo_upload.env
              demo_upload.file "raw_pdfs/x.pdf"%string demo.blank eq_refl eq_refl)
    as (w1 & Hup & Hdown & _).
  exists w1. split; [exact Hup | exact Hdown].
Defined.

(** ** What the operations leave alone *)

Section footprints.

Variable svc : Services.

(** X26. After a run of [process_pdf_task] that returns, the row and the
    task state agree: either the document is [COMPLETED] and every
    progress report has been made, in order, ending with
    [Processing completed] at 100; or the document is [FAILED] and the
    reports stop short of the end and are followed by the state
    [FAILED]. *)
Theorem process_pdf_task_state_agrees fuel document_id document w w' :
  db_documents w !! document_id = Some document ->
  tasks.process_pdf_task svc fuel document_id w = (Ret tt, w') ->
  ((models.processing_status <$> db_documents w' !! document_id)
   = Some models.COMPLETED
   /\ task_states w'
      = task_states w
          ++ ("PROGRESS"%string, MetaProgress "Initializing" 5)
             :: tasks.progress_reports)
  \/ ((models.processing_status <$> db_documents w' !! document_id)
      = Some models.FAILED
      /\ exists k message,
           (k < length tasks.progress_reports)%nat
           /\ task_states w'
              = task_states w
                  ++ [("PROGRESS"%string, MetaProgress "Initializing" 5)]
                  ++ take k tasks.progress_reports
                  ++ [("FAILED"%string, MetaExc message 0)]).
Proof.
  intros Hdoc Hrun.
  pose proof Hrun as Hrun0.
  rewrite (process_pdf_task_unfold svc fuel _ _ _ Hdoc) in Hrun.
  unfold try_finally, try_except in Hrun.
  destruct (tasks.stages svc fuel document_id document (started document_id w))
    as [[[]|e|] w1] eqn:Hstages.
  - left.
    destruct (cleanup_returns (temp_counter w) w1) as [w3 Hclean].
    rewrite Hclean in Hrun. inversion Hrun; subst w3.
    rewrite (cleanup_unchanged db_documents _ (fun _ _ _ => eq_refl) _ _ _ Hclean).
    rewrite (cleanup_unchanged task_states _ (fun _ _ _ => eq_refl) _ _ _ Hclean).
    split.
    + assert (Hpresent : is_Some (db_documents w1 !! document_id)).
      { apply (stages_keeps_document svc fuel document_id document document_id
                 _ _ _ Hstages).
        cbn. apply lookup_alter_is_Some. rewrite Hdoc. eauto. }
      destruct (stages_completed svc _ _ _ _ _ Hstages) as [w0 Hdb].
      rewrite Hdb in *. rewrite lookup_alter_eq in *.
      destruct (db_documents w0 !! document_id) as [d0|];
        [reflexivity | destruct Hpresent; discriminate].
    + pose proof (stages_reports svc
                    (task_states w
                       ++ [("PROGRESS"%string, MetaProgress "Initializing" 5)])
                    fuel document_id document (started document_id w) (Ret tt) w1)
        as Hrep.
      rewrite (Hrep ltac:(cbn; rewrite app_nil_r; reflexivity) Hstages).
      rewrite <- app_assoc. reflexivity.
  - right.
    destruct (process_pdf_task_when_stage_raises svc fuel document_id document w e w1
                Hdoc Hstages)
      as (w3 & Hrun' & (d & Hd & Hfailed) & (k & Hk & Hstates) & _).
    rewrite Hrun' in Hrun0. inversion Hrun0; subst w3.
    rewrite Hd. cbn. rewrite Hfailed. split; [reflexivity|].
    exists k, (str_exc e). split; [exact Hk | exact Hstates].
  - discriminate.
Qed.

Lemma get_or_create_collection_effect name w c w' :
  vector_db_service.get_or_create_collection svc name w = (Ret c, w') ->
  w' = w \/ (chroma w !! name = None /\ w' = set_chroma (insert name []) w).
Proof.
  unfold vector_db_service.get_or_create_collection.
  destruct (negb (chroma_client svc)); [intros H; inversion H; left; reflexivity|].
  destruct (chroma_get_or_create_fails svc name);
    [intros H; inversion H; left; reflexivity|].
  destruct (chroma w !! name) eqn:E; intros H; inversion H; subst;
    [left; reflexivity | right; split; reflexivity].
Qed.

(** X27. The query operation writes nothing to the documents table, the
    object store or the task states, and changes no record of any vector
    collection: the only thing it can add to the vector store is the
    collection of its document, empty, when that collection did not
    exist. *)
Theorem query_document_footprint document_id query_text current_user w r w' :
  endpoints.query_document svc document_id query_text current_user w = (r, w') ->
  db_documents w' = db_documents w
  /\ s3_objects w' = s3_objects w
  /\ task_states w' = task_states w
  /\ (chroma w' = chroma w
      \/ exists document,
           db_documents w !! document_id = Some document
           /\ models.processing_status document = models.COMPLETED
           /\ chroma w !! ("doc_" +:+ Py.str_of_int (models.id document)) = None
           /\ chroma w'
              = <["doc_" +:+ Py.str_of_int (models.id document) := []]> (chroma w)).
Proof.
  intros H.
  split; [|split; [|split]].
  - exact (query_document_db svc _ _ _ _ _ _ H).
  - assert (Hs3 : preserves (unchanged s3_objects)
                    (endpoints.query_document svc document_id query_text current_user))
      by (unfold endpoints.query_document; frame).
    exact (Hs3 _ _ _ H).
  - assert (Hstates : preserves (unchanged task_states)
                        (endpoints.query_document svc document_id query_text
                           current_user))
      by (unfold endpoints.query_document; frame).
    exact (Hstates _ _ _ H).
  - unfold endpoints.query_document in H. unfold bind at 1, get_world in H.
    destruct (db_documents w !! document_id) as [document|] eqn:Hdoc;
      [|inversion H; left; reflexivity].
    destruct (negb _); [inversion H; left; reflexivity|].
    destruct (models.processing_status document) eqn:Hstatus;
      try (inversion H; left; reflexivity).
    cbv zeta in H.
    destruct (bind_inv _ _ _ _ _ H) as [(c & w1 & H1 & H2)|[(e & H1 & _)|[H1 _]]].
    + assert (Hrest : chroma w' = chroma w1).
      { revert H2. generalize w1 r w'.
        match goal with
        | |- forall w1 r w', ?m w1 = (r, w') -> _ =>
            change (preserves (unchanged chroma) m)
        end.
        frame. }
      rewrite Hrest.
      destruct (get_or_create_collection_effect _ _ _ _ H1) as [->|[Hnone ->]];
        [left; reflexivity|].
      right. exists document. repeat split; assumption || reflexivity.
    + revert H1. unfold vector_db_service.get_or_create_collection.
      repeat match goal with |- context [if ?c then _ else _] => destruct c end;
        discriminate.
    + revert H1. unfold vector_db_service.get_or_create_collection.
      repeat match goal with |- context [if ?c then _ else _] => destruct c end;
        discriminate.
Qed.

Lemma delete_file_other object_name (key : string) :
  key <> object_name ->
  preserves (unchanged (fun w => s3_objects w !! key))
    (s3_service.delete_file svc object_name).
Proof.
  intros Hne w r w' H. unfold s3_service.delete_file in H.
  destruct (s3_delete_fails svc object_name); inversion H; subst; [reflexivity|].
  unfold unchanged. cbn. apply lookup_delete_ne. congruence.
Qed.

Lemma delete_collection_other name (other : string) :
  other <> name ->
  preserves (unchanged (fun w => chroma w !! other))
    (vector_db_service.delete_collection svc name).
Proof.
  intros Hne w r w' H. unfold vector_db_service.delete_collection in H.
  destruct (negb (chroma_client svc)); [inversion H; subst; reflexivity|].
  destruct (chroma_delete_fails svc name); [inversion H; subst; reflexivity|].
  destruct (chroma w !! name); inversion H; subst; [|reflexivity].
  unfold unchanged. cbn. apply lookup_delete_ne. congruence.
Qed.

Lemma crud_delete_document_other document_id (j : Z) :
  j <> document_id ->
  preserves (unchanged (fun w => db_documents w !! j))
    (crud_document.delete_document svc document_id).
Proof.
  intros Hne w r w' H. unfold crud_document.delete_document in H.
  destruct (db_delete_fails svc document_id); inversion H; subst; [reflexivity|].
  unfold unchanged. cbn. apply lookup_delete_ne. congruence.
Qed.

Lemma crud_delete_document_unchanged {X} (f : World -> X) document_id :
  (forall g w, f (set_db_documents g w) = f w) ->
  preserves (unchanged f) (crud_document.delete_document svc document_id).
Proof.
  intros Hf w r w' H. unfold crud_document.delete_document in H.
  destruct (db_delete_fails svc document_id); inversion H; subst;
    [reflexivity | apply Hf].
Qed.

(** X28. Deleting a document touches nothing of the others: whatever
    the outcome, every other row of the table, every stored object other
    than the one named by the locator of the document, and every vector
    collection other than the one of the document are as they were, and
    no generation request is posted. *)
Theorem delete_document_footprint document_id current_user w r w' document :
  db_documents w !! document_id = Some document ->
  endpoints.delete_document svc document_id current_user w = (r, w') ->
  (forall j, j <> document_id -> db_documents w' !! j = db_documents w !! j)
  /\ (forall key,
        key <> Py.last_item (Py.split ".com/" (models.file_path document)) ->
        s3_objects w' !! key = s3_objects w !! key)
  /\ (forall name,
        name <> "doc_" +:+ Py.str_of_int (models.id document) ->
        chroma w' !! name = chroma w !! name)
  /\ llm_requests w' = llm_requests w.
Proof.
  intros Hdoc H.
  unfold endpoints.delete_document in H. unfold bind at 1, get_world in H.
  rewrite Hdoc in H.
  destruct (negb _);
    [inversion H; subst; repeat split; intros; reflexivity|].
  cbv zeta in H. revert H. generalize w r w'. clear w r w' Hdoc.
  match goal with
  | |- forall w r w', ?m w = (r, w') -> _ =>
      assert (Hrows : forall j, j <> document_id ->
                preserves (unchanged (fun w => db_documents w !! j)) m);
      [|assert (Hobjects : forall key,
                  key <> Py.last_item (Py.split ".com/" (models.file_path document)) ->
                  preserves (unchanged (fun w => s3_objects w !! key)) m);
        [|assert (Hcollections : forall name,
                    name <> "doc_" +:+ Py.str_of_int (models.id document) ->
                    preserves (unchanged (fun w => chroma w !! name)) m);
          [|assert (Hrequests : preserves (unchanged llm_requests) m)]]]
  end.
  - intros j Hj. frame; try (apply crud_delete_document_other; exact Hj);
      apply crud_delete_document_unchanged; intros; reflexivity.
  - intros key Hkey. frame; try (apply delete_file_other; exact Hkey);
      apply crud_delete_document_unchanged; intros; reflexivity.
  - intros name Hname. frame; try (apply delete_collection_other; exact Hname);
      apply crud_delete_document_unchanged; intros; reflexivity.
  - frame; apply crud_delete_document_unchanged; intros; reflexivity.
  - intros w r w' H. split; [|split; [|split]].
    + intros j Hj. exact (Hrows j Hj _ _ _ H).
    + intros key Hkey. exact (Hobjects key Hkey _ _ _ H).
    + intros name Hname. exact (Hcollections name Hname _ _ _ H).
    + exact (Hrequests _ _ _ H).
Qed.

End footprints.

Lemma process_pdf_task_state_agrees_witness :
  let svc := demo.services (demo.answers "It is short.") in
  let w' := snd (tasks.process_pdf_task svc 1 1 (demo.uploaded models.PENDING)) in
  (models.processing_status <$> db_documents w' !! 1) = Some models.COMPLETED
  \/ (models.processing_status <$> db_documents w' !! 1) = Some models.FAILED.
Proof.
  intros svc w'.
  destruct (process_pdf_task_state_agrees svc 1 1 (demo.book models.PENDING)
              (demo.uploaded models.PENDING) w' eq_refl
              ltac:(vm_compute; reflexivity))
    as [[Hstatus _]|[Hstatus _]]; [left | right]; exact Hstatus.
Defined.

Lemma query_document_footprint_witness :
  let svc := demo.services (demo.answers "It is short.") in
  let w' := snd (endpoints.query_document svc 1 "How long?" 7 demo.indexed) in
  db_documents w' = db_documents demo.indexed
  /\ s3_objects w' = s3_objects demo.indexed.
Proof.
  intros svc w'.
  destruct (query_document_footprint svc 1 "How long?"%string 7 demo.indexed
              (fst (endpoints.query_document svc 1 "How long?" 7 demo.indexed)) w'
              (surjective_pairing _))
    as (Hrows & Hobjects & _).
  split; [exact Hrows | exact Hobjects].
Defined.

Lemma delete_document_footprint_witness :
  let svc := demo.services demo.unreachable in
  let w' := snd (endpoints.delete_document svc 1 7 demo.indexed) in
  db_documents w' !! 2 = db_documents demo.indexed !! 2
  /\ llm_requests w' = llm_requests demo.indexed.
Proof.
  intros svc w'.
  destruct (delete_document_footprint svc 1 7 demo.indexed
              (fst (endpoints.delete_document svc 1 7 demo.indexed)) w'
              (demo.book models.COMPLETED) eq_refl (surjective_pairing _))
    as (Hrows & _ & _ & Hrequests).
  split; [apply Hrows; discriminate | exact Hrequests].
Defined.
